(** * Chess-AI: the Gemini provider service, the game session (App) and the
      chess board component, embedded as functions over explicit state.

    Sources:
    - [services/geminiService.ts]  class [GeminiChessService]
    - [App.tsx]                    component [App] (session orchestration)
    - [components/ChessBoard.tsx]  component [ChessBoard] (presentation)
    - [types.ts]                   shared type declarations

    The rules engine ([chess.js]) and the text-generation backend are
    external: the first is a parameter ([Chess.Engine]), the second is
    represented by the outcome of each network call ([ApiOutcome]).

    The program runs on one event loop. An asynchronous handler is cut
    at its [await]s and timers into segments; a segment runs to
    completion, reads the variables its closure captured when the
    handler was called, and writes the state cells ([setX(v)] stores
    [v], [setX(prev => ...)] transforms the current content). What is
    suspended is kept in the session together with what it captured. A
    handler called by a user event is the one of the latest render and
    so sees the current cells. *)

From Stdlib Require Import String Ascii List ZArith Bool Arith Lia.
From Stdlib Require Import DecimalString.
Import ListNotations.
Open Scope string_scope.
Open Scope list_scope.

(* ================================================================== *)
(** * Part I - definitions                                             *)
(* ================================================================== *)

(** ** JavaScript string primitives used by the sources

    A JavaScript string is a sequence of UTF-16 code units. It is
    represented here by the bytes of its UTF-8 encoding, a lone
    surrogate being encoded like any other code point below U+10000.
    An ASCII character is one byte and no byte of another character's
    encoding, so concatenation, [includes] with the ASCII needles of
    the sources and [replace(/\./g, '')] are computed on the bytes.
    [trim] and [toLowerCase] work on characters: the bytes are decoded
    into code points first. Bytes that are part of no encoding are
    kept as they are and count as characters without a code point. *)

Module Js.

Definition chars (s : string) : list ascii := list_ascii_of_string s.

(** [s.startsWith(w)] *)
Fixpoint startsWith (s w : string) {struct w} : bool :=
  match w, s with
  | EmptyString, _ => true
  | String _ _, EmptyString => false
  | String a w', String b s' => Ascii.eqb a b && startsWith s' w'
  end.

(** [s.includes(w)]: [w] occurs in [s] at some position. *)
Fixpoint includes (s w : string) : bool :=
  startsWith s w ||
  match s with
  | EmptyString => false
  | String _ r => includes r w
  end.

(** *** Characters

    A character of a string: its code point and the bytes that encode
    it ([codePoint] is [None] for a byte outside any encoding). *)
Record Char := { codePoint : option N; utf8 : string }.

Definition raw (b : ascii) : Char :=
  {| codePoint := None; utf8 := String b EmptyString |}.

(** The encoding of a code point. *)
Definition fromCodePoint (cp : N) : string :=
  let byte (n : N) := ascii_of_N n in
  let low (n : N) := byte (128 + n mod 64)%N in
  string_of_list_ascii
    (if (cp <? 128)%N then [byte cp]
     else if (cp <? 2048)%N then [byte (192 + cp / 64)%N; low cp]
     else if (cp <? 65536)%N then
       [byte (224 + cp / 4096)%N; low (cp / 64)%N; low cp]
     else
       [byte (240 + cp / 262144)%N; low (cp / 4096)%N; low (cp / 64)%N; low cp]).

(** Decoding reads one byte at a time. [Pending] is an encoding begun
    and not yet complete: the bytes seen, the number of continuation
    bytes still to come, the value accumulated, and the least code
    point an encoding of that length may stand for. *)
Record Pending := { seen : string; need : nat; acc : N; least : N }.

Definition isContinuation (b : ascii) : bool :=
  ((128 <=? N_of_ascii b) && (N_of_ascii b <=? 191))%N.

Definition start (b : ascii) : list Char * option Pending :=
  let n := N_of_ascii b in
  let lead (k : nat) (first least : N) :=
    ([], Some {| seen := String b EmptyString; need := k;
                 acc := n - first; least := least |}) in
  if (n <? 128)%N then
    ([{| codePoint := Some n; utf8 := String b EmptyString |}], None)
  else if ((194 <=? n) && (n <=? 223))%N then lead 1%nat 192%N 128%N
  else if ((224 <=? n) && (n <=? 239))%N then lead 2%nat 224%N 2048%N
  else if ((240 <=? n) && (n <=? 244))%N then lead 3%nat 240%N 65536%N
  else ([raw b], None).

Definition step (st : option Pending) (b : ascii) : list Char * option Pending :=
  match st with
  | None => start b
  | Some p =>
      if isContinuation b then
        let bytes := (seen p ++ String b EmptyString)%string in
        let value := (acc p * 64 + (N_of_ascii b - 128))%N in
        match need p with
        | 1%nat =>
            (if ((least p <=? value) && (value <=? 1114111))%N
             then [{| codePoint := Some value; utf8 := bytes |}]
             else map raw (chars bytes),
             None)
        | k =>
            ([], Some {| seen := bytes; need := pred k; acc := value; least := least p |})
        end
      else
        let (out, st') := start b in (map raw (chars (seen p)) ++ out, st')
  end.

Fixpoint decodeFrom (st : option Pending) (s : string) : list Char :=
  match s with
  | EmptyString =>
      match st with
      | None => []
      | Some p => map raw (chars (seen p))
      end
  | String b r => let (out, st') := step st b in out ++ decodeFrom st' r
  end.

(** The characters of a string. *)
Definition decode (s : string) : list Char := decodeFrom None s.

(** The string made of a sequence of characters. *)
Definition text (cs : list Char) : string :=
  fold_right (fun c s => (utf8 c ++ s)%string) EmptyString cs.

(** *** [trim]

    The code points of ECMAScript's WhiteSpace and LineTerminator: tab,
    line feed, vertical tab, form feed, carriage return, space,
    no-break space, U+1680, U+2000 to U+200A, line and paragraph
    separator, U+202F, U+205F, U+3000 and U+FEFF. *)
Definition whiteSpace : list N :=
  [9; 10; 11; 12; 13; 32; 160; 5760;
   8192; 8193; 8194; 8195; 8196; 8197; 8198; 8199; 8200; 8201; 8202;
   8232; 8233; 8239; 8287; 12288; 65279]%N.

Definition isWhiteSpace (c : Char) : bool :=
  match codePoint c with
  | Some cp => existsb (N.eqb cp) whiteSpace
  | None => false
  end.

Fixpoint dropWhile {A} (f : A -> bool) (l : list A) : list A :=
  match l with
  | [] => []
  | a :: r => if f a then dropWhile f r else l
  end.

Definition trimStart (cs : list Char) : list Char := dropWhile isWhiteSpace cs.

Definition trimEnd (cs : list Char) : list Char :=
  rev (dropWhile isWhiteSpace (rev cs)).

(** [s.trim()] *)
Definition trim (s : string) : string := text (trimEnd (trimStart (decode s))).

(** *** [toLowerCase]

    Unicode's default lower-casing (Unicode 14.0). [lowerCaseMapping]
    lists the code points whose lower case is another single code
    point, in runs [(first, last, stride, target of first)]: every
    [stride]-th code point from [first] to [last] maps to the code
    point at the same distance from the target. The other data are
    the cased and the case-ignorable code points, as ranges; they
    decide the lower case of the capital sigma. *)
Definition lowerCaseMapping : list (N * N * N * N) :=
  [
   (65, 90, 1, 97); (192, 214, 1, 224); (216, 222, 1, 248); (256, 302, 2, 257);
   (306, 310, 2, 307); (313, 327, 2, 314); (330, 374, 2, 331); (376, 376, 1, 255);
   (377, 381, 2, 378); (385, 385, 1, 595); (386, 388, 2, 387); (390, 390, 1, 596);
   (391, 391, 1, 392); (393, 394, 1, 598); (395, 395, 1, 396); (398, 398, 1, 477);
   (399, 399, 1, 601); (400, 400, 1, 603); (401, 401, 1, 402); (403, 403, 1, 608);
   (404, 404, 1, 611); (406, 406, 1, 617); (407, 407, 1, 616); (408, 408, 1, 409);
   (412, 412, 1, 623); (413, 413, 1, 626); (415, 415, 1, 629); (416, 420, 2, 417);
   (422, 422, 1, 640); (423, 423, 1, 424); (425, 425, 1, 643); (428, 428, 1, 429);
   (430, 430, 1, 648); (431, 431, 1, 432); (433, 434, 1, 650); (435, 437, 2, 436);
   (439, 439, 1, 658); (440, 440, 1, 441); (444, 444, 1, 445); (452, 452, 1, 454);
   (453, 453, 1, 454); (455, 455, 1, 457); (456, 456, 1, 457); (458, 458, 1, 460);
   (459, 475, 2, 460); (478, 494, 2, 479); (497, 497, 1, 499); (498, 500, 2, 499);
   (502, 502, 1, 405); (503, 503, 1, 447); (504, 542, 2, 505); (544, 544, 1, 414);
   (546, 562, 2, 547); (570, 570, 1, 11365); (571, 571, 1, 572); (573, 573, 1, 410);
   (574, 574, 1, 11366); (577, 577, 1, 578); (579, 579, 1, 384); (580, 580, 1, 649);
   (581, 581, 1, 652); (582, 590, 2, 583); (880, 882, 2, 881); (886, 886, 1, 887);
   (895, 895, 1, 1011); (902, 902, 1, 940); (904, 906, 1, 941); (908, 908, 1, 972);
   (910, 911, 1, 973); (913, 929, 1, 945); (931, 939, 1, 963); (975, 975, 1, 983);
   (984, 1006, 2, 985); (1012, 1012, 1, 952); (1015, 1015, 1, 1016); (1017, 1017, 1, 1010);
   (1018, 1018, 1, 1019); (1021, 1023, 1, 891); (1024, 1039, 1, 1104); (1040, 1071, 1, 1072);
   (1120, 1152, 2, 1121); (1162, 1214, 2, 1163); (1216, 1216, 1, 1231); (1217, 1229, 2, 1218);
   (1232, 1326, 2, 1233); (1329, 1366, 1, 1377); (4256, 4293, 1, 11520); (4295, 4295, 1, 11559);
   (4301, 4301, 1, 11565); (5024, 5103, 1, 43888); (5104, 5109, 1, 5112); (7312, 7354, 1, 4304);
   (7357, 7359, 1, 4349); (7680, 7828, 2, 7681); (7838, 7838, 1, 223); (7840, 7934, 2, 7841);
   (7944, 7951, 1, 7936); (7960, 7965, 1, 7952); (7976, 7983, 1, 7968); (7992, 7999, 1, 7984);
   (8008, 8013, 1, 8000); (8025, 8031, 2, 8017); (8040, 8047, 1, 8032); (8072, 8079, 1, 8064);
   (8088, 8095, 1, 8080); (8104, 8111, 1, 8096); (8120, 8121, 1, 8112); (8122, 8123, 1, 8048);
   (8124, 8124, 1, 8115); (8136, 8139, 1, 8050); (8140, 8140, 1, 8131); (8152, 8153, 1, 8144);
   (8154, 8155, 1, 8054); (8168, 8169, 1, 8160); (8170, 8171, 1, 8058); (8172, 8172, 1, 8165);
   (8184, 8185, 1, 8056); (8186, 8187, 1, 8060); (8188, 8188, 1, 8179); (8486, 8486, 1, 969);
   (8490, 8490, 1, 107); (8491, 8491, 1, 229); (8498, 8498, 1, 8526); (8544, 8559, 1, 8560);
   (8579, 8579, 1, 8580); (9398, 9423, 1, 9424); (11264, 11311, 1, 11312); (11360, 11360, 1, 11361);
   (11362, 11362, 1, 619); (11363, 11363, 1, 7549); (11364, 11364, 1, 637); (11367, 11371, 2, 11368);
   (11373, 11373, 1, 593); (11374, 11374, 1, 625); (11375, 11375, 1, 592); (11376, 11376, 1, 594);
   (11378, 11378, 1, 11379); (11381, 11381, 1, 11382); (11390, 11391, 1, 575); (11392, 11490, 2, 11393);
   (11499, 11501, 2, 11500); (11506, 11506, 1, 11507); (42560, 42604, 2, 42561); (42624, 42650, 2, 42625);
   (42786, 42798, 2, 42787); (42802, 42862, 2, 42803); (42873, 42875, 2, 42874); (42877, 42877, 1, 7545);
   (42878, 42886, 2, 42879); (42891, 42891, 1, 42892); (42893, 42893, 1, 613); (42896, 42898, 2, 42897);
   (42902, 42920, 2, 42903); (42922, 42922, 1, 614); (42923, 42923, 1, 604); (42924, 42924, 1, 609);
   (42925, 42925, 1, 620); (42926, 42926, 1, 618); (42928, 42928, 1, 670); (42929, 42929, 1, 647);
   (42930, 42930, 1, 669); (42931, 42931, 1, 43859); (42932, 42946, 2, 42933); (42948, 42948, 1, 42900);
   (42949, 42949, 1, 642); (42950, 42950, 1, 7566); (42951, 42953, 2, 42952); (42960, 42960, 1, 42961);
   (42966, 42968, 2, 42967); (42997, 42997, 1, 42998); (65313, 65338, 1, 65345); (66560, 66599, 1, 66600);
   (66736, 66771, 1, 66776); (66928, 66964, 2, 66967); (66929, 66937, 2, 66968); (66941, 66953, 2, 66980);
   (66957, 66961, 2, 66996); (66965, 66965, 1, 67004); (68736, 68786, 1, 68800); (71840, 71871, 1, 71872);
   (93760, 93791, 1, 93792); (125184, 125217, 1, 125218)
  ]%N.

Definition casedRanges : list (N * N) :=
  [
   (65, 90); (97, 122); (170, 170); (181, 181); (186, 186); (192, 214);
   (216, 246); (248, 442); (444, 447); (452, 659); (661, 696); (704, 705);
   (736, 740); (837, 837); (880, 883); (886, 887); (890, 893); (895, 895);
   (902, 902); (904, 906); (908, 908); (910, 929); (931, 1013); (1015, 1153);
   (1162, 1327); (1329, 1366); (1376, 1416); (4256, 4293); (4295, 4295); (4301, 4301);
   (4304, 4346); (4349, 4351); (5024, 5109); (5112, 5117); (7296, 7304); (7312, 7354);
   (7357, 7359); (7424, 7615); (7680, 7957); (7960, 7965); (7968, 8005); (8008, 8013);
   (8016, 8023); (8025, 8025); (8027, 8027); (8029, 8029); (8031, 8061); (8064, 8116);
   (8118, 8124); (8126, 8126); (8130, 8132); (8134, 8140); (8144, 8147); (8150, 8155);
   (8160, 8172); (8178, 8180); (8182, 8188); (8305, 8305); (8319, 8319); (8336, 8348);
   (8450, 8450); (8455, 8455); (8458, 8467); (8469, 8469); (8473, 8477); (8484, 8484);
   (8486, 8486); (8488, 8488); (8490, 8493); (8495, 8500); (8505, 8505); (8508, 8511);
   (8517, 8521); (8526, 8526); (8544, 8575); (8579, 8580); (9398, 9449); (11264, 11492);
   (11499, 11502); (11506, 11507); (11520, 11557); (11559, 11559); (11565, 11565); (42560, 42605);
   (42624, 42653); (42786, 42887); (42891, 42894); (42896, 42954); (42960, 42961); (42963, 42963);
   (42965, 42969); (42997, 42998); (43000, 43002); (43824, 43866); (43868, 43880); (43888, 43967);
   (64256, 64262); (64275, 64279); (65313, 65338); (65345, 65370); (66560, 66639); (66736, 66771);
   (66776, 66811); (66928, 66938); (66940, 66954); (66956, 66962); (66964, 66965); (66967, 66977);
   (66979, 66993); (66995, 67001); (67003, 67004); (67456, 67456); (67459, 67461); (67463, 67504);
   (67506, 67514); (68736, 68786); (68800, 68850); (71840, 71903); (93760, 93823); (119808, 119892);
   (119894, 119964); (119966, 119967); (119970, 119970); (119973, 119974); (119977, 119980); (119982, 119993);
   (119995, 119995); (119997, 120003); (120005, 120069); (120071, 120074); (120077, 120084); (120086, 120092);
   (120094, 120121); (120123, 120126); (120128, 120132); (120134, 120134); (120138, 120144); (120146, 120485);
   (120488, 120512); (120514, 120538); (120540, 120570); (120572, 120596); (120598, 120628); (120630, 120654);
   (120656, 120686); (120688, 120712); (120714, 120744); (120746, 120770); (120772, 120779); (122624, 122633);
   (122635, 122654); (125184, 125251); (127280, 127305); (127312, 127337); (127344, 127369)
  ]%N.

Definition caseIgnorableRanges : list (N * N) :=
  [
   (39, 39); (46, 46); (58, 58); (94, 94); (96, 96); (168, 168);
   (173, 173); (175, 175); (180, 180); (183, 184); (688, 879); (884, 885);
   (890, 890); (900, 901); (903, 903); (1155, 1161); (1369, 1369); (1375, 1375);
   (1425, 1469); (1471, 1471); (1473, 1474); (1476, 1477); (1479, 1479); (1524, 1524);
   (1536, 1541); (1552, 1562); (1564, 1564); (1600, 1600); (1611, 1631); (1648, 1648);
   (1750, 1757); (1759, 1768); (1770, 1773); (1807, 1807); (1809, 1809); (1840, 1866);
   (1958, 1968); (2027, 2037); (2042, 2042); (2045, 2045); (2070, 2093); (2137, 2139);
   (2184, 2184); (2192, 2193); (2200, 2207); (2249, 2306); (2362, 2362); (2364, 2364);
   (2369, 2376); (2381, 2381); (2385, 2391); (2402, 2403); (2417, 2417); (2433, 2433);
   (2492, 2492); (2497, 2500); (2509, 2509); (2530, 2531); (2558, 2558); (2561, 2562);
   (2620, 2620); (2625, 2626); (2631, 2632); (2635, 2637); (2641, 2641); (2672, 2673);
   (2677, 2677); (2689, 2690); (2748, 2748); (2753, 2757); (2759, 2760); (2765, 2765);
   (2786, 2787); (2810, 2815); (2817, 2817); (2876, 2876); (2879, 2879); (2881, 2884);
   (2893, 2893); (2901, 2902); (2914, 2915); (2946, 2946); (3008, 3008); (3021, 3021);
   (3072, 3072); (3076, 3076); (3132, 3132); (3134, 3136); (3142, 3144); (3146, 3149);
   (3157, 3158); (3170, 3171); (3201, 3201); (3260, 3260); (3263, 3263); (3270, 3270);
   (3276, 3277); (3298, 3299); (3328, 3329); (3387, 3388); (3393, 3396); (3405, 3405);
   (3426, 3427); (3457, 3457); (3530, 3530); (3538, 3540); (3542, 3542); (3633, 3633);
   (3636, 3642); (3654, 3662); (3761, 3761); (3764, 3772); (3782, 3782); (3784, 3789);
   (3864, 3865); (3893, 3893); (3895, 3895); (3897, 3897); (3953, 3966); (3968, 3972);
   (3974, 3975); (3981, 3991); (3993, 4028); (4038, 4038); (4141, 4144); (4146, 4151);
   (4153, 4154); (4157, 4158); (4184, 4185); (4190, 4192); (4209, 4212); (4226, 4226);
   (4229, 4230); (4237, 4237); (4253, 4253); (4348, 4348); (4957, 4959); (5906, 5908);
   (5938, 5939); (5970, 5971); (6002, 6003); (6068, 6069); (6071, 6077); (6086, 6086);
   (6089, 6099); (6103, 6103); (6109, 6109); (6155, 6159); (6211, 6211); (6277, 6278);
   (6313, 6313); (6432, 6434); (6439, 6440); (6450, 6450); (6457, 6459); (6679, 6680);
   (6683, 6683); (6742, 6742); (6744, 6750); (6752, 6752); (6754, 6754); (6757, 6764);
   (6771, 6780); (6783, 6783); (6823, 6823); (6832, 6862); (6912, 6915); (6964, 6964);
   (6966, 6970); (6972, 6972); (6978, 6978); (7019, 7027); (7040, 7041); (7074, 7077);
   (7080, 7081); (7083, 7085); (7142, 7142); (7144, 7145); (7149, 7149); (7151, 7153);
   (7212, 7219); (7222, 7223); (7288, 7293); (7376, 7378); (7380, 7392); (7394, 7400);
   (7405, 7405); (7412, 7412); (7416, 7417); (7468, 7530); (7544, 7544); (7579, 7679);
   (8125, 8125); (8127, 8129); (8141, 8143); (8157, 8159); (8173, 8175); (8189, 8190);
   (8203, 8207); (8216, 8217); (8228, 8228); (8231, 8231); (8234, 8238); (8288, 8292);
   (8294, 8303); (8305, 8305); (8319, 8319); (8336, 8348); (8400, 8432); (11388, 11389);
   (11503, 11505); (11631, 11631); (11647, 11647); (11744, 11775); (11823, 11823); (12293, 12293);
   (12330, 12333); (12337, 12341); (12347, 12347); (12441, 12446); (12540, 12542); (40981, 40981);
   (42232, 42237); (42508, 42508); (42607, 42610); (42612, 42621); (42623, 42623); (42652, 42655);
   (42736, 42737); (42752, 42785); (42864, 42864); (42888, 42890); (42994, 42996); (43000, 43001);
   (43010, 43010); (43014, 43014); (43019, 43019); (43045, 43046); (43052, 43052); (43204, 43205);
   (43232, 43249); (43263, 43263); (43302, 43309); (43335, 43345); (43392, 43394); (43443, 43443);
   (43446, 43449); (43452, 43453); (43471, 43471); (43493, 43494); (43561, 43566); (43569, 43570);
   (43573, 43574); (43587, 43587); (43596, 43596); (43632, 43632); (43644, 43644); (43696, 43696);
   (43698, 43700); (43703, 43704); (43710, 43711); (43713, 43713); (43741, 43741); (43756, 43757);
   (43763, 43764); (43766, 43766); (43867, 43871); (43881, 43883); (44005, 44005); (44008, 44008);
   (44013, 44013); (64286, 64286); (64434, 64450); (65024, 65039); (65043, 65043); (65056, 65071);
   (65106, 65106); (65109, 65109); (65279, 65279); (65287, 65287); (65294, 65294); (65306, 65306);
   (65342, 65342); (65344, 65344); (65392, 65392); (65438, 65439); (65507, 65507); (65529, 65531);
   (66045, 66045); (66272, 66272); (66422, 66426); (67456, 67461); (67463, 67504); (67506, 67514);
   (68097, 68099); (68101, 68102); (68108, 68111); (68152, 68154); (68159, 68159); (68325, 68326);
   (68900, 68903); (69291, 69292); (69446, 69456); (69506, 69509); (69633, 69633); (69688, 69702);
   (69744, 69744); (69747, 69748); (69759, 69761); (69811, 69814); (69817, 69818); (69821, 69821);
   (69826, 69826); (69837, 69837); (69888, 69890); (69927, 69931); (69933, 69940); (70003, 70003);
   (70016, 70017); (70070, 70078); (70089, 70092); (70095, 70095); (70191, 70193); (70196, 70196);
   (70198, 70199); (70206, 70206); (70367, 70367); (70371, 70378); (70400, 70401); (70459, 70460);
   (70464, 70464); (70502, 70508); (70512, 70516); (70712, 70719); (70722, 70724); (70726, 70726);
   (70750, 70750); (70835, 70840); (70842, 70842); (70847, 70848); (70850, 70851); (71090, 71093);
   (71100, 71101); (71103, 71104); (71132, 71133); (71219, 71226); (71229, 71229); (71231, 71232);
   (71339, 71339); (71341, 71341); (71344, 71349); (71351, 71351); (71453, 71455); (71458, 71461);
   (71463, 71467); (71727, 71735); (71737, 71738); (71995, 71996); (71998, 71998); (72003, 72003);
   (72148, 72151); (72154, 72155); (72160, 72160); (72193, 72202); (72243, 72248); (72251, 72254);
   (72263, 72263); (72273, 72278); (72281, 72283); (72330, 72342); (72344, 72345); (72752, 72758);
   (72760, 72765); (72767, 72767); (72850, 72871); (72874, 72880); (72882, 72883); (72885, 72886);
   (73009, 73014); (73018, 73018); (73020, 73021); (73023, 73029); (73031, 73031); (73104, 73105);
   (73109, 73109); (73111, 73111); (73459, 73460); (78896, 78904); (92912, 92916); (92976, 92982);
   (92992, 92995); (94031, 94031); (94095, 94111); (94176, 94177); (94179, 94180); (110576, 110579);
   (110581, 110587); (110589, 110590); (113821, 113822); (113824, 113827); (118528, 118573); (118576, 118598);
   (119143, 119145); (119155, 119170); (119173, 119179); (119210, 119213); (119362, 119364); (121344, 121398);
   (121403, 121452); (121461, 121461); (121476, 121476); (121499, 121503); (121505, 121519); (122880, 122886);
   (122888, 122904); (122907, 122913); (122915, 122916); (122918, 122922); (123184, 123197); (123566, 123566);
   (123628, 123631); (125136, 125142); (125252, 125259); (127995, 127999); (917505, 917505); (917536, 917631);
   (917760, 917999)
  ]%N.


Definition inRanges (ranges : list (N * N)) (cp : N) : bool :=
  existsb (fun r => ((fst r <=? cp) && (cp <=? snd r))%N) ranges.

Definition isCased (c : Char) : bool :=
  match codePoint c with Some cp => inRanges casedRanges cp | None => false end.

Definition isCaseIgnorable (c : Char) : bool :=
  match codePoint c with Some cp => inRanges caseIgnorableRanges cp | None => false end.

(** The code point a table of runs maps a code point to (itself when
    no run holds it). *)
Definition simpleMapping (table : list (N * N * N * N)) (cp : N) : N :=
  match
    find (fun r => match r with
                   | (first, last, stride, _) =>
                       ((first <=? cp) && (cp <=? last)
                        && ((cp - first) mod stride =? 0))%N
                   end) table
  with
  | Some (first, _, _, target) => (target + (cp - first))%N
  | None => cp
  end.

(** The simple lower-case mapping of a code point. *)
Definition lowerCodePoint (cp : N) : N := simpleMapping lowerCaseMapping cp.

(** Going from a character in one direction: after any number of
    case-ignorable characters comes a cased letter. *)
Fixpoint nextIsCased (cs : list Char) : bool :=
  match cs with
  | [] => false
  | c :: r => if isCaseIgnorable c then nextIsCased r else isCased c
  end.

(** The lower case of one character; [before] are the characters that
    precede it, nearest first, [after] those that follow. A capital
    sigma (U+03A3) becomes the final sigma (U+03C2) when a cased letter
    precedes it and none follows, and the small sigma (U+03C3)
    otherwise; the capital I with dot above (U+0130) becomes [i]
    followed by the combining dot above (U+0307). *)
Definition lowerOf (before after : list Char) (c : Char) : string :=
  match codePoint c with
  | None => utf8 c
  | Some cp =>
      if (cp =? 931)%N then
        if nextIsCased before && negb (nextIsCased after)
        then fromCodePoint 962 else fromCodePoint 963
      else if (cp =? 304)%N then (fromCodePoint 105 ++ fromCodePoint 775)%string
      else if (lowerCodePoint cp =? cp)%N then utf8 c
      else fromCodePoint (lowerCodePoint cp)
  end.

Fixpoint lowerFrom (before cs : list Char) : string :=
  match cs with
  | [] => EmptyString
  | c :: r => (lowerOf before r c ++ lowerFrom (c :: before) r)%string
  end.

(** [s.toLowerCase()] *)
Definition toLowerCase (s : string) : string := lowerFrom [] (decode s).

(** *** [toUpperCase]

    Unicode's default upper-casing (Unicode 14.0), which depends on no
    context: [upperCaseMapping] lists the code points whose upper case
    is another single code point, [upperCaseSpecial] those whose upper
    case is several code points. *)
Definition upperCaseMapping : list (N * N * N * N) :=
  [
   (97, 122, 1, 65); (181, 181, 1, 924); (224, 246, 1, 192); (248, 254, 1, 216);
   (255, 255, 1, 376); (257, 303, 2, 256); (305, 305, 1, 73); (307, 311, 2, 306);
   (314, 328, 2, 313); (331, 375, 2, 330); (378, 382, 2, 377); (383, 383, 1, 83);
   (384, 384, 1, 579); (387, 389, 2, 386); (392, 392, 1, 391); (396, 396, 1, 395);
   (402, 402, 1, 401); (405, 405, 1, 502); (409, 409, 1, 408); (410, 410, 1, 573);
   (414, 414, 1, 544); (417, 421, 2, 416); (424, 424, 1, 423); (429, 429, 1, 428);
   (432, 432, 1, 431); (436, 438, 2, 435); (441, 441, 1, 440); (445, 445, 1, 444);
   (447, 447, 1, 503); (453, 453, 1, 452); (454, 454, 1, 452); (456, 456, 1, 455);
   (457, 457, 1, 455); (459, 459, 1, 458); (460, 460, 1, 458); (462, 476, 2, 461);
   (477, 477, 1, 398); (479, 495, 2, 478); (498, 498, 1, 497); (499, 499, 1, 497);
   (501, 501, 1, 500); (505, 543, 2, 504); (547, 563, 2, 546); (572, 572, 1, 571);
   (575, 576, 1, 11390); (578, 578, 1, 577); (583, 591, 2, 582); (592, 592, 1, 11375);
   (593, 593, 1, 11373); (594, 594, 1, 11376); (595, 595, 1, 385); (596, 596, 1, 390);
   (598, 599, 1, 393); (601, 601, 1, 399); (603, 603, 1, 400); (604, 604, 1, 42923);
   (608, 608, 1, 403); (609, 609, 1, 42924); (611, 611, 1, 404); (613, 613, 1, 42893);
   (614, 614, 1, 42922); (616, 616, 1, 407); (617, 617, 1, 406); (618, 618, 1, 42926);
   (619, 619, 1, 11362); (620, 620, 1, 42925); (623, 623, 1, 412); (625, 625, 1, 11374);
   (626, 626, 1, 413); (629, 629, 1, 415); (637, 637, 1, 11364); (640, 640, 1, 422);
   (642, 642, 1, 42949); (643, 643, 1, 425); (647, 647, 1, 42929); (648, 648, 1, 430);
   (649, 649, 1, 580); (650, 651, 1, 433); (652, 652, 1, 581); (658, 658, 1, 439);
   (669, 669, 1, 42930); (670, 670, 1, 42928); (837, 837, 1, 921); (881, 883, 2, 880);
   (887, 887, 1, 886); (891, 893, 1, 1021); (940, 940, 1, 902); (941, 943, 1, 904);
   (945, 961, 1, 913); (962, 962, 1, 931); (963, 971, 1, 931); (972, 972, 1, 908);
   (973, 974, 1, 910); (976, 976, 1, 914); (977, 977, 1, 920); (981, 981, 1, 934);
   (982, 982, 1, 928); (983, 983, 1, 975); (985, 1007, 2, 984); (1008, 1008, 1, 922);
   (1009, 1009, 1, 929); (1010, 1010, 1, 1017); (1011, 1011, 1, 895); (1013, 1013, 1, 917);
   (1016, 1016, 1, 1015); (1019, 1019, 1, 1018); (1072, 1103, 1, 1040); (1104, 1119, 1, 1024);
   (1121, 1153, 2, 1120); (1163, 1215, 2, 1162); (1218, 1230, 2, 1217); (1231, 1231, 1, 1216);
   (1233, 1327, 2, 1232); (1377, 1414, 1, 1329); (4304, 4346, 1, 7312); (4349, 4351, 1, 7357);
   (5112, 5117, 1, 5104); (7296, 7296, 1, 1042); (7297, 7297, 1, 1044); (7298, 7298, 1, 1054);
   (7299, 7300, 1, 1057); (7301, 7301, 1, 1058); (7302, 7302, 1, 1066); (7303, 7303, 1, 1122);
   (7304, 7304, 1, 42570); (7545, 7545, 1, 42877); (7549, 7549, 1, 11363); (7566, 7566, 1, 42950);
   (7681, 7829, 2, 7680); (7835, 7835, 1, 7776); (7841, 7935, 2, 7840); (7936, 7943, 1, 7944);
   (7952, 7957, 1, 7960); (7968, 7975, 1, 7976); (7984, 7991, 1, 7992); (8000, 8005, 1, 8008);
   (8017, 8023, 2, 8025); (8032, 8039, 1, 8040); (8048, 8049, 1, 8122); (8050, 8053, 1, 8136);
   (8054, 8055, 1, 8154); (8056, 8057, 1, 8184); (8058, 8059, 1, 8170); (8060, 8061, 1, 8186);
   (8112, 8113, 1, 8120); (8126, 8126, 1, 921); (8144, 8145, 1, 8152); (8160, 8161, 1, 8168);
   (8165, 8165, 1, 8172); (8526, 8526, 1, 8498); (8560, 8575, 1, 8544); (8580, 8580, 1, 8579);
   (9424, 9449, 1, 9398); (11312, 11359, 1, 11264); (11361, 11361, 1, 11360); (11365, 11365, 1, 570);
   (11366, 11366, 1, 574); (11368, 11372, 2, 11367); (11379, 11379, 1, 11378); (11382, 11382, 1, 11381);
   (11393, 11491, 2, 11392); (11500, 11502, 2, 11499); (11507, 11507, 1, 11506); (11520, 11557, 1, 4256);
   (11559, 11559, 1, 4295); (11565, 11565, 1, 4301); (42561, 42605, 2, 42560); (42625, 42651, 2, 42624);
   (42787, 42799, 2, 42786); (42803, 42863, 2, 42802); (42874, 42876, 2, 42873); (42879, 42887, 2, 42878);
   (42892, 42892, 1, 42891); (42897, 42899, 2, 42896); (42900, 42900, 1, 42948); (42903, 42921, 2, 42902);
   (42933, 42947, 2, 42932); (42952, 42954, 2, 42951); (42961, 42961, 1, 42960); (42967, 42969, 2, 42966);
   (42998, 42998, 1, 42997); (43859, 43859, 1, 42931); (43888, 43967, 1, 5024); (65345, 65370, 1, 65313);
   (66600, 66639, 1, 66560); (66776, 66811, 1, 66736); (66967, 67003, 2, 66928); (66968, 66976, 2, 66929);
   (66980, 66992, 2, 66941); (66996, 67000, 2, 66957); (67004, 67004, 1, 66965); (68800, 68850, 1, 68736);
   (71872, 71903, 1, 71840); (93792, 93823, 1, 93760); (125218, 125251, 1, 125184)
  ]%N.

Definition upperCaseSpecial : list (N * list N) :=
  [
   (223, [83; 83]); (329, [700; 78]); (496, [74; 780]);
   (912, [921; 776; 769]); (944, [933; 776; 769]); (1415, [1333; 1362]);
   (7830, [72; 817]); (7831, [84; 776]); (7832, [87; 778]);
   (7833, [89; 778]); (7834, [65; 702]); (8016, [933; 787]);
   (8018, [933; 787; 768]); (8020, [933; 787; 769]); (8022, [933; 787; 834]);
   (8064, [7944; 921]); (8065, [7945; 921]); (8066, [7946; 921]);
   (8067, [7947; 921]); (8068, [7948; 921]); (8069, [7949; 921]);
   (8070, [7950; 921]); (8071, [7951; 921]); (8072, [7944; 921]);
   (8073, [7945; 921]); (8074, [7946; 921]); (8075, [7947; 921]);
   (8076, [7948; 921]); (8077, [7949; 921]); (8078, [7950; 921]);
   (8079, [7951; 921]); (8080, [7976; 921]); (8081, [7977; 921]);
   (8082, [7978; 921]); (8083, [7979; 921]); (8084, [7980; 921]);
   (8085, [7981; 921]); (8086, [7982; 921]); (8087, [7983; 921]);
   (8088, [7976; 921]); (8089, [7977; 921]); (8090, [7978; 921]);
   (8091, [7979; 921]); (8092, [7980; 921]); (8093, [7981; 921]);
   (8094, [7982; 921]); (8095, [7983; 921]); (8096, [8040; 921]);
   (8097, [8041; 921]); (8098, [8042; 921]); (8099, [8043; 921]);
   (8100, [8044; 921]); (8101, [8045; 921]); (8102, [8046; 921]);
   (8103, [8047; 921]); (8104, [8040; 921]); (8105, [8041; 921]);
   (8106, [8042; 921]); (8107, [8043; 921]); (8108, [8044; 921]);
   (8109, [8045; 921]); (8110, [8046; 921]); (8111, [8047; 921]);
   (8114, [8122; 921]); (8115, [913; 921]); (8116, [902; 921]);
   (8118, [913; 834]); (8119, [913; 834; 921]); (8124, [913; 921]);
   (8130, [8138; 921]); (8131, [919; 921]); (8132, [905; 921]);
   (8134, [919; 834]); (8135, [919; 834; 921]); (8140, [919; 921]);
   (8146, [921; 776; 768]); (8147, [921; 776; 769]); (8150, [921; 834]);
   (8151, [921; 776; 834]); (8162, [933; 776; 768]); (8163, [933; 776; 769]);
   (8164, [929; 787]); (8166, [933; 834]); (8167, [933; 776; 834]);
   (8178, [8186; 921]); (8179, [937; 921]); (8180, [911; 921]);
   (8182, [937; 834]); (8183, [937; 834; 921]); (8188, [937; 921]);
   (64256, [70; 70]); (64257, [70; 73]); (64258, [70; 76]);
   (64259, [70; 70; 73]); (64260, [70; 70; 76]); (64261, [83; 84]);
   (64262, [83; 84]); (64275, [1348; 1350]); (64276, [1348; 1333]);
   (64277, [1348; 1339]); (64278, [1358; 1350]); (64279, [1348; 1341])
  ]%N.

Definition upperOf (c : Char) : string :=
  match codePoint c with
  | None => utf8 c
  | Some cp =>
      match find (fun e => (fst e =? cp)%N) upperCaseSpecial with
      | Some (_, cps) =>
          fold_right (fun u s => (fromCodePoint u ++ s)%string) EmptyString cps
      | None =>
          if (simpleMapping upperCaseMapping cp =? cp)%N then utf8 c
          else fromCodePoint (simpleMapping upperCaseMapping cp)
      end
  end.

(** [s.toUpperCase()] *)
Definition toUpperCase (s : string) : string :=
  fold_right (fun c r => (upperOf c ++ r)%string) EmptyString (decode s).

(** [s.replace(/\./g, '')] *)
Fixpoint removeDots (s : string) : string :=
  match s with
  | EmptyString => EmptyString
  | String c r => if Ascii.eqb c "."%char then removeDots r else String c (removeDots r)
  end.

(** Truthiness of a string value: only the empty string is falsy. *)
Definition truthy (s : string) : bool :=
  match s with EmptyString => false | String _ _ => true end.

(** [x || d] where [x] is [string | undefined | null]. *)
Definition orElse (x : option string) (d : string) : string :=
  match x with
  | Some s => if truthy s then s else d
  | None => d
  end.

(** Template interpolation of an integral number. *)
Definition numberToString (n : Z) : string :=
  NilZero.string_of_int (Z.to_int n).

(** [xs.slice(-n)]: the last [n] elements. *)
Definition sliceLast {A} (n : nat) (xs : list A) : list A :=
  skipn (length xs - n) xs.

(** [xs.join(sep)] on an array of strings ([undefined] prints empty). *)
Fixpoint join (sep : string) (xs : list (option string)) : string :=
  match xs with
  | [] => ""
  | [x] => match x with Some s => s | None => "" end
  | x :: r => ((match x with Some s => s | None => "" end) ++ sep ++ join sep r)%string
  end.

Definition dquote : string := String (ascii_of_nat 34) EmptyString.
Definition newline : string := String (ascii_of_nat 10) EmptyString.

(** [xs.indexOf(x)] on an array of strings: [-1] when [x] is absent. *)
Fixpoint indexOf (xs : list string) (x : string) : Z :=
  match xs with
  | [] => (-1)%Z
  | y :: r =>
      if String.eqb y x then 0%Z
      else match indexOf r x with
           | Zneg _ => (-1)%Z
           | i => (i + 1)%Z
           end
  end.

End Js.

(** ** ASCII letters

    The case of the letters A to Z, on single bytes; it reads the piece
    letters of a FEN and states what [Js.toLowerCase] does on ASCII
    text. *)

Module Latin.

Definition lowerChar (c : ascii) : ascii :=
  let n := nat_of_ascii c in
  if (65 <=? n)%nat && (n <=? 90)%nat then ascii_of_nat (n + 32) else c.

Fixpoint lowerCase (s : string) : string :=
  match s with
  | EmptyString => EmptyString
  | String c r => String (lowerChar c) (lowerCase r)
  end.

(** Every byte of the string is an ASCII character. *)
Definition isAscii (s : string) : bool :=
  forallb (fun c => (N_of_ascii c <? 128)%N) (Js.chars s).

End Latin.


(** ** Completions: a call either returns or throws *)

Inductive Completion (A : Type) : Type :=
| Returns (a : A)
| Throws.
Arguments Returns {A} a.
Arguments Throws {A}.

Definition bindC {A B} (c : Completion A) (k : A -> Completion B) : Completion B :=
  match c with
  | Returns a => k a
  | Throws => Throws
  end.

(** [try { body } catch (error) { handler }] *)
Definition tryCatch {A} (body : Completion A) (handler : Completion A) : Completion A :=
  match body with
  | Returns a => Returns a
  | Throws => handler
  end.

(** ** geminiService.ts *)

Module GeminiChessService.

(** What an [await this.ai.models.generateContent(...)] produces: the
    promise rejects (network error, exception in the client), or it
    resolves to a response whose [text] is a string or [undefined]. *)
Inductive ApiOutcome : Type :=
| ApiRejects
| ApiResponds (text : option string).

Definition await (o : ApiOutcome) : Completion (option string) :=
  match o with
  | ApiRejects => Throws
  | ApiResponds t => Returns t
  end.

(** The argument of [generateContent]. *)
Record GenerateRequest : Type := {
  model : string;
  contents : string;
  systemInstruction : option string;
  thinkingBudget : Z
}.

Definition getEloDescription (elo : Z) : string :=
  if (elo <? 800)%Z then "Beginner - prone to blunders"
  else if (elo <? 1200)%Z then "Casual Player"
  else if (elo <? 1600)%Z then "Club Player"
  else if (elo <? 2000)%Z then "Expert"
  else if (elo <? 2500)%Z then "Master"
  else if (elo <? 3500)%Z then "Grandmaster"
  else "Super-Engine / Chess God".

Definition indent8 : string := "        ".
Definition indent11 : string := "           ".

Definition bestMoveRequest (fen : string) (elo : Z) : GenerateRequest :=
  let eloContext := getEloDescription elo in
  {| model := "gemini-3-flash-preview";
     contents := String.concat "" [
       "Current Chess Position (FEN): "; fen; ". "; Js.newline;
       indent8; "You are playing as a player with "; Js.numberToString elo;
         " Elo ("; eloContext; ")."; Js.newline;
       indent8; "Your task: Return the best legal move for the current side. "; Js.newline;
       indent8; "If your Elo is low (<800), you might make simple mistakes or ignore hanging pieces. "; Js.newline;
       indent8; "If your Elo is high (>2500), you must find the most precise grandmaster move."; Js.newline;
       indent8; "IMPORTANT: Only return the move in Standard Algebraic Notation (SAN), e.g., ";
         Js.dquote; "e4"; Js.dquote; ", "; Js.dquote; "Nf3"; Js.dquote; ", ";
         Js.dquote; "O-O"; Js.dquote; ", "; Js.dquote; "Bxf7+"; Js.dquote;
         ". Do not include any other text." ];
     systemInstruction := None;
     thinkingBudget := if (2000 <? elo)%Z then 1000 else 0 |}.

(** [getBestMove(fen, elo)], given the outcome of its one network call. *)
Definition getBestMove (fen : string) (elo : Z) (o : ApiOutcome)
  : Completion (option string) :=
  let eloContext := getEloDescription elo in
  tryCatch
    (bindC (await o) (fun text =>
     let moveStr := option_map (fun t => Js.removeDots (Js.trim t)) text in
     Returns (match moveStr with
              | Some m => if Js.truthy m then Some m else None
              | None => None
              end)))
    (Returns None).

Definition analysisRequest (fen : string) (history : list (option string)) (elo : Z)
  : GenerateRequest :=
  let eloContext := getEloDescription elo in
  {| model := "gemini-3-flash-preview";
     contents := String.concat "" [
       "Analyze this chess position (FEN: "; fen; "). Skill level: Elo ";
         Js.numberToString elo; " ("; eloContext; "). "; Js.newline;
       indent8; "Recent move history: "; Js.join ", " (Js.sliceLast 5 history); ". "; Js.newline;
       indent8; "Provide a brief strategic insight (max 2 sentences) fitting this Elo." ];
     systemInstruction := None;
     thinkingBudget := 0 |}.

Definition analysisUnavailable : string := "Analysis unavailable.".
Definition analysisFailed : string := "Failed to get AI analysis.".

(** [getMoveAnalysis(fen, history, elo)] *)
Definition getMoveAnalysis (fen : string) (history : list (option string)) (elo : Z)
  (o : ApiOutcome) : Completion string :=
  let eloContext := getEloDescription elo in
  tryCatch
    (bindC (await o) (fun text =>
     Returns (Js.orElse text analysisUnavailable)))
    (Returns analysisFailed).

Definition profaneWords : list string :=
  ["fuck"; "shit"; "ass"; "bitch"; "dick"; "pussy"; "cunt"; "idiot"; "stupid"; "bastard"].

(** [profaneWords.some(word => message.toLowerCase().includes(word))] *)
Definition hasCurse (message : string) : bool :=
  existsb (fun word => Js.includes (Js.toLowerCase message) word) profaneWords.

Definition savagePrompt (elo : Z) : string :=
  String.concat "" [
    "The user just cursed or was rude. You are a savage, badass chess grandmaster with ";
      Js.numberToString elo; " Elo. "; Js.newline;
    indent11; "Roast them for their low-level behavior and their chess skills. Be witty, cold, and absolutely savage. "; Js.newline;
    indent11; "Keep it under 3 sentences. No filters, just pure high-IQ arrogance." ].

Definition coachPrompt (message fen : string) (elo : Z) : string :=
  let eloContext := getEloDescription elo in
  String.concat "" [
    "You are a chess coach representing a player with an Elo of ";
      Js.numberToString elo; " ("; eloContext; "). "; Js.newline;
    indent11; "Current FEN: "; fen; ". User asks: "; Js.dquote; message; Js.dquote; ". "; Js.newline;
    indent11; "Answer concisely at a depth matching "; Js.numberToString elo; " Elo." ].

Definition chatRequest (message fen : string) (elo : Z) : GenerateRequest :=
  let systemPrompt :=
    if hasCurse message then savagePrompt elo else coachPrompt message fen elo in
  {| model := "gemini-3-flash-preview";
     contents := message;
     systemInstruction := Some systemPrompt;
     thinkingBudget := if hasCurse message then 1000 else 500 |}.

Definition chatUnsure : string := "I'm not sure about that.".
Definition chatFailed : string := "Even the API is embarrassed by that request.".

(** [getChatResponse(message, fen, elo)] *)
Definition getChatResponse (message fen : string) (elo : Z) (o : ApiOutcome)
  : Completion string :=
  let eloContext := getEloDescription elo in
  let hasCurse := hasCurse message in
  tryCatch
    (bindC (await o) (fun text =>
     Returns (Js.orElse text chatUnsure)))
    (Returns chatFailed).

End GeminiChessService.

(** ** types.ts *)

Inductive Color : Type := White | Black.

Inductive PieceType : Type := Pawn | Knight | Bishop | Rook | Queen | King.

Record Piece : Type := { type : PieceType; color : Color }.

Definition Square : Type := string.

Inductive Role : Type := User | Assistant.

Record ChatMessage : Type := { role : Role; content : string }.

Definition Color_eqb (a b : Color) : bool :=
  match a, b with
  | White, White | Black, Black => true
  | _, _ => false
  end.

(** ** The rules engine ([chess.js]) as the sources use it *)

(** The value handed to [game.move(...)] in its string form; an array
    read out of range yields [undefined]. *)
Definition SanValue : Type := option string.

(** The object form [{ from, to, promotion }] handed to [game.move]. *)
Record MoveObject : Type := {
  from : Square;
  to : Square;
  promotion : string
}.

(** [game.move(...)] on a [Chess] object: the object is advanced and a
    move with its [san] is returned, or [null] is returned, or an error
    is thrown (which of the two an illegal move does depends on the
    engine's version; the callers provide for both). *)
Inductive MoveOutcome (G : Type) : Type :=
| Moved (g : G) (san : string)
| MoveNull
| MoveThrows.
Arguments Moved {G} g san.
Arguments MoveNull {G}.
Arguments MoveThrows {G}.

Module Chess.

Record Engine : Type := {
  Game : Type;
  new : Game;                                     (* new Chess() *)
  load : string -> Game;                          (* new Chess(fen) *)
  fen : Game -> string;                           (* game.fen() *)
  move : Game -> SanValue -> MoveOutcome Game;    (* game.move(san) *)
  moveFromTo : Game -> MoveObject -> MoveOutcome Game;
                                                  (* game.move({from, to, promotion}) *)
  moves : Game -> list string;                    (* game.moves() *)
  movesFrom : Game -> Square -> list Square;
                            (* game.moves({square, verbose: true}).map(m => m.to) *)
  get : Game -> Square -> option Piece;           (* game.get(square) *)
  turn : Game -> Color;                           (* game.turn() *)
  isGameOver : Game -> bool;
  isCheckmate : Game -> bool;
  inCheck : Game -> bool
}.

End Chess.

(** The parameter of [onMove]: [{ from, to, promotion? }]. *)
Record MoveRequest : Type := {
  req_from : Square;
  req_to : Square;
  req_promotion : option string
}.

(** ** App.tsx *)

Module App.

Import GeminiChessService.

Section WithEngine.

Variable E : Chess.Engine.

(** The component's [useState] cells. *)
Record State : Type := {
  game : Chess.Game E;
  history : list SanValue;
  aiAnalysis : string;
  chatMessages : list ChatMessage;
  inputMessage : string;
  isAiThinking : bool;
  isAiPlaying : bool;
  elo : Z
}.

Definition initialState : State :=
  {| game := Chess.new E;
     history := [];
     aiAnalysis := "Make a move to see AI analysis.";
     chatMessages := [];
     inputMessage := "";
     isAiThinking := false;
     isAiPlaying := false;
     elo := 1500 |}.

Definition setGame (g : Chess.Game E) (s : State) : State :=
  {| game := g; history := history s; aiAnalysis := aiAnalysis s;
     chatMessages := chatMessages s; inputMessage := inputMessage s;
     isAiThinking := isAiThinking s; isAiPlaying := isAiPlaying s; elo := elo s |}.

Definition setHistory (f : list SanValue -> list SanValue) (s : State) : State :=
  {| game := game s; history := f (history s); aiAnalysis := aiAnalysis s;
     chatMessages := chatMessages s; inputMessage := inputMessage s;
     isAiThinking := isAiThinking s; isAiPlaying := isAiPlaying s; elo := elo s |}.

Definition setAiAnalysis (t : string) (s : State) : State :=
  {| game := game s; history := history s; aiAnalysis := t;
     chatMessages := chatMessages s; inputMessage := inputMessage s;
     isAiThinking := isAiThinking s; isAiPlaying := isAiPlaying s; elo := elo s |}.

Definition setChatMessages (f : list ChatMessage -> list ChatMessage) (s : State) : State :=
  {| game := game s; history := history s; aiAnalysis := aiAnalysis s;
     chatMessages := f (chatMessages s); inputMessage := inputMessage s;
     isAiThinking := isAiThinking s; isAiPlaying := isAiPlaying s; elo := elo s |}.

Definition setInputMessage (t : string) (s : State) : State :=
  {| game := game s; history := history s; aiAnalysis := aiAnalysis s;
     chatMessages := chatMessages s; inputMessage := t;
     isAiThinking := isAiThinking s; isAiPlaying := isAiPlaying s; elo := elo s |}.

Definition setIsAiThinking (b : bool) (s : State) : State :=
  {| game := game s; history := history s; aiAnalysis := aiAnalysis s;
     chatMessages := chatMessages s; inputMessage := inputMessage s;
     isAiThinking := b; isAiPlaying := isAiPlaying s; elo := elo s |}.

Definition setIsAiPlaying (b : bool) (s : State) : State :=
  {| game := game s; history := history s; aiAnalysis := aiAnalysis s;
     chatMessages := chatMessages s; inputMessage := inputMessage s;
     isAiThinking := isAiThinking s; isAiPlaying := b; elo := elo s |}.

Definition setElo (n : Z) (s : State) : State :=
  {| game := game s; history := history s; aiAnalysis := aiAnalysis s;
     chatMessages := chatMessages s; inputMessage := inputMessage s;
     isAiThinking := isAiThinking s; isAiPlaying := isAiPlaying s; elo := n |}.

(** The [makeAiMove] callback of one render: it closes over that
    render's [elo] and [history]. *)
Record AiClosure : Type := {
  cl_elo : Z;
  cl_history : list SanValue
}.

(** An asynchronous function suspended at an [await], or a timer that
    has not fired yet, with the local variables it holds. *)
Inductive Suspended : Type :=
| OnMoveAwaitsAnalysis (gameCopy : Chess.Game E) (hist : list SanValue) (elo0 : Z) (mk : AiClosure)
    (* onMove at [await getMoveAnalysis(gameCopy.fen(), hist, elo0)] *)
| AiTimer (gameCopy : Chess.Game E) (mk : AiClosure)
    (* [setTimeout(() => makeAiMove(gameCopy), 500)] *)
| AiAwaitsBestMove (currentGame : Chess.Game E) (mk : AiClosure)
    (* makeAiMove at [await getBestMove(currentGame.fen(), elo)] *)
| AiAwaitsAnalysis (gameCopy : Chess.Game E) (hist : list SanValue) (mk : AiClosure)
    (* makeAiMove at [await getMoveAnalysis(gameCopy.fen(), hist, elo)] *)
| ChatAwaitsResponse (userMsg : string) (fen0 : string) (elo0 : Z).
    (* handleSendMessage at [await getChatResponse(userMsg, fen0, elo0)] *)

(** The request a suspended call has sent to the backend, if any. *)
Definition requestOf (t : Suspended) : option GenerateRequest :=
  match t with
  | OnMoveAwaitsAnalysis gameCopy hist elo0 _ =>
      Some (analysisRequest (Chess.fen E gameCopy) hist elo0)
  | AiTimer _ _ => None
  | AiAwaitsBestMove currentGame mk =>
      Some (bestMoveRequest (Chess.fen E currentGame) (cl_elo mk))
  | AiAwaitsAnalysis gameCopy hist mk =>
      Some (analysisRequest (Chess.fen E gameCopy) hist (cl_elo mk))
  | ChatAwaitsResponse userMsg fen0 elo0 =>
      Some (chatRequest userMsg fen0 elo0)
  end.

(** The session: the state cells and the suspended calls. Every
    handler segment between two suspension points runs to completion
    on the single event loop. *)
Record Session : Type := {
  state : State;
  suspended : list Suspended
}.

Definition initialSession : Session :=
  {| state := initialState; suspended := [] |}.

Definition update (f : State -> State) (x : Session) : Session :=
  {| state := f (state x); suspended := suspended x |}.

Definition suspend (t : Suspended) (x : Session) : Session :=
  {| state := state x; suspended := suspended x ++ [t] |}.

(** [promotion || 'q'] *)
Definition moveObject (r : MoveRequest) : MoveObject :=
  {| from := req_from r; to := req_to r;
     promotion := Js.orElse (req_promotion r) "q" |}.

(** [onMove({ from, to, promotion })], up to its first [await]. The
    callback is the one of the current render, so [game], [history],
    [elo], [isAiPlaying] and [makeAiMove] are the current ones. *)
Definition onMove (x : Session) (r : MoveRequest) : Session :=
  let s := state x in
  if isAiPlaying s then x
  else
    (* try *)
    let gameCopy := Chess.load E (Chess.fen E (game s)) in
    match Chess.moveFromTo E gameCopy (moveObject r) with
    | Moved gameCopy' san =>
        let mk := {| cl_elo := elo s; cl_history := history s |} in
        suspend
          (OnMoveAwaitsAnalysis gameCopy' (history s ++ [Some san]) (elo s) mk)
          (update (fun s => setIsAiThinking true
                             (setHistory (fun prev => prev ++ [Some san])
                               (setGame gameCopy' s))) x)
    | MoveNull => x
    | MoveThrows => x   (* catch: console.error *)
    end.

Definition gameOverMessage (gameCopy : Chess.Game E) : ChatMessage :=
  let result :=
    if Chess.isCheckmate E gameCopy
    then String.concat "" ["Checkmate! ";
           match Chess.turn E gameCopy with White => "Black" | Black => "White" end;
           " wins."]
    else "Draw!" in
  {| role := Assistant; content := ("Game Over. " ++ result)%string |}.

(** [onMove] resumed with the outcome of the analysis call. *)
Definition onMoveResume (x : Session) (gameCopy : Chess.Game E) (hist : list SanValue)
  (elo0 : Z) (mk : AiClosure) (o : ApiOutcome) : Session :=
  match getMoveAnalysis (Chess.fen E gameCopy) hist elo0 o with
  | Returns analysis =>
      let x1 := update (fun s => setIsAiThinking false (setAiAnalysis analysis s)) x in
      if Chess.isGameOver E gameCopy
      then update (setChatMessages (fun prev => prev ++ [gameOverMessage gameCopy])) x1
      else suspend (AiTimer gameCopy mk) x1
  | Throws => x   (* catch: console.error *)
  end.

(** [makeAiMove(currentGame)], up to its first [await]. *)
Definition makeAiMove (x : Session) (currentGame : Chess.Game E) (mk : AiClosure) : Session :=
  if Chess.isGameOver E currentGame then x
  else suspend (AiAwaitsBestMove currentGame mk) (update (setIsAiPlaying true) x).

(** [Math.floor(Math.random() * n)]: some index below [n], chosen by
    the draw (for [n = 0] the index is out of range whatever the draw). *)
Definition randomIndex (draw n : nat) : nat := draw mod n.

(** [makeAiMove] resumed with the outcome of the move call; [draw] is
    what [Math.random] yields if it is consulted. *)
Definition makeAiMoveResume (x : Session) (currentGame : Chess.Game E) (mk : AiClosure)
  (o : ApiOutcome) (draw : nat) : Session :=
  match getBestMove (Chess.fen E currentGame) (cl_elo mk) o with
  | Throws => x   (* the rejection leaves makeAiMove *)
  | Returns moveSan =>
      match moveSan with
      | Some m =>
          if Js.truthy m then
            (* try *)
            let gameCopy := Chess.load E (Chess.fen E currentGame) in
            match Chess.move E gameCopy (Some m) with
            | Moved gameCopy' san =>
                suspend
                  (AiAwaitsAnalysis gameCopy' (cl_history mk ++ [Some san]) mk)
                  (update (fun s => setHistory (fun prev => prev ++ [Some san])
                                      (setGame gameCopy' s)) x)
            | MoveNull =>
                let moves := Chess.moves E currentGame in
                let randomMove := nth_error moves (randomIndex draw (length moves)) in
                let fallbackCopy := Chess.load E (Chess.fen E currentGame) in
                match Chess.move E fallbackCopy randomMove with
                | Moved fallbackCopy' _ =>
                    update (fun s => setIsAiPlaying false
                                       (setHistory (fun prev => prev ++ [randomMove])
                                         (setGame fallbackCopy' s))) x
                | MoveNull =>
                    update (fun s => setIsAiPlaying false
                                       (setHistory (fun prev => prev ++ [randomMove])
                                         (setGame fallbackCopy s))) x
                | MoveThrows => update (setIsAiPlaying false) x   (* catch *)
                end
            | MoveThrows => update (setIsAiPlaying false) x   (* catch *)
            end
          else update (setIsAiPlaying false) x
      | None => update (setIsAiPlaying false) x
      end
  end.

(** [makeAiMove] resumed with the outcome of its analysis call. *)
Definition makeAiMoveAnalysed (x : Session) (gameCopy : Chess.Game E) (hist : list SanValue)
  (mk : AiClosure) (o : ApiOutcome) : Session :=
  match getMoveAnalysis (Chess.fen E gameCopy) hist (cl_elo mk) o with
  | Returns analysis =>
      update (fun s => setIsAiPlaying false (setAiAnalysis analysis s)) x
  | Throws => update (setIsAiPlaying false) x   (* catch *)
  end.

(** [handleSendMessage(e)], up to its [await]. *)
Definition handleSendMessage (x : Session) : Session :=
  let s := state x in
  if negb (Js.truthy (Js.trim (inputMessage s))) then x
  else
    let userMsg := inputMessage s in
    suspend
      (ChatAwaitsResponse userMsg (Chess.fen E (game s)) (elo s))
      (update (fun s => setIsAiThinking true
                         (setChatMessages
                            (fun prev => prev ++ [{| role := User; content := userMsg |}])
                            (setInputMessage "" s))) x).

(** [handleSendMessage] resumed with the outcome of the chat call. *)
Definition handleSendMessageResume (x : Session) (userMsg fen0 : string) (elo0 : Z)
  (o : ApiOutcome) : Session :=
  match getChatResponse userMsg fen0 elo0 o with
  | Returns aiResponse =>
      update (fun s => setIsAiThinking false
                         (setChatMessages
                            (fun prev => prev ++ [{| role := Assistant; content := aiResponse |}])
                            s)) x
  | Throws => x
  end.

Definition resetGame (x : Session) : Session :=
  update (fun s => setChatMessages (fun _ => [])
                     (setAiAnalysis "New game started. You are White."
                       (setHistory (fun _ => [])
                         (setGame (Chess.new E) s)))) x.

(** The slider's [onChange]: [setElo(parseInt(e.target.value))], the
    range input delivering an integer. *)
Definition changeElo (x : Session) (value : Z) : Session :=
  update (setElo value) x.

End WithEngine.

Arguments game {E}.
Arguments history {E}.
Arguments aiAnalysis {E}.
Arguments chatMessages {E}.
Arguments inputMessage {E}.
Arguments isAiThinking {E}.
Arguments isAiPlaying {E}.
Arguments elo {E}.
Arguments state {E}.
Arguments suspended {E}.
Arguments OnMoveAwaitsAnalysis {E}.
Arguments AiTimer {E}.
Arguments AiAwaitsBestMove {E}.
Arguments AiAwaitsAnalysis {E}.
Arguments ChatAwaitsResponse {E}.
Arguments setGame {E}.
Arguments setHistory {E}.
Arguments setAiAnalysis {E}.
Arguments setChatMessages {E}.
Arguments setInputMessage {E}.
Arguments setIsAiThinking {E}.
Arguments setIsAiPlaying {E}.
Arguments setElo {E}.
Arguments requestOf {E}.
Arguments update {E}.
Arguments suspend {E}.
Arguments onMove {E}.
Arguments onMoveResume {E}.
Arguments makeAiMove {E}.
Arguments makeAiMoveResume {E}.
Arguments makeAiMoveAnalysed {E}.
Arguments handleSendMessage {E}.
Arguments handleSendMessageResume {E}.
Arguments resetGame {E}.
Arguments changeElo {E}.
Arguments gameOverMessage {E}.

(** [getEloLabel(e)], shown beside the rating. *)
Definition getEloLabel (e : Z) : string :=
  if (e <? 1000)%Z then "Novice"
  else if (e <? 1500)%Z then "Intermediate"
  else if (e <? 2000)%Z then "Expert"
  else if (e <? 2500)%Z then "Master"
  else if (e <? 3000)%Z then "Grandmaster"
  else "Legend".

(** The "Move History" strip of the render: absent for an empty
    history, else [history.slice(-8)] and whether the ellipsis is shown
    ([history.length > 8]). *)
Definition historyPreview (history : list SanValue) : option (list SanValue * bool) :=
  if (0 <? length history)%nat
  then Some (Js.sliceLast 8 history, (8 <? length history)%nat)
  else None.

End App.

(** ** components/ChessBoard.tsx *)

Module ChessBoard.

Section WithEngine.

Variable E : Chess.Engine.

(** [ChessBoardProps]; the calls of the [onMove] prop are returned by
    the handlers below. *)
Record Props : Type := {
  fen : string;
  isGameOver : bool
}.

Record State : Type := {
  selectedSquare : option Square;
  validMoves : list Square;
  draggedSquare : option Square
}.

Definition initialState : State :=
  {| selectedSquare := None; validMoves := []; draggedSquare := None |}.

(** [validMoves.includes(square)] *)
Definition includesSquare (l : list Square) (square : Square) : bool :=
  existsb (String.eqb square) l.

(** [piece && piece.color === game.turn()] *)
Definition ownPiece (game : Chess.Game E) (square : Square) : bool :=
  match Chess.get E game square with
  | Some piece => Color_eqb (color piece) (Chess.turn E game)
  | None => false
  end.

(** [handleDragStart(e, square)]: the new state and what was put in
    [e.dataTransfer]; [None] when the drag is prevented. *)
Definition handleDragStart (p : Props) (b : State) (square : Square)
  : State * option string :=
  let game := Chess.load E (fen p) in
  if isGameOver p then (b, None)
  else if negb (ownPiece game square) then (b, None)
  else ({| selectedSquare := selectedSquare b;
           validMoves := Chess.movesFrom E game square;
           draggedSquare := Some square |},
        Some square).

(** [handleDrop(e, targetSquare)], [data] being
    [e.dataTransfer.getData('text/plain')]. *)
Definition handleDrop (p : Props) (b : State) (data : string) (targetSquare : Square)
  : State * option MoveRequest :=
  let sourceSquare := data in
  let call :=
    if includesSquare (validMoves b) targetSquare
    then Some {| req_from := sourceSquare; req_to := targetSquare;
                 req_promotion := Some "q" |}
    else None in
  ({| selectedSquare := selectedSquare b; validMoves := []; draggedSquare := None |},
   call).

Definition handleDragEnd (b : State) : State :=
  {| selectedSquare := selectedSquare b; validMoves := []; draggedSquare := None |}.

Definition deselect (b : State) : State :=
  {| selectedSquare := None; validMoves := []; draggedSquare := draggedSquare b |}.

(** [handleSquareClick(square)] *)
Definition handleSquareClick (p : Props) (b : State) (square : Square)
  : State * option MoveRequest :=
  let game := Chess.load E (fen p) in
  if isGameOver p then (b, None)
  else if match selectedSquare b with
          | Some sel => String.eqb sel square
          | None => false
          end
  then (deselect b, None)
  else if ownPiece game square
  then ({| selectedSquare := Some square;
           validMoves := Chess.movesFrom E game square;
           draggedSquare := draggedSquare b |},
        None)
  else
    match selectedSquare b with
    | Some sel =>
        if Js.truthy sel && includesSquare (validMoves b) square
        then (deselect b,
              Some {| req_from := sel; req_to := square; req_promotion := Some "q" |})
        else (deselect b, None)
    | None => (deselect b, None)
    end.

(** *** Rendering *)

Definition PIECE_IMAGES : list (string * string) := [
  ("wP", "https://upload.wikimedia.org/wikipedia/commons/4/45/Chess_plt45.svg");
  ("wN", "https://upload.wikimedia.org/wikipedia/commons/7/70/Chess_nlt45.svg");
  ("wB", "https://upload.wikimedia.org/wikipedia/commons/b/b1/Chess_blt45.svg");
  ("wR", "https://upload.wikimedia.org/wikipedia/commons/7/72/Chess_rlt45.svg");
  ("wQ", "https://upload.wikimedia.org/wikipedia/commons/1/15/Chess_qlt45.svg");
  ("wK", "https://upload.wikimedia.org/wikipedia/commons/4/42/Chess_klt45.svg");
  ("bP", "https://upload.wikimedia.org/wikipedia/commons/c/c7/Chess_pdt45.svg");
  ("bN", "https://upload.wikimedia.org/wikipedia/commons/e/ef/Chess_ndt45.svg");
  ("bB", "https://upload.wikimedia.org/wikipedia/commons/9/98/Chess_bdt45.svg");
  ("bR", "https://upload.wikimedia.org/wikipedia/commons/f/ff/Chess_rdt45.svg");
  ("bQ", "https://upload.wikimedia.org/wikipedia/commons/4/47/Chess_qdt45.svg");
  ("bK", "https://upload.wikimedia.org/wikipedia/commons/f/f0/Chess_kdt45.svg")
].

(** [PIECE_IMAGES[key]]: [None] is [undefined]. *)
Definition pieceImage (key : string) : option string :=
  option_map snd (find (fun kv => String.eqb (fst kv) key) PIECE_IMAGES).

(** The strings of the [Color] and [PieceType] unions. *)
Definition colorLetter (c : Color) : string :=
  match c with White => "w" | Black => "b" end.

Definition typeLetter (t : PieceType) : string :=
  match t with
  | Pawn => "p" | Knight => "n" | Bishop => "b"
  | Rook => "r" | Queen => "q" | King => "k"
  end.

(** The [<img>] of a piece. *)
Record PieceImg : Type := {
  src : option string;    (* PIECE_IMAGES[`${piece.color}${piece.type.toUpperCase()}`] *)
  alt : string;           (* `${piece.color}${piece.type}` *)
  draggable : bool;       (* !isGameOver && piece.color === game.turn() *)
  faded : bool            (* isDragged *)
}.

Inductive HintMark : Type := Ring | Dot.

(** One square [<div>] of the board. *)
Record Cell : Type := {
  key : Square;
  dark : bool;                (* square-dark, else square-light *)
  marked : bool;              (* square-selected: isSelected || isDragged *)
  img : option PieceImg;
  hint : option HintMark;     (* isHint: a ring on a piece, a dot on an empty square *)
  rankLabel : option string;  (* col === 'a' && row *)
  fileLabel : option string   (* row === '1' && col *)
}.

Definition rows : list string := ["8"; "7"; "6"; "5"; "4"; "3"; "2"; "1"].
Definition cols : list string := ["a"; "b"; "c"; "d"; "e"; "f"; "g"; "h"].

Definition isSquare (o : option Square) (square : Square) : bool :=
  match o with
  | Some s => String.eqb s square
  | None => false
  end.

Definition renderCell (p : Props) (b : State) (row col : string) : Cell :=
  let game := Chess.load E (fen p) in
  let square := (col ++ row)%string in
  let piece := Chess.get E game square in
  let isDark := Z.eqb (Z.rem (Js.indexOf cols col + Js.indexOf rows row) 2) 1 in
  let isSelected := isSquare (selectedSquare b) square in
  let isDragged := isSquare (draggedSquare b) square in
  let isHint := includesSquare (validMoves b) square in
  {| key := square;
     dark := isDark;
     marked := isSelected || isDragged;
     img :=
       match piece with
       | Some piece =>
           Some {| src := pieceImage (colorLetter (color piece)
                                      ++ Js.toUpperCase (typeLetter (type piece)))%string;
                   alt := (colorLetter (color piece) ++ typeLetter (type piece))%string;
                   draggable := negb (isGameOver p)
                                && Color_eqb (color piece) (Chess.turn E game);
                   faded := isDragged |}
       | None => None
       end;
     hint :=
       if isHint
       then Some (match piece with Some _ => Ring | None => Dot end)
       else None;
     rankLabel := if String.eqb col "a" then Some row else None;
     fileLabel := if String.eqb row "1" then Some col else None |}.

(** [renderBoard()] *)
Definition renderBoard (p : Props) (b : State) : list Cell :=
  flat_map (fun row => map (fun col => renderCell p b row col) cols) rows.

End WithEngine.

End ChessBoard.

(** ** The running page: [App] rendering one [ChessBoard] *)

Module Page.

Import GeminiChessService.

Section WithEngine.

Variable E : Chess.Engine.

Record Page : Type := {
  session : App.Session E;
  board : ChessBoard.State;
  drag : option string      (* the data of the drag in progress *)
}.

Definition initialPage : Page :=
  {| session := App.initialSession E;
     board := ChessBoard.initialState;
     drag := None |}.

(** [<ChessBoard fen={game.fen()} onMove={onMove}
      isGameOver={game.isGameOver() || isAiPlaying} />] *)
Definition boardProps (x : App.Session E) : ChessBoard.Props :=
  let s := App.state x in
  {| ChessBoard.fen := Chess.fen E (App.game s);
     ChessBoard.isGameOver := Chess.isGameOver E (App.game s) || App.isAiPlaying s |}.

Inductive Event : Type :=
| Click (square : Square)
| DragStart (square : Square)
| Drop (targetSquare : Square)
| DragEnd
| TypeMessage (text : string)
| SubmitMessage
| ChangeElo (value : Z)
| NewGame
| Settles (k : nat) (o : ApiOutcome) (draw : nat)
    (* the request of the [k]-th suspended call settles with [o] *)
| TimerFires (k : nat).

Fixpoint removeNth {A} (k : nat) (l : list A) : list A :=
  match l, k with
  | [], _ => []
  | _ :: r, O => r
  | a :: r, S k' => a :: removeNth k' r
  end.

Definition dequeue (k : nat) (x : App.Session E) : App.Session E :=
  {| App.state := App.state x;
     App.suspended := removeNth k (App.suspended x) |}.

Definition callOnMove (x : App.Session E) (call : option MoveRequest) : App.Session E :=
  match call with
  | Some r => App.onMove x r
  | None => x
  end.

Definition withSession (x : Page) (a : App.Session E) : Page :=
  {| session := a; board := board x; drag := drag x |}.

Definition step (x : Page) (e : Event) : Page :=
  let a := session x in
  let s := App.state a in
  match e with
  | Click square =>
      let '(b, call) := ChessBoard.handleSquareClick E (boardProps a) (board x) square in
      {| session := callOnMove a call; board := b; drag := drag x |}
  | DragStart square =>
      let '(b, data) := ChessBoard.handleDragStart E (boardProps a) (board x) square in
      {| session := a; board := b; drag := data |}
  | Drop targetSquare =>
      match drag x with
      | Some data =>
          let '(b, call) := ChessBoard.handleDrop (boardProps a) (board x) data targetSquare in
          {| session := callOnMove a call; board := b; drag := drag x |}
      | None => x
      end
  | DragEnd =>
      {| session := a; board := ChessBoard.handleDragEnd (board x); drag := None |}
  | TypeMessage text => withSession x (App.update (App.setInputMessage text) a)
  | SubmitMessage =>
      (* the submit button is disabled={isAiThinking || isAiPlaying} *)
      if App.isAiThinking s || App.isAiPlaying s then x
      else withSession x (App.handleSendMessage a)
  | ChangeElo value =>
      (* the slider is disabled={isAiPlaying} *)
      if App.isAiPlaying s then x
      else withSession x (App.changeElo a value)
  | NewGame => withSession x (App.resetGame a)
  | Settles k o draw =>
      match nth_error (App.suspended a) k with
      | Some (App.OnMoveAwaitsAnalysis gameCopy hist elo0 mk) =>
          withSession x (App.onMoveResume (dequeue k a) gameCopy hist elo0 mk o)
      | Some (App.AiAwaitsBestMove currentGame mk) =>
          withSession x (App.makeAiMoveResume (dequeue k a) currentGame mk o draw)
      | Some (App.AiAwaitsAnalysis gameCopy hist mk) =>
          withSession x (App.makeAiMoveAnalysed (dequeue k a) gameCopy hist mk o)
      | Some (App.ChatAwaitsResponse userMsg fen0 elo0) =>
          withSession x (App.handleSendMessageResume (dequeue k a) userMsg fen0 elo0 o)
      | Some (App.AiTimer _ _) => x
      | None => x
      end
  | TimerFires k =>
      match nth_error (App.suspended a) k with
      | Some (App.AiTimer gameCopy mk) =>
          withSession x (App.makeAiMove (dequeue k a) gameCopy mk)
      | _ => x
      end
  end.

Definition run (x : Page) (es : list Event) : Page := fold_left step es x.

End WithEngine.

Arguments session {E}.
Arguments board {E}.
Arguments drag {E}.
Arguments boardProps {E}.
Arguments step {E}.
Arguments run {E}.
Arguments withSession {E}.
Arguments callOnMove {E}.
Arguments dequeue {E}.

End Page.

(** ** A finite repertoire of chess, as an instance of the engine

    Games are identified with their FEN. Only the listed moves are known
    to this engine; each of them is a legal chess move with its SAN and
    resulting FEN. The board and the side to move are read from the FEN. *)

Module Repertoire.

Record Line : Type := {
  l_at : string;                 (* the position the move is played in *)
  l_from : Square;
  l_to : Square;
  l_promotion : option string;   (* the promotion piece, for promotions *)
  l_san : string;
  l_next : string                (* the position it leads to *)
}.

Definition startFen : string :=
  "rnbqkbnr/pppppppp/8/8/8/8/PPPPPPPP/RNBQKBNR w KQkq - 0 1".

(** After 1. e4 *)
Definition fenE4 : string :=
  "rnbqkbnr/pppppppp/8/8/4P3/8/PPPP1PPP/RNBQKBNR b KQkq e3 0 1".
(** After 1. e4 e5 *)
Definition fenE4E5 : string :=
  "rnbqkbnr/pppp1ppp/8/4p3/4P3/8/PPPP1PPP/RNBQKBNR w KQkq e6 0 2".
(** After 1. e4 c5 *)
Definition fenE4C5 : string :=
  "rnbqkbnr/pp1ppppp/8/2p5/4P3/8/PPPP1PPP/RNBQKBNR w KQkq c6 0 2".
(** After 1. f3, 1... e5, 2. g4 and 2... Qh4 mate *)
Definition fenF3 : string :=
  "rnbqkbnr/pppppppp/8/8/8/5P2/PPPPP1PP/RNBQKBNR b KQkq - 0 1".
Definition fenF3E5 : string :=
  "rnbqkbnr/pppp1ppp/8/4p3/8/5P2/PPPPP1PP/RNBQKBNR w KQkq e6 0 2".
Definition fenF3E5G4 : string :=
  "rnbqkbnr/pppp1ppp/8/4p3/6P1/5P2/PPPPP2P/RNBQKBNR b KQkq g3 0 2".
Definition fenFoolsMate : string :=
  "rnb1kbnr/pppp1ppp/8/4p3/6Pq/5P2/PPPPP2P/RNBQKBNR w KQkq - 1 3".
(** King against king: drawn by insufficient material, moves remain. *)
Definition fenBareKings : string := "4k3/8/8/8/8/8/8/4K3 w - - 0 1".
(** A white pawn about to promote. *)
Definition fenPromotion : string := "8/P6k/8/8/8/8/8/K7 w - - 0 1".

Definition line (a f t s n : string) : Line :=
  {| l_at := a; l_from := f; l_to := t; l_promotion := None; l_san := s; l_next := n |}.

Definition promo (a f t p s n : string) : Line :=
  {| l_at := a; l_from := f; l_to := t; l_promotion := Some p; l_san := s; l_next := n |}.

Definition lines : list Line := [
  line startFen "e2" "e3" "e3" "rnbqkbnr/pppppppp/8/8/8/4P3/PPPP1PPP/RNBQKBNR b KQkq - 0 1";
  line startFen "e2" "e4" "e4" fenE4;
  line startFen "f2" "f3" "f3" fenF3;
  line startFen "f2" "f4" "f4" "rnbqkbnr/pppppppp/8/8/5P2/8/PPPPP1PP/RNBQKBNR b KQkq f3 0 1";
  line fenE4 "e7" "e6" "e6" "rnbqkbnr/pppp1ppp/4p3/8/4P3/8/PPPP1PPP/RNBQKBNR w KQkq - 0 2";
  line fenE4 "e7" "e5" "e5" fenE4E5;
  line fenE4 "c7" "c6" "c6" "rnbqkbnr/pp1ppppp/2p5/8/4P3/8/PPPP1PPP/RNBQKBNR w KQkq - 0 2";
  line fenE4 "c7" "c5" "c5" fenE4C5;
  line fenE4 "g8" "f6" "Nf6" "rnbqkb1r/pppppppp/5n2/8/4P3/8/PPPP1PPP/RNBQKBNR w KQkq - 1 2";
  line fenE4 "g8" "h6" "Nh6" "rnbqkb1r/pppppppp/7n/8/4P3/8/PPPP1PPP/RNBQKBNR w KQkq - 1 2";
  line fenF3 "e7" "e6" "e6" "rnbqkbnr/pppp1ppp/4p3/8/8/5P2/PPPPP1PP/RNBQKBNR w KQkq - 0 2";
  line fenF3 "e7" "e5" "e5" fenF3E5;
  line fenF3E5 "g2" "g3" "g3" "rnbqkbnr/pppp1ppp/8/4p3/8/5PP1/PPPPP2P/RNBQKBNR b KQkq - 0 2";
  line fenF3E5 "g2" "g4" "g4" fenF3E5G4;
  line fenF3E5G4 "d8" "e7" "Qe7" "rnb1kbnr/ppppqppp/8/4p3/6P1/5P2/PPPPP2P/RNBQKBNR w KQkq - 1 3";
  line fenF3E5G4 "d8" "f6" "Qf6" "rnb1kbnr/pppp1ppp/5q2/4p3/6P1/5P2/PPPPP2P/RNBQKBNR w KQkq - 1 3";
  line fenF3E5G4 "d8" "g5" "Qg5" "rnb1kbnr/pppp1ppp/8/4p1q1/6P1/5P2/PPPPP2P/RNBQKBNR w KQkq - 1 3";
  line fenF3E5G4 "d8" "h4" "Qh4#" fenFoolsMate;
  line fenBareKings "e1" "d1" "Kd1" "4k3/8/8/8/8/8/8/3K4 b - - 1 1";
  line fenBareKings "e1" "d2" "Kd2" "4k3/8/8/8/8/8/3K4/8 b - - 1 1";
  line fenBareKings "e1" "e2" "Ke2" "4k3/8/8/8/8/8/4K3/8 b - - 1 1";
  line fenBareKings "e1" "f2" "Kf2" "4k3/8/8/8/8/8/5K2/8 b - - 1 1";
  line fenBareKings "e1" "f1" "Kf1" "4k3/8/8/8/8/8/8/5K2 b - - 1 1";
  promo fenPromotion "a7" "a8" "q" "a8=Q" "Q7/7k/8/8/8/8/8/K7 b - - 0 1";
  promo fenPromotion "a7" "a8" "r" "a8=R" "R7/7k/8/8/8/8/8/K7 b - - 0 1";
  promo fenPromotion "a7" "a8" "b" "a8=B" "B7/7k/8/8/8/8/8/K7 b - - 0 1";
  promo fenPromotion "a7" "a8" "n" "a8=N" "N7/7k/8/8/8/8/8/K7 b - - 0 1"
].

(** *** Reading a FEN *)

(** The text before the first space, and the text after it. *)
Fixpoint untilSpace (s : string) : string * string :=
  match s with
  | EmptyString => (EmptyString, EmptyString)
  | String c r =>
      if Ascii.eqb c " "%char then (EmptyString, r)
      else let '(a, b) := untilSpace r in (String c a, b)
  end.

Definition pieceOfChar (c : ascii) : option Piece :=
  let side := if Ascii.eqb (Latin.lowerChar c) c then Black else White in
  let k := Latin.lowerChar c in
  if Ascii.eqb k "p"%char then Some {| type := Pawn; color := side |}
  else if Ascii.eqb k "n"%char then Some {| type := Knight; color := side |}
  else if Ascii.eqb k "b"%char then Some {| type := Bishop; color := side |}
  else if Ascii.eqb k "r"%char then Some {| type := Rook; color := side |}
  else if Ascii.eqb k "q"%char then Some {| type := Queen; color := side |}
  else if Ascii.eqb k "k"%char then Some {| type := King; color := side |}
  else None.

(** The squares of the placement field, from a8 to h1; the rank
    separators are dropped. *)
Fixpoint squaresOf (placement : string) : list (option Piece) :=
  match placement with
  | EmptyString => []
  | String c r =>
      let n := nat_of_ascii c in
      if Ascii.eqb c "/"%char then squaresOf r
      else if (49 <=? n)%nat && (n <=? 56)%nat then repeat None (n - 48) ++ squaresOf r
      else pieceOfChar c :: squaresOf r
  end.

Definition get (g : string) (square : Square) : option Piece :=
  match square with
  | String f (String r EmptyString) =>
      let file := nat_of_ascii f - 97 in
      let rank := nat_of_ascii r - 49 in
      if (file <? 8)%nat && (rank <? 8)%nat && (97 <=? nat_of_ascii f)%nat
         && (49 <=? nat_of_ascii r)%nat
      then match nth_error (squaresOf (fst (untilSpace g))) ((7 - rank) * 8 + file) with
           | Some p => p
           | None => None
           end
      else None
  | _ => None
  end.

Definition turn (g : string) : Color :=
  match snd (untilSpace g) with
  | String c _ => if Ascii.eqb c "w"%char then White else Black
  | EmptyString => White
  end.

(** Only the two kings are left. *)
Definition bareKings (g : string) : bool :=
  forallb (fun sq => match sq with
                     | Some p => match type p with King => true | _ => false end
                     | None => true
                     end)
          (squaresOf (fst (untilSpace g))).

Definition isCheckmate (g : string) : bool := String.eqb g fenFoolsMate.

Definition isGameOver (g : string) : bool := isCheckmate g || bareKings g.

(** *** Moves *)

Definition playedAt (g : string) (l : Line) : bool := String.eqb g (l_at l).

Definition moves (g : string) : list string :=
  flat_map (fun l => if playedAt g l then [l_san l] else []) lines.

Definition movesFrom (g : string) (square : Square) : list Square :=
  flat_map (fun l => if playedAt g l && String.eqb square (l_from l)
                     then [l_to l] else [])
           lines.

(** What an illegal move does: [strict] engines throw, the others
    return [null]. *)
Definition illegal (strict : bool) : MoveOutcome string :=
  if strict then MoveThrows else MoveNull.

Definition played (strict : bool) (found : option Line) : MoveOutcome string :=
  match found with
  | Some l => Moved (l_next l) (l_san l)
  | None => illegal strict
  end.

Definition move (strict : bool) (g : string) (san : SanValue) : MoveOutcome string :=
  match san with
  | Some s => played strict (find (fun l => playedAt g l && String.eqb s (l_san l)) lines)
  | None => illegal strict
  end.

Definition moveFromTo (strict : bool) (g : string) (m : MoveObject) : MoveOutcome string :=
  played strict
    (find (fun l => playedAt g l
                    && String.eqb (from m) (l_from l) && String.eqb (to m) (l_to l)
                    && match l_promotion l with
                       | Some p => String.eqb (promotion m) p
                       | None => true
                       end)
          lines).

Definition engine (strict : bool) : Chess.Engine :=
  {| Chess.Game := string;
     Chess.new := startFen;
     Chess.load := fun f => f;
     Chess.fen := fun g => g;
     Chess.move := move strict;
     Chess.moveFromTo := moveFromTo strict;
     Chess.moves := moves;
     Chess.movesFrom := movesFrom;
     Chess.get := get;
     Chess.turn := turn;
     Chess.isGameOver := isGameOver;
     Chess.isCheckmate := isCheckmate;
     Chess.inCheck := isCheckmate |}.

End Repertoire.

(** ** Notions the properties are stated with *)

(** [w] occurs in [s] as a substring. *)
Definition occursIn (w s : string) : Prop :=
  exists pre post, s = (pre ++ w ++ post)%string.

(** What an interrupted encoding leaves behind when decoding goes on:
    its bytes, each a character of its own. *)
Definition flush (st : option Js.Pending) : list Js.Char :=
  match st with
  | None => []
  | Some p => map Js.raw (Js.chars (Js.seen p))
  end.

Definition pendingBytes (st : option Js.Pending) : string :=
  match st with None => EmptyString | Some p => Js.seen p end.

(** The character of an ASCII byte. *)
Definition asciiChar (c : ascii) : Js.Char :=
  {| Js.codePoint := Some (N_of_ascii c); Js.utf8 := String c EmptyString |}.

(** The characters move tokens of the short algebraic notation are made
    of (files, ranks, piece letters, castling, capture, promotion, check
    and mate marks). *)
Definition sanAlphabet : string := "abcdefgh12345678KQRBNOx=+#-".

(** A response text that cannot be a move token: it holds a character
    foreign to the notation. *)
Definition malformed (t : string) : bool :=
  negb (forallb (fun c => existsb (Ascii.eqb c) (Js.chars sanAlphabet)) (Js.chars t)).

(** A provider failure, as the move provider's contract lists them:
    the call fails, or the response is empty or malformed. *)
Definition providerFailure (o : GeminiChessService.ApiOutcome) : bool :=
  match o with
  | GeminiChessService.ApiRejects => true
  | GeminiChessService.ApiResponds None => true
  | GeminiChessService.ApiResponds (Some t) => negb (Js.truthy t) || malformed t
  end.

(** The call fails, or its response carries no text or an empty one. *)
Definition noText (o : GeminiChessService.ApiOutcome) : bool :=
  match o with
  | GeminiChessService.ApiRejects => true
  | GeminiChessService.ApiResponds None => true
  | GeminiChessService.ApiResponds (Some t) => negb (Js.truthy t)
  end.

(** Replaying a history on one game object. *)
Fixpoint replay (E : Chess.Engine) (g : Chess.Game E) (h : list SanValue)
  : option (Chess.Game E) :=
  match h with
  | [] => Some g
  | san :: r =>
      match Chess.move E g san with
      | Moved g' _ => replay E g' r
      | MoveNull | MoveThrows => None
      end
  end.

(** The [onMove] call, if any, that the board makes on an event. *)
Definition submitted {E : Chess.Engine} (x : Page.Page E) (e : Page.Event)
  : option MoveRequest :=
  match e with
  | Page.Click square =>
      snd (ChessBoard.handleSquareClick E (Page.boardProps (Page.session x))
             (Page.board x) square)
  | Page.Drop targetSquare =>
      match Page.drag x with
      | Some data =>
          snd (ChessBoard.handleDrop (Page.boardProps (Page.session x))
                 (Page.board x) data targetSquare)
      | None => None
      end
  | _ => None
  end.

(** What the replay of a record needs of a rules engine: a copy made
    through the FEN has the FEN of the original; what [move] does to
    the FEN depends on the FEN only; the SAN a played move reports
    replays to the same position. *)
Record Lawful (E : Chess.Engine) : Prop := {
  load_fen : forall g, Chess.fen E (Chess.load E (Chess.fen E g)) = Chess.fen E g;
  move_by_fen : forall g1 g2 san g1' s,
    Chess.fen E g1 = Chess.fen E g2 ->
    Chess.move E g1 san = Moved g1' s ->
    exists g2', Chess.move E g2 san = Moved g2' s /\ Chess.fen E g2' = Chess.fen E g1';
  san_of_object : forall g m g' s,
    Chess.moveFromTo E g m = Moved g' s ->
    exists g'', Chess.move E g (Some s) = Moved g'' s /\ Chess.fen E g'' = Chess.fen E g';
  san_of_token : forall g token g' s,
    Chess.move E g token = Moved g' s ->
    exists g'', Chess.move E g (Some s) = Moved g'' s /\ Chess.fen E g'' = Chess.fen E g'
}.

(** The history replays from the initial position to the session's
    position (as FENs). *)
Definition consistent {E : Chess.Engine} (x : App.Session E) : Prop :=
  exists g, replay E (Chess.new E) (App.history (App.state x)) = Some g
            /\ Chess.fen E g = Chess.fen E (App.game (App.state x)).

(** The suspended calls that make up an AI turn: its timer, its move
    request, its analysis request. *)
Definition isAiTurn {E : Chess.Engine} (t : App.Suspended E) : bool :=
  match t with
  | App.AiTimer _ _ | App.AiAwaitsBestMove _ _ | App.AiAwaitsAnalysis _ _ _ => true
  | App.OnMoveAwaitsAnalysis _ _ _ _ | App.ChatAwaitsResponse _ _ _ => false
  end.

Definition aiTurnPending {E : Chess.Engine} (x : App.Session E) : bool :=
  existsb isAiTurn (App.suspended x).

(** A request of an AI turn (for its move, for its analysis) is
    outstanding. *)
Definition isAiCall {E : Chess.Engine} (t : App.Suspended E) : bool :=
  match t with
  | App.AiAwaitsBestMove _ _ | App.AiAwaitsAnalysis _ _ _ => true
  | App.OnMoveAwaitsAnalysis _ _ _ _ | App.AiTimer _ _
  | App.ChatAwaitsResponse _ _ _ => false
  end.

(** A request of [onMove] (its analysis) or of [handleSendMessage] (its
    chat reply) is outstanding. *)
Definition isUserCall {E : Chess.Engine} (t : App.Suspended E) : bool :=
  match t with
  | App.OnMoveAwaitsAnalysis _ _ _ _ | App.ChatAwaitsResponse _ _ _ => true
  | App.AiTimer _ _ | App.AiAwaitsBestMove _ _ | App.AiAwaitsAnalysis _ _ _ => false
  end.

(** The position an AI turn is to move in, while its move is still to
    come, is not game over. *)
Definition movesInLiveGame {E : Chess.Engine} (t : App.Suspended E) : bool :=
  match t with
  | App.AiTimer g _ | App.AiAwaitsBestMove g _ => negb (Chess.isGameOver E g)
  | App.OnMoveAwaitsAnalysis _ _ _ _ | App.AiAwaitsAnalysis _ _ _
  | App.ChatAwaitsResponse _ _ _ => true
  end.

(** The two busy flags are backed by outstanding requests: while
    [isAiPlaying] is set a request of an AI turn is outstanding, while
    [isAiThinking] is set a request of [onMove] or of the chat is. *)
Definition latchesBacked {E : Chess.Engine} (x : App.Session E) : Prop :=
  (App.isAiPlaying (App.state x) = true -> existsb isAiCall (App.suspended x) = true)
  /\ (App.isAiThinking (App.state x) = true
      -> existsb isUserCall (App.suspended x) = true).

(** Every AI turn that has still to move holds a position that is not
    game over. *)
Definition aiTurnsLive {E : Chess.Engine} (x : App.Session E) : Prop :=
  forallb movesInLiveGame (App.suspended x) = true.

(** A segment that leaves position and history, or the chat log, as
    they were. *)
Definition keepsRecords {E : Chess.Engine} (x x' : App.Session E) : Prop :=
  App.game (App.state x') = App.game (App.state x)
  /\ App.history (App.state x') = App.history (App.state x).

Definition keepsChat {E : Chess.Engine} (x x' : App.Session E) : Prop :=
  App.chatMessages (App.state x') = App.chatMessages (App.state x).

(** The squares of the board in rendering order, a8 first, h1 last. *)
Definition boardSquares : list Square :=
  flat_map (fun row => map (fun col => (col ++ row)%string) ChessBoard.cols)
           ChessBoard.rows.

(** A session standing at a given position with a given record. *)
Definition sessionAt (E : Chess.Engine) (g : Chess.Game E) (h : list SanValue)
  : App.Session E :=
  App.update (fun s => App.setHistory (fun _ => h) (App.setGame g s))
    (App.initialSession E).

(** ** Pages the examples start from *)

(** The page once 1. e4 has been played and analysed and the AI turn
    has started (its move request is outstanding). *)
Definition pageAiThinking : Page.Page (Repertoire.engine true) :=
  Page.run (Page.initialPage (Repertoire.engine true))
    [Page.Click "e2"; Page.Click "e4";
     Page.Settles 0 (GeminiChessService.ApiResponds (Some "A classical opening.")) 0;
     Page.TimerFires 0].

(** The page after 1. e4 by the human and, while the analysis of that
    move is still awaited, 1... e5 played on the board as well. *)
Definition pageTwoHumanMoves : Page.Page (Repertoire.engine true) :=
  Page.run (Page.initialPage (Repertoire.engine true))
    [Page.Click "e2"; Page.Click "e4"; Page.Click "e7"; Page.Click "e5"].

(** The page after the fool's mate, played turn by turn, with a chat
    message typed in. *)
Definition pageMated : Page.Page (Repertoire.engine true) :=
  let ok t := GeminiChessService.ApiResponds (Some t) in
  Page.run (Page.initialPage (Repertoire.engine true))
    [Page.Click "f2"; Page.Click "f3"; Page.Settles 0 (ok "A weakening move.") 0;
     Page.TimerFires 0; Page.Settles 0 (ok "e5") 0;
     Page.Settles 0 (ok "Black takes the centre.") 0;
     Page.Click "g2"; Page.Click "g4"; Page.Settles 0 (ok "The diagonal is open.") 0;
     Page.TimerFires 0; Page.Settles 0 (ok "Qh4#") 0; Page.Settles 0 (ok "Mate.") 0;
     Page.TypeMessage "What went wrong?"].

(** The page at a position where a white pawn stands on a7, the pawn
    being selected. *)
Definition pagePromotion : Page.Page (Repertoire.engine true) :=
  Page.step
    {| Page.session := sessionAt (Repertoire.engine true) Repertoire.fenPromotion [];
       Page.board := ChessBoard.initialState;
       Page.drag := None |}
    (Page.Click "a7").

(* ================================================================== *)
(** * Part II - properties                                             *)
(* ================================================================== *)

(** Closed statements about the repertoire engine are settled by
    evaluation. *)
Ltac by_evaluation :=
  cbv zeta;
  repeat lazymatch goal with |- _ /\ _ => split end;
  exact eq_refl.

(** ** Strings *)

Lemma startsWith_spec (s w : string) :
  Js.startsWith s w = true <-> exists post, s = (w ++ post)%string.
Proof.
  revert s; induction w as [|a w IH]; intros s; simpl.
  - split; [intros _; now exists s | reflexivity].
  - destruct s as [|b s].
    + split; [discriminate | intros [post H]; discriminate].
    + rewrite andb_true_iff, Ascii.eqb_eq, IH. split.
      * intros [-> [post ->]]. now exists post.
      * intros [post H]. injection H as -> ->. split; [reflexivity | now exists post].
Qed.

Lemma includes_spec (s w : string) :
  Js.includes s w = true <-> occursIn w s.
Proof.
  unfold occursIn. induction s as [|c s IH].
  - cbn [Js.includes]. rewrite orb_false_r, startsWith_spec. split.
    + intros [post H]. now exists EmptyString, post.
    + intros [pre [post H]]. destruct pre; [now exists post | discriminate].
  - cbn [Js.includes]. rewrite orb_true_iff, startsWith_spec, IH. split.
    + intros [[post H] | [pre [post H]]].
      * now exists EmptyString, post.
      * exists (String c pre), post. simpl. now rewrite H.
    + intros [pre [post H]]. destruct pre as [|d pre].
      * left. now exists post.
      * right. simpl in H. injection H as _ H. now exists pre, post.
Qed.

(** ** JavaScript strings: decoding, lower-casing, trimming *)

Lemma step_ascii (st : option Js.Pending) (c : ascii) :
  (N_of_ascii c <? 128)%N = true ->
  Js.step st c = (flush st ++ [asciiChar c], None).
Proof.
  intros Hc.
  assert (Js.start c = ([asciiChar c], None)) as Hs
    by (unfold Js.start; now rewrite Hc).
  destruct st as [p|]; cbn [Js.step flush]; [|exact Hs].
  assert (Js.isContinuation c = false) as ->.
  { unfold Js.isContinuation. apply N.ltb_lt in Hc.
    apply andb_false_intro1. apply N.leb_gt. lia. }
  now rewrite Hs.
Qed.

Lemma decodeFrom_ascii (st : option Js.Pending) (c : ascii) (s : string) :
  (N_of_ascii c <? 128)%N = true ->
  Js.decodeFrom st (String c s) = flush st ++ asciiChar c :: Js.decodeFrom None s.
Proof.
  intros Hc. cbn [Js.decodeFrom]. rewrite (step_ascii st c Hc).
  now rewrite <- app_assoc.
Qed.

Lemma decodeFrom_flush (st : option Js.Pending) (pre : string) (c : ascii) (s : string) :
  (N_of_ascii c <? 128)%N = true ->
  Js.decodeFrom st (pre ++ String c s)
  = Js.decodeFrom st pre ++ asciiChar c :: Js.decodeFrom None s.
Proof.
  intros Hc. revert st; induction pre as [|b pre IH]; intros st.
  - cbn [String.append]. rewrite (decodeFrom_ascii st c s Hc).
    now destruct st.
  - cbn [String.append Js.decodeFrom]. destruct (Js.step st b) as [out st'].
    now rewrite IH, <- app_assoc.
Qed.

Lemma decode_ascii_run (v post : string) :
  Latin.isAscii v = true ->
  Js.decodeFrom None (v ++ post) = map asciiChar (Js.chars v) ++ Js.decodeFrom None post.
Proof.
  induction v as [|c v IH]; intros Hv; [reflexivity|].
  unfold Latin.isAscii in Hv. cbn [Js.chars list_ascii_of_string forallb] in Hv.
  apply andb_true_iff in Hv as [Hc Hv].
  cbn [String.append]. rewrite (decodeFrom_ascii None c _ Hc).
  change (Js.chars (String c v)) with (c :: Js.chars v).
  cbn [flush app map]. f_equal. now apply IH.
Qed.

Lemma lowerOf_ascii (before after : list Js.Char) (c : ascii) :
  (N_of_ascii c <? 128)%N = true ->
  Js.lowerOf before after (asciiChar c) = String (Latin.lowerChar c) EmptyString.
Proof.
  destruct c as [b0 b1 b2 b3 b4 b5 b6 b7].
  destruct b7, b0, b1, b2, b3, b4, b5, b6; intros H;
    first [discriminate H | vm_compute; reflexivity].
Qed.

Lemma lowerFrom_ascii_run (before : list Js.Char) (v : string) (rest : list Js.Char) :
  Latin.isAscii v = true ->
  Js.lowerFrom before (map asciiChar (Js.chars v) ++ rest)
  = (Latin.lowerCase v
     ++ Js.lowerFrom (rev (map asciiChar (Js.chars v)) ++ before) rest)%string.
Proof.
  revert before; induction v as [|c v IH]; intros before Hv; [reflexivity|].
  unfold Latin.isAscii in Hv. cbn [Js.chars list_ascii_of_string forallb] in Hv.
  apply andb_true_iff in Hv as [Hc Hv].
  change (Js.chars (String c v)) with (c :: Js.chars v).
  cbn [map app Js.lowerFrom Latin.lowerCase].
  rewrite (lowerOf_ascii _ _ c Hc). cbn [String.append]. f_equal.
  rewrite (IH (asciiChar c :: before) Hv). cbn [rev]. now rewrite <- app_assoc.
Qed.

Lemma string_app_assoc (a b c : string) : ((a ++ b) ++ c = a ++ (b ++ c))%string.
Proof. induction a as [|x a IH]; [reflexivity|]. cbn. now rewrite IH. Qed.

Lemma lowerFrom_app (before xs ys : list Js.Char) :
  exists out, Js.lowerFrom before (xs ++ ys)
              = (out ++ Js.lowerFrom (rev xs ++ before) ys)%string.
Proof.
  revert before; induction xs as [|x xs IH]; intros before.
  - now exists EmptyString.
  - destruct (IH (x :: before)) as [out H].
    exists (Js.lowerOf before (xs ++ ys) x ++ out)%string.
    cbn [app Js.lowerFrom rev]. rewrite H, <- app_assoc.
    now rewrite string_app_assoc.
Qed.

Lemma string_app_empty (a : string) : (a ++ EmptyString)%string = a.
Proof. induction a as [|x a IH]; [reflexivity|]. cbn. now rewrite IH. Qed.

Lemma isAscii_app (a b : string) :
  Latin.isAscii (a ++ b) = Latin.isAscii a && Latin.isAscii b.
Proof.
  unfold Latin.isAscii. induction a as [|x a IH]; [reflexivity|].
  cbn [String.append]. change (Js.chars (String x (a ++ b))) with (x :: Js.chars (a ++ b)).
  change (Js.chars (String x a)) with (x :: Js.chars a).
  cbn [forallb]. now rewrite IH, andb_assoc.
Qed.

Lemma isAscii_lowerCase (v : string) :
  Latin.isAscii (Latin.lowerCase v) = Latin.isAscii v.
Proof.
  unfold Latin.isAscii. induction v as [|c v IH]; [reflexivity|].
  cbn [Latin.lowerCase].
  change (Js.chars (String (Latin.lowerChar c) (Latin.lowerCase v)))
    with (Latin.lowerChar c :: Js.chars (Latin.lowerCase v)).
  change (Js.chars (String c v)) with (c :: Js.chars v).
  cbn [forallb]. rewrite IH. f_equal.
  destruct c as [b0 b1 b2 b3 b4 b5 b6 b7].
  destruct b7, b0, b1, b2, b3, b4, b5, b6; reflexivity.
Qed.

Lemma lowerCase_app (a b : string) :
  Latin.lowerCase (a ++ b) = (Latin.lowerCase a ++ Latin.lowerCase b)%string.
Proof. induction a as [|c a IH]; [reflexivity|]. cbn. now rewrite IH. Qed.

Lemma lowerCase_split (m x y : string) :
  Latin.lowerCase m = (x ++ y)%string ->
  exists m1 m2, m = (m1 ++ m2)%string
                /\ Latin.lowerCase m1 = x /\ Latin.lowerCase m2 = y.
Proof.
  revert m; induction x as [|c x IH]; intros m H.
  - now exists EmptyString, m.
  - destruct m as [|d m]; [discriminate|]. cbn in H. injection H as Hc H.
    destruct (IH m H) as [m1 [m2 [-> [H1 H2]]]].
    exists (String d m1), m2. cbn. now rewrite Hc, H1.
Qed.

(** An ASCII text inside a message is lower-cased letter by letter,
    whatever surrounds it. *)
Lemma toLowerCase_ascii_inside (pre v post : string) :
  Latin.isAscii v = true ->
  occursIn (Latin.lowerCase v) (Js.toLowerCase (pre ++ v ++ post)).
Proof.
  intros Hv. destruct v as [|c v].
  - exists EmptyString, (Js.toLowerCase (pre ++ post)). reflexivity.
  - pose proof Hv as Hcv. unfold Latin.isAscii in Hcv.
    change (Js.chars (String c v)) with (c :: Js.chars v) in Hcv.
    cbn [forallb] in Hcv. apply andb_true_iff in Hcv as [Hc _].
    unfold Js.toLowerCase, Js.decode. cbn [String.append].
    rewrite (decodeFrom_flush None pre c (v ++ post) Hc).
    destruct (lowerFrom_app [] (Js.decodeFrom None pre)
                (asciiChar c :: Js.decodeFrom None (v ++ post))) as [out ->].
    assert (asciiChar c :: Js.decodeFrom None (v ++ post)
            = map asciiChar (Js.chars (String c v)) ++ Js.decodeFrom None post) as ->.
    { rewrite <- (decode_ascii_run (String c v) post Hv).
      cbn [String.append]. rewrite (decodeFrom_ascii None c _ Hc). reflexivity. }
    rewrite (lowerFrom_ascii_run _ (String c v) _ Hv).
    now exists out, (Js.lowerFrom
      (rev (map asciiChar (Js.chars (String c v))) ++ rev (Js.decodeFrom None pre) ++ [])
      (Js.decodeFrom None post)).
Qed.

(** On ASCII text [toLowerCase] lowers the letters A to Z and nothing
    else. *)
Lemma toLowerCase_ascii (m : string) :
  Latin.isAscii m = true -> Js.toLowerCase m = Latin.lowerCase m.
Proof.
  intros Hm. unfold Js.toLowerCase, Js.decode.
  rewrite <- (string_app_empty m) at 1.
  rewrite (decode_ascii_run m EmptyString Hm). cbn [Js.decodeFrom].
  rewrite (lowerFrom_ascii_run [] m [] Hm). cbn [Js.lowerFrom].
  apply string_app_empty.
Qed.

(** *** Decoding keeps the bytes *)

Lemma text_app (xs ys : list Js.Char) :
  Js.text (xs ++ ys) = (Js.text xs ++ Js.text ys)%string.
Proof.
  induction xs as [|x xs IH]; [reflexivity|].
  cbn [app Js.text fold_right]. fold (Js.text (xs ++ ys)). fold (Js.text xs).
  now rewrite IH, string_app_assoc.
Qed.

Lemma text_raw (s : string) : Js.text (map Js.raw (Js.chars s)) = s.
Proof.
  induction s as [|c s IH]; [reflexivity|].
  change (Js.chars (String c s)) with (c :: Js.chars s).
  cbn [map Js.text fold_right]. fold (Js.text (map Js.raw (Js.chars s))).
  now rewrite IH.
Qed.

Lemma text_flush (st : option Js.Pending) : Js.text (flush st) = pendingBytes st.
Proof. destruct st; [apply text_raw | reflexivity]. Qed.

Lemma start_bytes (b : ascii) :
  (Js.text (fst (Js.start b)) ++ pendingBytes (snd (Js.start b)))%string
  = String b EmptyString.
Proof.
  unfold Js.start.
  repeat match goal with |- context [if ?c then _ else _] => destruct c end;
    reflexivity.
Qed.

Lemma step_bytes (st : option Js.Pending) (b : ascii) :
  (Js.text (fst (Js.step st b)) ++ pendingBytes (snd (Js.step st b)))%string
  = (pendingBytes st ++ String b EmptyString)%string.
Proof.
  destruct st as [p|]; cbn [Js.step pendingBytes]; [|apply start_bytes].
  destruct (Js.isContinuation b).
  - destruct (Js.need p) as [|[|k]]; cbn [fst snd pendingBytes Js.seen Js.text fold_right];
      try reflexivity.
    destruct (_ && _); [|rewrite text_raw]; cbn [Js.text fold_right Js.utf8];
      now rewrite !string_app_empty.
  - pose proof (start_bytes b) as H. destruct (Js.start b) as [out st'].
    cbn [fst snd] in *. rewrite text_app, text_raw, string_app_assoc. now rewrite H.
Qed.

Lemma text_decodeFrom (st : option Js.Pending) (s : string) :
  Js.text (Js.decodeFrom st s) = (pendingBytes st ++ s)%string.
Proof.
  revert st; induction s as [|b s IH]; intros st.
  - cbn [Js.decodeFrom]. fold (flush st). rewrite text_flush. now rewrite string_app_empty.
  - cbn [Js.decodeFrom]. pose proof (step_bytes st b) as H.
    destruct (Js.step st b) as [out st']. cbn [fst snd] in H.
    rewrite text_app, IH, <- string_app_assoc, H, string_app_assoc. reflexivity.
Qed.

(** The characters of a string spell the string. *)
Lemma text_decode (s : string) : Js.text (Js.decode s) = s.
Proof. apply (text_decodeFrom None s). Qed.

(** *** Dropping white space *)

Lemma dropWhile_split {A} (f : A -> bool) (l : list A) :
  exists a, l = a ++ Js.dropWhile f l /\ forallb f a = true
            /\ forall c, hd_error (Js.dropWhile f l) = Some c -> f c = false.
Proof.
  induction l as [|x l [a [H1 [H2 H3]]]].
  - exists []. repeat split. discriminate.
  - cbn [Js.dropWhile]. destruct (f x) eqn:Hx.
    + exists (x :: a). cbn. rewrite Hx, H2. repeat split; [now f_equal | exact H3].
    + exists []. repeat split. intros c [= <-]. exact Hx.
Qed.

Lemma dropWhile_nil {A} (f : A -> bool) (l : list A) :
  Js.dropWhile f l = [] <-> forallb f l = true.
Proof.
  induction l as [|x l IH]; [easy|]. cbn. destruct (f x); [exact IH | easy].
Qed.

Lemma forallb_rev {A} (f : A -> bool) (l : list A) : forallb f (rev l) = forallb f l.
Proof.
  induction l as [|x l IH]; [reflexivity|]. cbn.
  rewrite forallb_app, IH. cbn. rewrite andb_true_r. apply andb_comm.
Qed.

(** What [trim] keeps: the characters between the leading and the
    trailing white space. *)
Lemma trim_spec (s : string) :
  exists a core b,
    Js.decode s = a ++ core ++ b
    /\ forallb Js.isWhiteSpace a = true
    /\ forallb Js.isWhiteSpace b = true
    /\ (forall c, hd_error core = Some c -> Js.isWhiteSpace c = false)
    /\ (forall c, hd_error (rev core) = Some c -> Js.isWhiteSpace c = false)
    /\ Js.trim s = Js.text core.
Proof.
  unfold Js.trim, Js.trimEnd, Js.trimStart.
  destruct (dropWhile_split Js.isWhiteSpace (Js.decode s)) as [a [Ha [Hwa Hhead]]].
  set (mid := Js.dropWhile Js.isWhiteSpace (Js.decode s)) in *.
  destruct (dropWhile_split Js.isWhiteSpace (rev mid)) as [b [Hb [Hwb Hlast]]].
  set (core := rev (Js.dropWhile Js.isWhiteSpace (rev mid))) in *.
  assert (mid = core ++ rev b) as Hmid.
  { rewrite <- (rev_involutive mid), Hb, rev_app_distr. reflexivity. }
  exists a, core, (rev b). repeat split.
  - now rewrite <- Hmid.
  - exact Hwa.
  - now rewrite forallb_rev.
  - intros c Hc. destruct core as [|x core'] eqn:Hcore; [discriminate|].
    apply Hhead. now rewrite Hmid.
  - intros c Hc. apply Hlast. unfold core in Hc. now rewrite rev_involutive in Hc.
Qed.

Lemma utf8_decodeFrom (st : option Js.Pending) (s : string) :
  (forall p, st = Some p -> Js.seen p <> EmptyString) ->
  Forall (fun c => Js.utf8 c <> EmptyString) (Js.decodeFrom st s).
Proof.
  assert (forall x, Forall (fun c => Js.utf8 c <> EmptyString) (map Js.raw (Js.chars x)))
    as Hraw.
  { intros x. apply Forall_forall. intros c Hc. apply in_map_iff in Hc as [d [<- _]].
    discriminate. }
  assert (forall x b, (x ++ String b EmptyString)%string <> EmptyString) as Hsnoc
    by (intros [|? ?] b; discriminate).
  revert st; induction s as [|b s IH]; intros st Hst.
  - cbn [Js.decodeFrom]. destruct st; [apply Hraw | constructor].
  - cbn [Js.decodeFrom].
    assert (Forall (fun c => Js.utf8 c <> EmptyString) (fst (Js.step st b))
            /\ forall p, snd (Js.step st b) = Some p -> Js.seen p <> EmptyString) as [H1 H2].
    { assert (Forall (fun c => Js.utf8 c <> EmptyString) (fst (Js.start b))
              /\ forall p, snd (Js.start b) = Some p -> Js.seen p <> EmptyString) as Hstart.
      { unfold Js.start.
        repeat match goal with |- context [if ?c then _ else _] => destruct c end;
          cbn [fst snd]; (split; [repeat constructor; discriminate|]);
          intros p [= <-] || intros p [=]; discriminate. }
      destruct st as [p|]; cbn [Js.step]; [|exact Hstart].
      destruct (Js.isContinuation b).
      - destruct (Js.need p) as [|[|k]]; cbn [fst snd].
        + split; [constructor|]. intros q [= <-]. apply Hsnoc.
        + split; [|discriminate]. destruct (_ && _); [|apply Hraw].
          repeat constructor. apply Hsnoc.
        + split; [constructor|]. intros q [= <-]. apply Hsnoc.
      - destruct (Js.start b) as [out st']. cbn [fst snd] in *.
        destruct Hstart as [Ho Hs]. split; [|exact Hs].
        apply Forall_app. split; [apply Hraw | exact Ho]. }
    destruct (Js.step st b) as [out st']. cbn [fst snd] in *.
    apply Forall_app. split; [exact H1 | apply IH, H2].
Qed.

(** [trim] leaves nothing exactly when every character is white space. *)
Lemma trim_blank (s : string) :
  Js.truthy (Js.trim s) = false <-> forallb Js.isWhiteSpace (Js.decode s) = true.
Proof.
  unfold Js.trim, Js.trimEnd, Js.trimStart.
  pose proof (utf8_decodeFrom None s ltac:(discriminate)) as Hne. fold (Js.decode s) in Hne.
  destruct (dropWhile_split Js.isWhiteSpace (Js.decode s)) as [a [Ha [Hwa _]]].
  set (mid := Js.dropWhile Js.isWhiteSpace (Js.decode s)) in *.
  split.
  - intros H.
    assert (rev (Js.dropWhile Js.isWhiteSpace (rev mid)) = []) as Hnil.
    { destruct (rev (Js.dropWhile Js.isWhiteSpace (rev mid))) as [|c l] eqn:Hr;
        [reflexivity|]. exfalso.
      assert (In c (Js.decode s)) as Hin.
      { rewrite Ha. apply in_or_app. right. apply in_rev.
        destruct (dropWhile_split Js.isWhiteSpace (rev mid)) as [b [Hb _]].
        rewrite Hb. apply in_or_app. right. apply in_rev. rewrite Hr. now left. }
      pose proof (proj1 (Forall_forall _ _) Hne c Hin) as Hc.
      cbn beta in Hc. unfold Js.text in H. cbn [fold_right] in H.
      destruct (Js.utf8 c); [now apply Hc | discriminate]. }
    apply (f_equal (@rev _)) in Hnil. rewrite rev_involutive in Hnil. cbn in Hnil.
    apply dropWhile_nil in Hnil. rewrite forallb_rev in Hnil.
    rewrite Ha, forallb_app, Hwa, Hnil. reflexivity.
  - intros H. apply dropWhile_nil in H. unfold mid. rewrite H. reflexivity.
Qed.

Example trim_example : Js.trim "  Nf3 " = "Nf3".
Proof. reflexivity. Qed.

Example removeDots_example : Js.removeDots (Js.trim " 1. e4 ") = "1 e4".
Proof. reflexivity. Qed.

Example includes_example :
  Js.includes "a classical opening" "ass" = true
  /\ Js.includes "a classical opening" "asst" = false.
Proof. split; reflexivity. Qed.

Example hasCurse_examples :
  GeminiChessService.hasCurse "That was STUPID of me" = true
  /\ GeminiChessService.hasCurse "Is the Classical Variation sound?" = true
  /\ GeminiChessService.hasCurse "Which move is best here?" = false.
Proof. repeat split. Qed.

Lemma hasCurse_spec (message : string) :
  GeminiChessService.hasCurse message = true <->
  exists word, In word GeminiChessService.profaneWords
               /\ occursIn word (Js.toLowerCase message).
Proof.
  unfold GeminiChessService.hasCurse. rewrite existsb_exists.
  split; intros [word [Hin H]]; exists word; (split; [exact Hin|]);
    now apply includes_spec.
Qed.

Lemma prompts_differ (message fen : string) (elo elo' : Z) :
  GeminiChessService.coachPrompt message fen elo <> GeminiChessService.savagePrompt elo'.
Proof.
  unfold GeminiChessService.coachPrompt, GeminiChessService.savagePrompt.
  cbn [String.concat String.append]. discriminate.
Qed.

Example toLowerCase_examples :
  Js.toLowerCase "That was STUPID of me" = "that was stupid of me"
  /\ Js.toLowerCase ("DIC" ++ Js.fromCodePoint 8490) = "dick"
  /\ Js.toLowerCase (Js.fromCodePoint 201 ++ "T" ++ Js.fromCodePoint 201)
     = (Js.fromCodePoint 233 ++ "t" ++ Js.fromCodePoint 233)%string
  /\ Js.toLowerCase (Js.fromCodePoint 304 ++ "DIOT")
     = ("i" ++ Js.fromCodePoint 775 ++ "diot")%string
  /\ Js.toLowerCase (Js.fromCodePoint 927 ++ Js.fromCodePoint 931)
     = (Js.fromCodePoint 959 ++ Js.fromCodePoint 962)%string
  /\ Js.toLowerCase (Js.fromCodePoint 931 ++ Js.fromCodePoint 927)
     = (Js.fromCodePoint 963 ++ Js.fromCodePoint 959)%string.
Proof. repeat split; vm_compute; reflexivity. Qed.

(** The Kelvin sign (U+212A) lower-cases to [k]; the capital I with dot
    above (U+0130) to [i] and a combining dot, which separates it from
    the next letter. *)
Example hasCurse_beyond_ascii :
  GeminiChessService.hasCurse ("you DIC" ++ Js.fromCodePoint 8490) = true
  /\ GeminiChessService.hasCurse (Js.fromCodePoint 304 ++ "DIOT") = false.
Proof. split; vm_compute; reflexivity. Qed.

Lemma profaneWords_ascii (word : string) :
  In word GeminiChessService.profaneWords -> Latin.isAscii word = true.
Proof.
  intros H. cbn in H.
  repeat (destruct H as [<- | H]; [reflexivity|]). destruct H.
Qed.

(** C7. The hostile-content signal of a chat message is true exactly
    when its lower-cased text contains one of the listed keywords as a
    substring, and the request goes out with the adversarial system
    prompt exactly in that case. The check does not depend on the case
    of the letters: a message that contains a keyword in any spelling
    with the letters A to Z or a to z is flagged, and a message of
    ASCII characters is flagged only if it contains such a spelling. *)
Theorem C7_hostile_signal_is_keyword_membership (message fen : string) (elo : Z) :
  (GeminiChessService.hasCurse message = true <->
   exists word, In word GeminiChessService.profaneWords
                /\ occursIn word (Js.toLowerCase message))
  /\
  (GeminiChessService.systemInstruction
     (GeminiChessService.chatRequest message fen elo)
   = Some (GeminiChessService.savagePrompt elo) <->
   exists word, In word GeminiChessService.profaneWords
                /\ occursIn word (Js.toLowerCase message))
  /\
  (forall word spelling : string,
     In word GeminiChessService.profaneWords ->
     Latin.lowerCase spelling = word ->
     occursIn spelling message ->
     GeminiChessService.hasCurse message = true)
  /\
  (Latin.isAscii message = true ->
   GeminiChessService.hasCurse message = true ->
   exists word spelling : string,
     In word GeminiChessService.profaneWords
     /\ Latin.lowerCase spelling = word
     /\ occursIn spelling message).
Proof.
  split; [apply hasCurse_spec|]. split; [|split].
  - rewrite <- hasCurse_spec. unfold GeminiChessService.chatRequest.
    cbn [GeminiChessService.systemInstruction].
    destruct (GeminiChessService.hasCurse message).
    + split; reflexivity.
    + split; [|discriminate]. intros H. exfalso.
      apply (prompts_differ message fen elo elo).
      exact (f_equal (fun t => match t with Some p => p | None => EmptyString end) H).
  - intros word spelling Hin Hlow [pre [post ->]].
    apply hasCurse_spec. exists word. split; [exact Hin|].
    rewrite <- Hlow. apply toLowerCase_ascii_inside.
    rewrite <- isAscii_lowerCase, Hlow. now apply profaneWords_ascii.
  - intros Hascii H. apply hasCurse_spec in H as [word [Hin [pre [post H]]]].
    rewrite (toLowerCase_ascii message Hascii) in H.
    apply lowerCase_split in H as [m1 [m2 [-> [_ H]]]].
    apply lowerCase_split in H as [spelling [m3 [-> [H _]]]].
    exists word, spelling. split; [exact Hin|]. split; [exact H|].
    now exists m1, m3.
Qed.

(** ** The provider service *)

Lemma getBestMove_returns (fen : string) (elo : Z) (o : GeminiChessService.ApiOutcome) :
  exists m, GeminiChessService.getBestMove fen elo o = Returns m.
Proof.
  unfold GeminiChessService.getBestMove.
  destruct o as [|[t|]]; cbn; eauto.
Qed.

Lemma getMoveAnalysis_returns (fen : string) (history : list SanValue) (elo : Z)
  (o : GeminiChessService.ApiOutcome) :
  exists t, GeminiChessService.getMoveAnalysis fen history elo o = Returns t
            /\ Js.truthy t = true.
Proof.
  unfold GeminiChessService.getMoveAnalysis.
  destruct o as [|[t|]]; cbn; eauto.
  destruct (Js.truthy t) eqn:Ht; eauto.
Qed.

Lemma getChatResponse_returns (message fen : string) (elo : Z)
  (o : GeminiChessService.ApiOutcome) :
  exists t, GeminiChessService.getChatResponse message fen elo o = Returns t
            /\ Js.truthy t = true.
Proof.
  unfold GeminiChessService.getChatResponse.
  destruct o as [|[t|]]; cbn; eauto.
  destruct (Js.truthy t) eqn:Ht; eauto.
Qed.

(** C8, as stated, fails: a response whose text is no move token is a
    malformed response, yet [getBestMove] hands the text on instead of
    returning [null]. *)
Lemma C8_malformed_response_is_returned :
  providerFailure (GeminiChessService.ApiResponds (Some "Sorry, no move")) = true
  /\ GeminiChessService.getBestMove Repertoire.startFen 1500
       (GeminiChessService.ApiResponds (Some "Sorry, no move"))
     = Returns (Some "Sorry, no move")
  /\ GeminiChessService.getBestMove Repertoire.startFen 1500
       (GeminiChessService.ApiResponds (Some "Sorry, no move"))
     <> Returns None.
Proof. split; [reflexivity | split; [reflexivity | discriminate]]. Qed.

(** C8, amended. No provider operation throws: each returns for every
    outcome of its network call, the analysis and the chat always with a
    non-empty text. When the call fails or the response has no text or
    an empty one, [getBestMove] returns [null] and the other two return
    one of their fixed fallback strings. A response text is otherwise
    handed on as it is (for [getBestMove]: trimmed and without dots,
    [null] if nothing remains), whether or not it is a move token. *)
Theorem C8_providers_absorb_failures (fen message : string) (history : list SanValue)
  (elo : Z) (o : GeminiChessService.ApiOutcome) :
  noText o = true ->
  (exists m, GeminiChessService.getBestMove fen elo o = Returns m)
  /\ (exists t, GeminiChessService.getMoveAnalysis fen history elo o = Returns t
                /\ Js.truthy t = true)
  /\ (exists t, GeminiChessService.getChatResponse message fen elo o = Returns t
                /\ Js.truthy t = true)
  /\ GeminiChessService.getBestMove fen elo o = Returns None
  /\ In (GeminiChessService.getMoveAnalysis fen history elo o)
        [Returns GeminiChessService.analysisUnavailable;
         Returns GeminiChessService.analysisFailed]
  /\ In (GeminiChessService.getChatResponse message fen elo o)
        [Returns GeminiChessService.chatUnsure;
         Returns GeminiChessService.chatFailed]
  /\ (forall o' : GeminiChessService.ApiOutcome,
        (exists m, GeminiChessService.getBestMove fen elo o' = Returns m)
        /\ (exists t, GeminiChessService.getMoveAnalysis fen history elo o' = Returns t
                      /\ Js.truthy t = true)
        /\ (exists t, GeminiChessService.getChatResponse message fen elo o' = Returns t
                      /\ Js.truthy t = true))
  /\ (forall t : string,
        GeminiChessService.getBestMove fen elo (GeminiChessService.ApiResponds (Some t))
        = Returns (if Js.truthy (Js.removeDots (Js.trim t))
                   then Some (Js.removeDots (Js.trim t)) else None))
  /\ (forall t : string,
        t <> EmptyString ->
        GeminiChessService.getMoveAnalysis fen history elo
          (GeminiChessService.ApiResponds (Some t)) = Returns t
        /\ GeminiChessService.getChatResponse message fen elo
             (GeminiChessService.ApiResponds (Some t)) = Returns t).
Proof.
  intros Hno.
  split; [apply getBestMove_returns|].
  split; [apply getMoveAnalysis_returns|].
  split; [apply getChatResponse_returns|].
  split; [|split; [|split; [|split; [|split]]]].
  - destruct o as [|[t|]]; try reflexivity.
    destruct t; [reflexivity | discriminate].
  - destruct o as [|[t|]]; cbn; auto.
    destruct t; [cbn; auto | discriminate].
  - destruct o as [|[t|]]; cbn; auto.
    destruct t; [cbn; auto | discriminate].
  - intros o'. split; [apply getBestMove_returns|].
    split; [apply getMoveAnalysis_returns | apply getChatResponse_returns].
  - intros t. reflexivity.
  - intros t Ht. destruct t; [now elim Ht | split; reflexivity].
Qed.

Lemma C8_providers_absorb_failures_witness :
  noText GeminiChessService.ApiRejects = true
  /\ GeminiChessService.getBestMove Repertoire.startFen 1500 GeminiChessService.ApiRejects
     = Returns None.
Proof.
  split; [reflexivity|].
  exact (proj1 (proj2 (proj2 (proj2
    (C8_providers_absorb_failures Repertoire.startFen "hello" [] 1500
       GeminiChessService.ApiRejects eq_refl))))).
Defined.

(** White space beyond ASCII is trimmed as well: no-break space
    (U+00A0) and paragraph separator (U+2029). *)
Example getBestMove_trims_unicode_space :
  GeminiChessService.getBestMove Repertoire.startFen 1500
    (GeminiChessService.ApiResponds
       (Some (Js.fromCodePoint 160 ++ "e4" ++ Js.fromCodePoint 8233 ++ Js.newline)%string))
  = Returns (Some "e4").
Proof. vm_compute. reflexivity. Qed.

(** ** The session: frame properties of single handlers *)

Section SessionProperties.

Variable E : Chess.Engine.

Implicit Types (x : App.Session E) (p : Page.Page E) (r : MoveRequest).

Lemma onMove_while_ai_playing x r :
  App.isAiPlaying (App.state x) = true -> App.onMove x r = x.
Proof. intros H. unfold App.onMove. now rewrite H. Qed.

Lemma boardProps_game_over x :
  Chess.isGameOver E (App.game (App.state x)) = true
  \/ App.isAiPlaying (App.state x) = true ->
  ChessBoard.isGameOver (Page.boardProps x) = true.
Proof.
  unfold Page.boardProps. cbn [ChessBoard.isGameOver].
  rewrite orb_true_iff. tauto.
Qed.

Lemma handleSquareClick_disabled (props : ChessBoard.Props) (b : ChessBoard.State)
  (square : Square) :
  ChessBoard.isGameOver props = true ->
  ChessBoard.handleSquareClick E props b square = (b, None).
Proof. intros H. unfold ChessBoard.handleSquareClick. now rewrite H. Qed.

Lemma handleDragStart_disabled (props : ChessBoard.Props) (b : ChessBoard.State)
  (square : Square) :
  ChessBoard.isGameOver props = true ->
  ChessBoard.handleDragStart E props b square = (b, None).
Proof. intros H. unfold ChessBoard.handleDragStart. now rewrite H. Qed.

(** On a click or a drop the session changes through [onMove] only. *)
Lemma step_click p square :
  Page.session (Page.step p (Page.Click square))
  = Page.callOnMove (Page.session p) (submitted p (Page.Click square)).
Proof.
  unfold Page.step, submitted.
  now destruct (ChessBoard.handleSquareClick E _ _ _).
Qed.

Lemma step_drop p square :
  Page.session (Page.step p (Page.Drop square))
  = Page.callOnMove (Page.session p) (submitted p (Page.Drop square)).
Proof.
  unfold Page.step, submitted.
  destruct (Page.drag p); [|reflexivity].
  now destruct (ChessBoard.handleDrop _ _ _ _).
Qed.

Lemma callOnMove_while_ai_playing x (call : option MoveRequest) :
  App.isAiPlaying (App.state x) = true -> Page.callOnMove x call = x.
Proof.
  intros H. destruct call; [now apply onMove_while_ai_playing | reflexivity].
Qed.

Lemma submitted_promotion p (e : Page.Event) r :
  submitted p e = Some r -> req_promotion r = Some "q".
Proof.
  destruct e; cbn [submitted]; try discriminate.
  - unfold ChessBoard.handleSquareClick.
    repeat match goal with
           | |- context [if ?c then _ else _] => destruct c
           | |- context [match ?c with Some _ => _ | None => _ end] => destruct c
           end; cbn [snd]; intros H; try discriminate;
      injection H as <-; reflexivity.
  - destruct (Page.drag p); [|discriminate].
    unfold ChessBoard.handleDrop. cbn [snd].
    destruct (ChessBoard.includesSquare _ _); intros H; [|discriminate].
    injection H as <-; reflexivity.
Qed.

Lemma submitted_event p (e : Page.Event) r :
  submitted p e = Some r ->
  Page.session (Page.step p e) = App.onMove (Page.session p) r.
Proof.
  intros H. destruct e; try discriminate.
  - now rewrite step_click, H.
  - now rewrite step_drop, H.
Qed.

Lemma moveObject_queen r :
  req_promotion r = Some "q" \/ req_promotion r = None \/ req_promotion r = Some "" ->
  App.moveObject r = {| from := req_from r; to := req_to r; promotion := "q" |}.
Proof.
  unfold App.moveObject. intros [-> | [-> | ->]]; reflexivity.
Qed.

End SessionProperties.

(** Once [isAiPlaying] is set, a human move submission leaves the
    session as it is - position, history, flags, chat log and
    suspended calls - whether [onMove] is called directly or through a
    click, a drag start or a drop on the board. *)
Lemma submission_ignored_while_isAiPlaying (E : Chess.Engine) (p : Page.Page E)
  (r : MoveRequest) (square : Square) :
  App.isAiPlaying (App.state (Page.session p)) = true ->
  App.onMove (Page.session p) r = Page.session p
  /\ Page.step p (Page.Click square) = p
  /\ Page.session (Page.step p (Page.DragStart square)) = Page.session p
  /\ Page.session (Page.step p (Page.Drop square)) = Page.session p.
Proof.
  intros H. split; [now apply onMove_while_ai_playing|]. split; [|split].
  - unfold Page.step.
    rewrite (handleSquareClick_disabled E _ _ _
               (boardProps_game_over E _ (or_intror H))).
    now destruct p.
  - unfold Page.step. now destruct (ChessBoard.handleDragStart E _ _ _).
  - rewrite step_drop. now apply callOnMove_while_ai_playing.
Qed.

Example submission_ignored_while_ai_thinks :
  App.isAiPlaying (App.state (Page.session pageAiThinking)) = true
  /\ App.onMove (Page.session pageAiThinking)
       {| req_from := "e7"; req_to := "e5"; req_promotion := Some "q" |}
     = Page.session pageAiThinking.
Proof.
  split; [exact eq_refl|].
  exact (proj1 (submission_ignored_while_isAiPlaying _ pageAiThinking
                  {| req_from := "e7"; req_to := "e5"; req_promotion := Some "q" |}
                  "e7" eq_refl)).
Qed.

(** C4 (the code departs from it). The AI turn is in flight from the
    moment the human's move is applied, but [isAiPlaying], the only
    thing [onMove] and the board look at, is set later: when
    [makeAiMove] starts, after the analysis of the human's move has
    come back and the timer has fired. In between a human submission
    is accepted. After 1. e4, with Black (the AI) to move, 1... e5 is
    clicked on the board: both while the analysis is awaited and while
    the timer of the AI turn is pending it is applied to position and
    history. *)
Theorem C4_submission_accepted_before_latch :
  let E := Repertoire.engine true in
  let awaiting := Page.run (Page.initialPage E) [Page.Click "e2"; Page.Click "e4"] in
  let scheduled :=
    Page.step awaiting
      (Page.Settles 0 (GeminiChessService.ApiResponds (Some "A classical opening.")) 0) in
  let clicks := [Page.Click "e7"; Page.Click "e5"] in
  let r := {| req_from := "e7"; req_to := "e5"; req_promotion := Some "q" |} in
  App.history (App.state (Page.session awaiting)) = [Some "e4"]
  /\ App.game (App.state (Page.session awaiting)) = Repertoire.fenE4
  /\ Chess.turn E (App.game (App.state (Page.session awaiting))) = Black
  /\ App.isAiPlaying (App.state (Page.session awaiting)) = false
  /\ length (App.suspended (Page.session awaiting)) = 1
  /\ aiTurnPending (Page.session scheduled) = true
  /\ App.isAiPlaying (App.state (Page.session scheduled)) = false
  /\ App.game (App.state (Page.session (Page.run awaiting clicks))) = Repertoire.fenE4E5
  /\ App.history (App.state (Page.session (Page.run awaiting clicks)))
     = [Some "e4"; Some "e5"]
  /\ App.game (App.state (Page.session (Page.run scheduled clicks))) = Repertoire.fenE4E5
  /\ App.history (App.state (Page.session (Page.run scheduled clicks)))
     = [Some "e4"; Some "e5"]
  /\ App.game (App.state (App.onMove (Page.session scheduled) r)) = Repertoire.fenE4E5
  /\ App.history (App.state (App.onMove (Page.session scheduled) r))
     = [Some "e4"; Some "e5"].
Proof. by_evaluation. Qed.

(** C9. A difficulty change touches the [elo] cell only: position,
    history, terminal status, analysis text, chat log, input, flags,
    suspended calls and the board are what they were. (The slider is
    disabled while the AI plays; the change then does not happen.) *)
Theorem C9_difficulty_change_frames_session (E : Chess.Engine) (p : Page.Page E)
  (value : Z) :
  let s := App.state (Page.session p) in
  let p' := Page.step p (Page.ChangeElo value) in
  let s' := App.state (Page.session p') in
  App.game s' = App.game s
  /\ App.history s' = App.history s
  /\ Chess.isGameOver E (App.game s') = Chess.isGameOver E (App.game s)
  /\ Chess.isCheckmate E (App.game s') = Chess.isCheckmate E (App.game s)
  /\ App.chatMessages s' = App.chatMessages s
  /\ App.aiAnalysis s' = App.aiAnalysis s
  /\ App.inputMessage s' = App.inputMessage s
  /\ App.isAiThinking s' = App.isAiThinking s
  /\ App.isAiPlaying s' = App.isAiPlaying s
  /\ App.suspended (Page.session p') = App.suspended (Page.session p)
  /\ Page.board p' = Page.board p
  /\ App.elo s' = (if App.isAiPlaying s then App.elo s else value)
  /\ App.state (App.changeElo (Page.session p) value)
     = App.setElo value (App.state (Page.session p)).
Proof.
  cbv zeta. unfold Page.step.
  destruct (App.isAiPlaying (App.state (Page.session p))) eqn:H;
    cbn; rewrite ?H; repeat split; reflexivity.
Qed.

(** C10. Every [onMove] call the board makes (on a click or on a drop)
    carries promotion ['q'], [onMove] hands the engine a move object
    whose promotion is ['q'] for it - as it does for a request without
    a promotion field - and the session's reaction to the event is that
    of [onMove] on this request: the board offers no other promotion. *)
Theorem C10_human_promotion_is_queen (E : Chess.Engine) (p : Page.Page E)
  (e : Page.Event) (r : MoveRequest) :
  submitted p e = Some r ->
  req_promotion r = Some "q"
  /\ App.moveObject r = {| from := req_from r; to := req_to r; promotion := "q" |}
  /\ Page.session (Page.step p e) = App.onMove (Page.session p) r
  /\ (forall f t : Square,
        App.moveObject {| req_from := f; req_to := t; req_promotion := None |}
        = {| from := f; to := t; promotion := "q" |}).
Proof.
  intros H. pose proof (submitted_promotion E p e r H) as Hq.
  split; [exact Hq|]. split; [apply moveObject_queen; now left|].
  split; [now apply submitted_event | reflexivity].
Qed.

Lemma C10_human_promotion_is_queen_witness :
  submitted pagePromotion (Page.Click "a8")
  = Some {| req_from := "a7"; req_to := "a8"; req_promotion := Some "q" |}
  /\ App.history (App.state (Page.session (Page.step pagePromotion (Page.Click "a8"))))
     = [Some "a8=Q"].
Proof.
  split; [exact eq_refl|].
  rewrite (proj1 (proj2 (proj2
    (C10_human_promotion_is_queen _ pagePromotion (Page.Click "a8")
       {| req_from := "a7"; req_to := "a8"; req_promotion := Some "q" |} eq_refl)))).
  exact eq_refl.
Defined.

(** ** The AI turn *)

Section AiTurn.

Variable E : Chess.Engine.

Implicit Types (x : App.Session E) (mk : App.AiClosure).

(** Without a move token the resumed [makeAiMove] only clears the
    [isAiPlaying] flag. *)
Lemma makeAiMoveResume_null x (currentGame : Chess.Game E) mk
  (o : GeminiChessService.ApiOutcome) (draw : nat) :
  GeminiChessService.getBestMove (Chess.fen E currentGame) (App.cl_elo mk) o
  = Returns None ->
  App.makeAiMoveResume x currentGame mk o draw = App.update (App.setIsAiPlaying false) x.
Proof. intros H. unfold App.makeAiMoveResume. now rewrite H. Qed.

(** When the engine answers an illegal token with [null], the fallback
    branch runs: one of the engine's own moves is played on a copy and
    recorded. *)
Lemma makeAiMoveResume_fallback x (currentGame g' : Chess.Game E) mk
  (o : GeminiChessService.ApiOutcome) (draw : nat) (m pick san : string) :
  GeminiChessService.getBestMove (Chess.fen E currentGame) (App.cl_elo mk) o
  = Returns (Some m) ->
  Js.truthy m = true ->
  Chess.move E (Chess.load E (Chess.fen E currentGame)) (Some m) = MoveNull ->
  nth_error (Chess.moves E currentGame)
            (App.randomIndex draw (length (Chess.moves E currentGame))) = Some pick ->
  Chess.move E (Chess.load E (Chess.fen E currentGame)) (Some pick) = Moved g' san ->
  let x' := App.makeAiMoveResume x currentGame mk o draw in
  App.game (App.state x') = g'
  /\ App.history (App.state x') = App.history (App.state x) ++ [Some pick]
  /\ App.isAiPlaying (App.state x') = false
  /\ App.suspended x' = App.suspended x.
Proof.
  intros Hm Ht Hnull Hpick Hmove. cbv zeta. unfold App.makeAiMoveResume.
  rewrite Hm, Ht, Hnull, Hpick, Hmove. repeat split.
Qed.

(** When the engine throws on an illegal token, the error is caught and
    no move is played. *)
Lemma makeAiMoveResume_throws x (currentGame : Chess.Game E) mk
  (o : GeminiChessService.ApiOutcome) (draw : nat) (m : string) :
  GeminiChessService.getBestMove (Chess.fen E currentGame) (App.cl_elo mk) o
  = Returns (Some m) ->
  Js.truthy m = true ->
  Chess.move E (Chess.load E (Chess.fen E currentGame)) (Some m) = MoveThrows ->
  App.makeAiMoveResume x currentGame mk o draw = App.update (App.setIsAiPlaying false) x.
Proof.
  intros Hm Ht Hthrows. unfold App.makeAiMoveResume. now rewrite Hm, Ht, Hthrows.
Qed.

End AiTurn.

(** C1 (the code departs from it). After 1. e4 - a position that is
    not over and has legal replies - the AI turn starts and the move
    provider fails, so that [getBestMove] returns [null]. The resumed
    [makeAiMove] plays no move: position and history stay as they were,
    nothing is left suspended and [isAiPlaying] is cleared, with Black
    still to move. *)
Theorem C1_null_move_applies_no_fallback :
  let E := Repertoire.engine true in
  let before := App.state (Page.session pageAiThinking) in
  let after :=
    Page.session (Page.step pageAiThinking
                    (Page.Settles 0 GeminiChessService.ApiRejects 0)) in
  Chess.isGameOver E (App.game before) = false
  /\ (0 <? length (Chess.moves E (App.game before)))%nat = true
  /\ map App.requestOf (App.suspended (Page.session pageAiThinking))
     = [Some (GeminiChessService.bestMoveRequest Repertoire.fenE4 1500)]
  /\ GeminiChessService.getBestMove Repertoire.fenE4 1500 GeminiChessService.ApiRejects
     = Returns None
  /\ App.game (App.state after) = Repertoire.fenE4
  /\ App.history (App.state after) = [Some "e4"]
  /\ Chess.turn E (App.game (App.state after)) = Black
  /\ App.isAiPlaying (App.state after) = false
  /\ length (App.suspended after) = 0.
Proof. by_evaluation. Qed.

(** The same holds on an engine that throws on illegal moves when the
    provider's token is illegal; an engine that returns [null] instead
    reaches the fallback branch. *)
Lemma illegal_token_strict_engine :
  let after :=
    Page.session (Page.step pageAiThinking
                    (Page.Settles 0 (GeminiChessService.ApiResponds (Some "Ke2")) 7)) in
  App.game (App.state after) = Repertoire.fenE4
  /\ App.history (App.state after) = [Some "e4"]
  /\ App.isAiPlaying (App.state after) = false.
Proof. by_evaluation. Qed.

Lemma illegal_token_lenient_engine :
  let E := Repertoire.engine false in
  let after :=
    Page.session (Page.run (Page.initialPage E)
      [Page.Click "e2"; Page.Click "e4";
       Page.Settles 0 (GeminiChessService.ApiResponds (Some "A classical opening.")) 0;
       Page.TimerFires 0;
       Page.Settles 0 (GeminiChessService.ApiResponds (Some "Ke2")) 3]) in
  App.history (App.state after) = [Some "e4"; Some "c5"]
  /\ replay E (Chess.new E) (App.history (App.state after)) = Some (App.game (App.state after))
  /\ App.isAiPlaying (App.state after) = false.
Proof. by_evaluation. Qed.

(** ** History and position *)

Section Records.

Variable E : Chess.Engine.

Implicit Types (x : App.Session E) (mk : App.AiClosure).

(** [onMove] either leaves the session alone (AI playing, or the move
    is not played by the engine) or installs the engine's new position
    and appends the SAN of that very move. *)
Lemma onMove_position_and_history x (r : MoveRequest) :
  App.onMove x r = x
  \/ exists g san,
       Chess.moveFromTo E (Chess.load E (Chess.fen E (App.game (App.state x))))
         (App.moveObject r) = Moved g san
       /\ App.game (App.state (App.onMove x r)) = g
       /\ App.history (App.state (App.onMove x r))
          = App.history (App.state x) ++ [Some san].
Proof.
  unfold App.onMove.
  destruct (App.isAiPlaying (App.state x)); [now left|].
  destruct (Chess.moveFromTo E _ _) as [g san| |]; [|now left|now left].
  right. exists g, san. repeat split.
Qed.

(** The resumed [makeAiMove] either keeps position and history, or
    appends one record [san] and installs a position obtained from a
    copy of the captured [currentGame] - not of the session's current
    game - by the engine's [move] on [san] (the copy itself if [move]
    returns [null] on a fallback pick). *)
Lemma makeAiMoveResume_position_and_history x (currentGame : Chess.Game E) mk
  (o : GeminiChessService.ApiOutcome) (draw : nat) :
  let x' := App.makeAiMoveResume x currentGame mk o draw in
  let copy := Chess.load E (Chess.fen E currentGame) in
  (App.game (App.state x') = App.game (App.state x)
   /\ App.history (App.state x') = App.history (App.state x))
  \/ exists token san,
       App.history (App.state x') = App.history (App.state x) ++ [san]
       /\ ((exists s, Chess.move E copy token = Moved (App.game (App.state x')) s
                      /\ (san = Some s \/ san = token))
           \/ (Chess.move E copy token = MoveNull
               /\ san = token /\ App.game (App.state x') = copy)).
Proof.
  cbv zeta. unfold App.makeAiMoveResume.
  destruct (GeminiChessService.getBestMove _ _ _) as [[m|]|]; try (now left).
  destruct (Js.truthy m); [|now left].
  destruct (Chess.move E _ (Some m)) as [g s| |] eqn:Hm; [| |now left].
  - right. exists (Some m), (Some s). split; [reflexivity|].
    left. exists s. split; [exact Hm | now left].
  - destruct (Chess.move E _ (nth_error _ _)) as [g s| |] eqn:Hp; [| |now left].
    + right. eexists _, _. split; [reflexivity|].
      left. exists s. split; [exact Hp | now right].
    + right. eexists _, _. split; [reflexivity|].
      right. repeat split. exact Hp.
Qed.

(** *** What keeps the record and the position together *)

Lemma replay_snoc (g : Chess.Game E) (h : list SanValue) (san : SanValue) :
  replay E g (h ++ [san])
  = match replay E g h with
    | Some g' => match Chess.move E g' san with
                 | Moved g'' _ => Some g''
                 | MoveNull | MoveThrows => None
                 end
    | None => None
    end.
Proof.
  revert g; induction h as [|a h IH]; intros g; cbn.
  - now destruct (Chess.move E g san).
  - destruct (Chess.move E g a); [apply IH | reflexivity | reflexivity].
Qed.

(** A move played on a game with the FEN of the session's game extends
    a consistent session consistently. *)
Lemma consistent_extend x x' (from_ g' : Chess.Game E) (san : SanValue) (s : string) :
  Lawful E ->
  consistent x ->
  Chess.fen E from_ = Chess.fen E (App.game (App.state x)) ->
  Chess.move E from_ san = Moved g' s ->
  App.history (App.state x') = App.history (App.state x) ++ [san] ->
  Chess.fen E (App.game (App.state x')) = Chess.fen E g' ->
  consistent x'.
Proof.
  intros L [g0 [Hr Hf]] Hfrom Hmove Hh Hg.
  destruct (move_by_fen E L from_ g0 san g' s) as [g0' [Hm0 Hf0]];
    [congruence | exact Hmove |].
  exists g0'. rewrite Hh, replay_snoc, Hr, Hm0. split; [reflexivity | congruence].
Qed.

(** [onMove] keeps the session consistent. *)
Lemma onMove_consistent x (r : MoveRequest) :
  Lawful E -> consistent x -> consistent (App.onMove x r).
Proof.
  intros L Hc.
  destruct (onMove_position_and_history x r) as [-> | [g [san [Hm [Hg Hh]]]]];
    [exact Hc|].
  destruct (san_of_object E L _ _ _ _ Hm) as [g'' [Hs Hf]].
  apply (consistent_extend x _ (Chess.load E (Chess.fen E (App.game (App.state x))))
           g'' (Some san) san L Hc).
  - apply (load_fen E L).
  - exact Hs.
  - exact Hh.
  - congruence.
Qed.

(** The resumed [makeAiMove] keeps the session consistent provided the
    game it captured still has the FEN of the session's game (and the
    engine does not answer [null] to the fallback pick). *)
Lemma makeAiMoveResume_consistent x (currentGame : Chess.Game E) mk
  (o : GeminiChessService.ApiOutcome) (draw : nat) :
  Lawful E ->
  consistent x ->
  Chess.fen E currentGame = Chess.fen E (App.game (App.state x)) ->
  Chess.move E (Chess.load E (Chess.fen E currentGame))
    (nth_error (Chess.moves E currentGame)
       (App.randomIndex draw (length (Chess.moves E currentGame)))) <> MoveNull ->
  consistent (App.makeAiMoveResume x currentGame mk o draw).
Proof.
  intros L Hc Hcur Hpick.
  assert (Chess.fen E (Chess.load E (Chess.fen E currentGame))
          = Chess.fen E (App.game (App.state x))) as Hcopy
    by (rewrite (load_fen E L); exact Hcur).
  unfold App.makeAiMoveResume.
  destruct (GeminiChessService.getBestMove _ _ _) as [[m|]|]; try exact Hc.
  - destruct (Js.truthy m); [|exact Hc].
    destruct (Chess.move E _ (Some m)) as [g s| |] eqn:Hm; [| |exact Hc].
    + destruct (san_of_token E L _ _ _ _ Hm) as [g'' [Hs Hf]].
      apply (consistent_extend x _ _ g'' (Some s) s L Hc Hcopy Hs);
        [reflexivity | cbn; congruence].
    + destruct (Chess.move E _ (nth_error _ _)) as [g s| |] eqn:Hp;
        [|contradiction|exact Hc].
      apply (consistent_extend x _ _ g _ s L Hc Hcopy Hp); reflexivity.
Qed.

End Records.

(** The repertoire engine is lawful. *)
Lemma repertoire_san_determines_position :
  forallb (fun l1 =>
    forallb (fun l2 =>
      implb (String.eqb (Repertoire.l_at l1) (Repertoire.l_at l2)
             && String.eqb (Repertoire.l_san l1) (Repertoire.l_san l2))
            (String.eqb (Repertoire.l_next l1) (Repertoire.l_next l2)))
      Repertoire.lines)
    Repertoire.lines = true.
Proof. exact eq_refl. Qed.

Lemma repertoire_played (strict : bool) (found : option Repertoire.Line) (g' s : string) :
  Repertoire.played strict found = Moved g' s ->
  exists l, found = Some l /\ Repertoire.l_next l = g' /\ Repertoire.l_san l = s.
Proof.
  destruct found as [l|]; cbn.
  - intros H. injection H as <- <-. now exists l.
  - destruct strict; discriminate.
Qed.

Lemma repertoire_move_san (strict : bool) (g : string) (l : Repertoire.Line) :
  In l Repertoire.lines ->
  Repertoire.playedAt g l = true ->
  Repertoire.move strict g (Some (Repertoire.l_san l))
  = Moved (Repertoire.l_next l) (Repertoire.l_san l).
Proof.
  intros Hin Hat. unfold Repertoire.move.
  destruct (find _ Repertoire.lines) as [l'|] eqn:Hfind.
  - apply find_some in Hfind as [Hin' Hp].
    apply andb_true_iff in Hp as [Hat' Hsan].
    apply String.eqb_eq in Hsan. cbn. rewrite <- Hsan. f_equal.
    pose proof repertoire_san_determines_position as Hdet.
    rewrite forallb_forall in Hdet. specialize (Hdet l' Hin').
    rewrite forallb_forall in Hdet. specialize (Hdet l Hin).
    unfold Repertoire.playedAt in Hat, Hat'.
    apply String.eqb_eq in Hat, Hat'.
    rewrite <- Hat, <- Hat', <- Hsan, !String.eqb_refl in Hdet.
    now apply String.eqb_eq in Hdet.
  - exfalso. apply (find_none _ _ Hfind) in Hin.
    now rewrite Hat, String.eqb_refl in Hin.
Qed.

Lemma repertoire_lawful (strict : bool) : Lawful (Repertoire.engine strict).
Proof.
  split; cbn.
  - reflexivity.
  - intros g1 g2 san g1' s -> H. now exists g1'.
  - intros g m g' s H. unfold Repertoire.moveFromTo in H.
    apply repertoire_played in H as [l [Hfind [<- <-]]].
    apply find_some in Hfind as [Hin Hp].
    exists (Repertoire.l_next l). split; [|reflexivity].
    apply repertoire_move_san; [exact Hin|].
    now repeat (apply andb_true_iff in Hp as [Hp _]).
  - intros g [t|] g' s H; [|destruct strict; discriminate H].
    unfold Repertoire.move in H.
    apply repertoire_played in H as [l [Hfind [<- <-]]].
    apply find_some in Hfind as [Hin Hp].
    exists (Repertoire.l_next l). split; [|reflexivity].
    apply repertoire_move_san; [exact Hin|].
    now apply andb_true_iff in Hp as [Hp _].
Qed.

(** C3 (the code departs from it). The human plays 1. e4 and, before
    the analysis of that move has come back (so before the AI turn is
    even scheduled, [isAiPlaying] being false), plays 1... e5 on the
    board too. The AI turn scheduled by the first move then resolves
    with [c5]: it is played on the position captured after 1. e4, but
    recorded after the live history. The position is the one after
    1. e4 c5 while the history reads e4, e5, c5, which does not replay
    from the initial position (and would not lead there). *)
Theorem C3_interleaved_submission_breaks_replay :
  let E := Repertoire.engine true in
  let p :=
    Page.run pageTwoHumanMoves
      [Page.Settles 0 (GeminiChessService.ApiResponds (Some "A classical opening.")) 0;
       Page.TimerFires 1;
       Page.Settles 1 (GeminiChessService.ApiResponds (Some "c5")) 0] in
  let s := App.state (Page.session p) in
  App.history (App.state (Page.session pageTwoHumanMoves)) = [Some "e4"; Some "e5"]
  /\ App.game (App.state (Page.session pageTwoHumanMoves)) = Repertoire.fenE4E5
  /\ App.game s = Repertoire.fenE4C5
  /\ App.history s = [Some "e4"; Some "e5"; Some "c5"]
  /\ replay E (Chess.new E) (App.history s) = None
  /\ replay E (Chess.new E) [Some "e4"; Some "e5"] = Some Repertoire.fenE4E5
  /\ replay E (Chess.new E) [Some "e4"; Some "c5"] = Some (App.game s).
Proof. by_evaluation. Qed.

(** A new game started while the AI turn is in flight is overtaken by
    the move of the old game in the same way. *)
Lemma new_game_during_ai_turn :
  let E := Repertoire.engine true in
  let p :=
    Page.run pageAiThinking
      [Page.NewGame; Page.Settles 0 (GeminiChessService.ApiResponds (Some "e5")) 0] in
  let s := App.state (Page.session p) in
  App.game s = Repertoire.fenE4E5
  /\ App.history s = [Some "e5"]
  /\ replay E (Chess.new E) (App.history s) = None.
Proof. by_evaluation. Qed.

(** In a turn-by-turn game the record does replay to the position. *)
Lemma fools_mate_replays :
  let E := Repertoire.engine true in
  let ok t := GeminiChessService.ApiResponds (Some t) in
  let p :=
    Page.run (Page.initialPage E)
      [Page.Click "f2"; Page.Click "f3"; Page.Settles 0 (ok "A weakening move.") 0;
       Page.TimerFires 0; Page.Settles 0 (ok "e5") 0; Page.Settles 0 (ok "Black takes the centre.") 0;
       Page.Click "g2"; Page.Click "g4"; Page.Settles 0 (ok "The diagonal is open.") 0;
       Page.TimerFires 0; Page.Settles 0 (ok "Qh4#") 0; Page.Settles 0 (ok "Mate.") 0] in
  let s := App.state (Page.session p) in
  App.history s = [Some "f3"; Some "e5"; Some "g4"; Some "Qh4#"]
  /\ App.game s = Repertoire.fenFoolsMate
  /\ replay E (Chess.new E) (App.history s) = Some (App.game s)
  /\ length (App.suspended (Page.session p)) = 0.
Proof. by_evaluation. Qed.

(** ** Analysis responses *)

(** C2, as stated, fails: there is no staleness check. With 1. e4 and
    1... e5 both played before any analysis has come back, two analysis
    requests are outstanding; the response for the later position
    arrives first and is displayed, then the response for the earlier
    position arrives and replaces it, the position still being the
    later one. *)
Lemma C2_stale_analysis_is_displayed :
  let one := GeminiChessService.ApiResponds (Some "Analysis of the position after 1. e4") in
  let two := GeminiChessService.ApiResponds (Some "Analysis of the position after 1. e4 e5") in
  let p2 := Page.step pageTwoHumanMoves (Page.Settles 1 two 0) in
  let p3 := Page.step p2 (Page.Settles 0 one 0) in
  map App.requestOf (App.suspended (Page.session pageTwoHumanMoves))
  = [Some (GeminiChessService.analysisRequest Repertoire.fenE4 [Some "e4"] 1500);
     Some (GeminiChessService.analysisRequest Repertoire.fenE4E5
             [Some "e4"; Some "e5"] 1500)]
  /\ App.game (App.state (Page.session p2)) = Repertoire.fenE4E5
  /\ App.aiAnalysis (App.state (Page.session p2))
     = "Analysis of the position after 1. e4 e5"
  /\ App.game (App.state (Page.session p3)) = Repertoire.fenE4E5
  /\ App.history (App.state (Page.session p3)) = [Some "e4"; Some "e5"]
  /\ App.aiAnalysis (App.state (Page.session p3))
     = "Analysis of the position after 1. e4".
Proof. by_evaluation. Qed.

(** C2, amended. An analysis response is never discarded: when the
    request of a suspended [onMove] or [makeAiMove] settles, the text
    [getMoveAnalysis] returns for it (the response text or a fallback
    string) becomes the displayed analysis, whatever the position has
    become in the meantime; position and history are left as they are. *)
Theorem C2_analysis_response_always_displayed (E : Chess.Engine) (p : Page.Page E)
  (k draw : nat) (o : GeminiChessService.ApiOutcome)
  (g : Chess.Game E) (hist : list SanValue) (elo0 : Z) (mk : App.AiClosure) :
  nth_error (App.suspended (Page.session p)) k
    = Some (App.OnMoveAwaitsAnalysis g hist elo0 mk)
  \/ (nth_error (App.suspended (Page.session p)) k = Some (App.AiAwaitsAnalysis g hist mk)
      /\ elo0 = App.cl_elo mk) ->
  let s := App.state (Page.session p) in
  let s' := App.state (Page.session (Page.step p (Page.Settles k o draw))) in
  exists analysis,
    GeminiChessService.getMoveAnalysis (Chess.fen E g) hist elo0 o = Returns analysis
    /\ App.aiAnalysis s' = analysis
    /\ App.game s' = App.game s
    /\ App.history s' = App.history s.
Proof.
  intros H. cbv zeta.
  destruct (getMoveAnalysis_returns (Chess.fen E g) hist elo0 o) as [analysis [Ha _]].
  exists analysis. split; [exact Ha|].
  unfold Page.step. destruct H as [H | [H ->]]; rewrite H.
  - unfold App.onMoveResume. rewrite Ha.
    destruct (Chess.isGameOver E g); repeat split.
  - unfold App.makeAiMoveAnalysed. rewrite Ha. repeat split.
Qed.

Lemma C2_analysis_response_always_displayed_witness :
  nth_error (App.suspended (Page.session pageTwoHumanMoves)) 0
  = Some (App.OnMoveAwaitsAnalysis (E := Repertoire.engine true) Repertoire.fenE4
            [Some "e4"] 1500 {| App.cl_elo := 1500; App.cl_history := [] |})
  /\ exists analysis,
       GeminiChessService.getMoveAnalysis Repertoire.fenE4 [Some "e4"] 1500
         GeminiChessService.ApiRejects = Returns analysis
       /\ App.aiAnalysis (App.state (Page.session
            (Page.step pageTwoHumanMoves (Page.Settles 0 GeminiChessService.ApiRejects 0))))
          = analysis
       /\ App.game (App.state (Page.session
            (Page.step pageTwoHumanMoves (Page.Settles 0 GeminiChessService.ApiRejects 0))))
          = Repertoire.fenE4E5
       /\ App.history (App.state (Page.session
            (Page.step pageTwoHumanMoves (Page.Settles 0 GeminiChessService.ApiRejects 0))))
          = [Some "e4"; Some "e5"].
Proof.
  split; [exact eq_refl|].
  exact (C2_analysis_response_always_displayed (Repertoire.engine true)
           pageTwoHumanMoves 0 0 GeminiChessService.ApiRejects Repertoire.fenE4
           [Some "e4"] 1500 {| App.cl_elo := 1500; App.cl_history := [] |}
           (or_introl eq_refl)).
Defined.

Section Scheduling.

Variable E : Chess.Engine.

Implicit Types (x : App.Session E) (p : Page.Page E).

Lemma existsb_removeNth {A} (f : A -> bool) (k : nat) (l : list A) :
  existsb f l = false -> existsb f (Page.removeNth k l) = false.
Proof.
  revert k; induction l as [|a l IH]; intros [|k]; cbn; try easy.
  - rewrite orb_false_iff. tauto.
  - rewrite !orb_false_iff. intros [Ha Hl]. split; [exact Ha | now apply IH].
Qed.

Lemma existsb_nth_error {A} (f : A -> bool) (k : nat) (l : list A) (a : A) :
  existsb f l = false -> nth_error l k = Some a -> f a = false.
Proof.
  revert k; induction l as [|b l IH]; intros [|k]; cbn; try easy.
  - rewrite orb_false_iff. intros [Hb _] H. now injection H as <-.
  - rewrite orb_false_iff. intros [_ Hl]. now apply IH.
Qed.

Lemma aiTurnPending_suspend x (t : App.Suspended E) :
  aiTurnPending (App.suspend t x) = aiTurnPending x || isAiTurn t.
Proof.
  unfold aiTurnPending, App.suspend. cbn [App.suspended].
  rewrite existsb_app. cbn. now rewrite orb_false_r.
Qed.

Lemma aiTurnPending_onMove x (r : MoveRequest) :
  aiTurnPending (App.onMove x r) = aiTurnPending x.
Proof.
  unfold App.onMove. destruct (App.isAiPlaying _); [reflexivity|].
  destruct (Chess.moveFromTo E _ _); try reflexivity.
  rewrite aiTurnPending_suspend. cbn. now rewrite orb_false_r.
Qed.

Lemma aiTurnPending_handleSendMessage x :
  aiTurnPending (App.handleSendMessage x) = aiTurnPending x.
Proof.
  unfold App.handleSendMessage. destruct (negb _); [reflexivity|].
  rewrite aiTurnPending_suspend. cbn. now rewrite orb_false_r.
Qed.

(** An AI turn comes to be pending only by a suspended [onMove]
    resuming from its analysis call. *)
Lemma ai_turn_begins_at_analysis_arrival p (e : Page.Event) :
  aiTurnPending (Page.session p) = false ->
  aiTurnPending (Page.session (Page.step p e)) = true ->
  exists k o draw g hist elo0 mk,
    e = Page.Settles k o draw
    /\ nth_error (App.suspended (Page.session p)) k
       = Some (App.OnMoveAwaitsAnalysis g hist elo0 mk).
Proof.
  intros Hno Hyes.
  assert (forall y : App.Session E,
            aiTurnPending y = aiTurnPending (Page.session p) ->
                    aiTurnPending y = true -> False) as Hsame
    by (intros y Hy Ht; congruence).
  destruct e as [sq|sq|sq| |text| |value| |k o draw|k].
  - exfalso. apply (Hsame _ (eq_refl _)). rewrite step_click in Hyes.
    destruct (submitted p (Page.Click sq)); cbn [Page.callOnMove] in Hyes;
      [now rewrite aiTurnPending_onMove in Hyes | exact Hyes].
  - exfalso. apply (Hsame _ (eq_refl _)). unfold Page.step in Hyes.
    now destruct (ChessBoard.handleDragStart E _ _ _).
  - exfalso. apply (Hsame _ (eq_refl _)). rewrite step_drop in Hyes.
    destruct (submitted p (Page.Drop sq)); cbn [Page.callOnMove] in Hyes;
      [now rewrite aiTurnPending_onMove in Hyes | exact Hyes].
  - exfalso. exact (Hsame _ (eq_refl _) Hyes).
  - exfalso. exact (Hsame _ (eq_refl _) Hyes).
  - exfalso. apply (Hsame _ (eq_refl _)). unfold Page.step in Hyes.
    destruct (_ || _); [exact Hyes|].
    cbn [Page.session Page.withSession] in Hyes.
    now rewrite aiTurnPending_handleSendMessage in Hyes.
  - exfalso. apply (Hsame _ (eq_refl _)). unfold Page.step in Hyes.
    now destruct (App.isAiPlaying _).
  - exfalso. exact (Hsame _ (eq_refl _) Hyes).
  - unfold Page.step in Hyes.
    destruct (nth_error (App.suspended (Page.session p)) k) as [t|] eqn:Hk;
      [|exfalso; exact (Hsame _ (eq_refl _) Hyes)].
    pose proof (existsb_nth_error _ _ _ _ Hno Hk) as Ht.
    destruct t as [g hist elo0 mk|g mk|g mk|g hist mk|userMsg fen0 elo0];
      try discriminate Ht.
    + now exists k, o, draw, g, hist, elo0, mk.
    + exfalso. cbn [Page.session Page.withSession] in Hyes.
      unfold App.handleSendMessageResume in Hyes.
      assert (aiTurnPending (Page.dequeue k (Page.session p)) = false) as Hd
        by (now apply existsb_removeNth).
      destruct (GeminiChessService.getChatResponse _ _ _ _);
        [change (aiTurnPending (Page.dequeue k (Page.session p)) = true) in Hyes|];
        congruence.
  - exfalso. unfold Page.step in Hyes.
    destruct (nth_error (App.suspended (Page.session p)) k) as [t|] eqn:Hk;
      [|exact (Hsame _ (eq_refl _) Hyes)].
    pose proof (existsb_nth_error _ _ _ _ Hno Hk) as Ht.
    destruct t; try discriminate Ht; exact (Hsame _ (eq_refl _) Hyes).
Qed.

End Scheduling.

(** C6, as stated, fails: after 1. e4 has been applied the only thing
    outstanding is the analysis request; no AI turn is scheduled (no
    timer, no move request, [isAiPlaying] is false) and nothing but the
    arrival of the analysis response schedules it. *)
Lemma C6_ai_turn_waits_for_analysis :
  let E := Repertoire.engine true in
  let p1 := Page.run (Page.initialPage E) [Page.Click "e2"; Page.Click "e4"] in
  let arrived := Page.Settles 0 (GeminiChessService.ApiResponds (Some "A classical opening.")) 0 in
  App.history (App.state (Page.session p1)) = [Some "e4"]
  /\ App.isAiPlaying (App.state (Page.session p1)) = false
  /\ map App.requestOf (App.suspended (Page.session p1))
     = [Some (GeminiChessService.analysisRequest Repertoire.fenE4 [Some "e4"] 1500)]
  /\ map App.requestOf
       (App.suspended (Page.session (Page.run p1 [Page.TimerFires 0; Page.TimerFires 1])))
     = [Some (GeminiChessService.analysisRequest Repertoire.fenE4 [Some "e4"] 1500)]
  /\ map App.requestOf (App.suspended (Page.session (Page.step p1 arrived)))
     = [None]
  /\ map App.requestOf
       (App.suspended (Page.session (Page.run p1 [arrived; Page.TimerFires 0])))
     = [Some (GeminiChessService.bestMoveRequest Repertoire.fenE4 1500)].
Proof. by_evaluation. Qed.

(** C6, amended. A successful human move is applied at once (position
    and history) and [onMove] suspends on the analysis request for the
    new position without scheduling an AI turn. The AI turn is
    scheduled when [onMove] resumes, whatever the outcome of the
    analysis call (a text, an empty response or a failure) and whatever
    the session has become; and on no event other than the arrival of
    the response a suspended [onMove] waits for does an AI turn come to
    be pending. So a failed analysis does not prevent the AI turn, a
    pending one holds it back. *)
Theorem C6_ai_turn_scheduled_on_analysis_arrival (E : Chess.Engine)
  (x x1 : App.Session E) (r : MoveRequest) (g : Chess.Game E) (san : string)
  (o : GeminiChessService.ApiOutcome) (p : Page.Page E) (e : Page.Event) :
  App.isAiPlaying (App.state x) = false ->
  Chess.moveFromTo E (Chess.load E (Chess.fen E (App.game (App.state x))))
    (App.moveObject r) = Moved g san ->
  Chess.isGameOver E g = false ->
  let mk := {| App.cl_elo := App.elo (App.state x);
               App.cl_history := App.history (App.state x) |} in
  let hist := App.history (App.state x) ++ [Some san] in
  let x' := App.onMove x r in
  App.game (App.state x') = g
  /\ App.history (App.state x') = hist
  /\ App.isAiPlaying (App.state x') = false
  /\ App.suspended x'
     = App.suspended x ++ [App.OnMoveAwaitsAnalysis g hist (App.elo (App.state x)) mk]
  /\ aiTurnPending x' = aiTurnPending x
  /\ App.suspended (App.onMoveResume x1 g hist (App.elo (App.state x)) mk o)
     = App.suspended x1 ++ [App.AiTimer g mk]
  /\ (aiTurnPending (Page.session p) = false ->
      aiTurnPending (Page.session (Page.step p e)) = true ->
      exists k o' draw g' hist' elo' mk',
        e = Page.Settles k o' draw
        /\ nth_error (App.suspended (Page.session p)) k
           = Some (App.OnMoveAwaitsAnalysis g' hist' elo' mk')).
Proof.
  intros Hai Hmove Hover. cbv zeta.
  split; [|split; [|split; [|split; [|split; [|split]]]]].
  1-4: unfold App.onMove; rewrite Hai, Hmove; cbn; rewrite ?Hai; reflexivity.
  - apply aiTurnPending_onMove.
  - unfold App.onMoveResume.
    destruct (getMoveAnalysis_returns (Chess.fen E g)
                (App.history (App.state x) ++ [Some san]) (App.elo (App.state x)) o)
      as [analysis [-> _]].
    now rewrite Hover.
  - apply ai_turn_begins_at_analysis_arrival.
Qed.

Lemma C6_ai_turn_scheduled_on_analysis_arrival_witness :
  let E := Repertoire.engine true in
  let x := App.initialSession E in
  let r := {| req_from := "e2"; req_to := "e4"; req_promotion := Some "q" |} in
  App.isAiPlaying (App.state x) = false
  /\ Chess.moveFromTo E (Chess.load E (Chess.fen E (App.game (App.state x))))
       (App.moveObject r) = Moved Repertoire.fenE4 "e4"
  /\ Chess.isGameOver E Repertoire.fenE4 = false
  /\ App.history (App.state (App.onMove x r)) = [Some "e4"].
Proof.
  cbv zeta.
  split; [exact eq_refl | split; [exact eq_refl | split; [exact eq_refl|]]].
  exact (proj1 (proj2
    (C6_ai_turn_scheduled_on_analysis_arrival (Repertoire.engine true)
       (App.initialSession _) (App.initialSession _)
       {| req_from := "e2"; req_to := "e4"; req_promotion := Some "q" |}
       Repertoire.fenE4 "e4" GeminiChessService.ApiRejects
       (Page.initialPage _) Page.NewGame
       eq_refl eq_refl eq_refl))).
Defined.

(** ** Game over *)

Section GameOver.

Variable E : Chess.Engine.

Implicit Types (x : App.Session E) (p : Page.Page E).

Lemma makeAiMove_game_over x (currentGame : Chess.Game E) (mk : App.AiClosure) :
  Chess.isGameOver E currentGame = true -> App.makeAiMove x currentGame mk = x.
Proof. intros H. unfold App.makeAiMove. now rewrite H. Qed.

(** [onMove] changes nothing when the engine does not play the move. *)
Lemma onMove_rejected x (r : MoveRequest) :
  (forall g san,
     Chess.moveFromTo E (Chess.load E (Chess.fen E (App.game (App.state x))))
       (App.moveObject r) <> Moved g san) ->
  App.onMove x r = x.
Proof.
  intros H. unfold App.onMove.
  destruct (App.isAiPlaying (App.state x)); [reflexivity|].
  destruct (Chess.moveFromTo E _ _) as [g san| |] eqn:Hm;
    [exfalso; exact (H g san eq_refl) | reflexivity | reflexivity].
Qed.

Lemma handleSendMessage_appends x :
  Js.truthy (Js.trim (App.inputMessage (App.state x))) = true ->
  let y := App.handleSendMessage x in
  let userMsg := App.inputMessage (App.state x) in
  App.chatMessages (App.state y)
  = App.chatMessages (App.state x) ++ [{| role := User; content := userMsg |}]
  /\ App.game (App.state y) = App.game (App.state x)
  /\ App.history (App.state y) = App.history (App.state x)
  /\ App.suspended y
     = App.suspended x
       ++ [App.ChatAwaitsResponse userMsg (Chess.fen E (App.game (App.state x)))
             (App.elo (App.state x))].
Proof.
  intros H. cbv zeta. unfold App.handleSendMessage. rewrite H. repeat split.
Qed.

Lemma handleSendMessageResume_appends x (userMsg fen0 : string) (elo0 : Z)
  (o : GeminiChessService.ApiOutcome) :
  exists aiResponse,
    GeminiChessService.getChatResponse userMsg fen0 elo0 o = Returns aiResponse
    /\ Js.truthy aiResponse = true
    /\ App.chatMessages (App.state (App.handleSendMessageResume x userMsg fen0 elo0 o))
       = App.chatMessages (App.state x) ++ [{| role := Assistant; content := aiResponse |}]
    /\ App.game (App.state (App.handleSendMessageResume x userMsg fen0 elo0 o))
       = App.game (App.state x)
    /\ App.history (App.state (App.handleSendMessageResume x userMsg fen0 elo0 o))
       = App.history (App.state x).
Proof.
  destruct (getChatResponse_returns userMsg fen0 elo0 o) as [aiResponse [Hr Ht]].
  exists aiResponse. unfold App.handleSendMessageResume. rewrite Hr. repeat split.
  exact Ht.
Qed.

End GameOver.

(** [onMove] has no game-over check of its own. With only the two
    kings left the game is over (a draw), yet the white king still has
    moves, and a submission of one of them is applied. *)
Lemma onMove_applies_move_in_drawn_position :
  let E := Repertoire.engine true in
  let x := sessionAt E Repertoire.fenBareKings [] in
  let x' := App.onMove x {| req_from := "e1"; req_to := "e2"; req_promotion := Some "q" |} in
  Chess.isGameOver E (App.game (App.state x)) = true
  /\ Chess.isCheckmate E (App.game (App.state x)) = false
  /\ App.isAiPlaying (App.state x) = false
  /\ App.game (App.state x) = "4k3/8/8/8/8/8/8/4K3 w - - 0 1"
  /\ App.history (App.state x) = []
  /\ App.game (App.state x') = "4k3/8/8/8/8/8/4K3/8 b - - 1 1"
  /\ App.history (App.state x') = [Some "Ke2"].
Proof. by_evaluation. Qed.

(** C5 (the code departs from it). An AI turn scheduled earlier is
    not stopped by the game having ended since. The human plays 1. f3
    and, while the analysis of that move is awaited, goes on playing
    both sides on the board (1... e5 2. g4 Qh4): the game is over,
    White is mated. The analysis of the first move then arrives, the
    timer of its AI turn fires ([makeAiMove] looks at the position it
    captured after 1. f3, which is not over) and the move that comes
    back, [e6], is applied: the position changes from the mate to the
    one after 1. f3 e6 and a record is appended to the history of the
    finished game. *)
Theorem C5_ai_move_lands_after_checkmate :
  let E := Repertoire.engine true in
  let ok t := GeminiChessService.ApiResponds (Some t) in
  let mated :=
    Page.run (Page.initialPage E)
      [Page.Click "f2"; Page.Click "f3"; Page.Click "e7"; Page.Click "e5";
       Page.Click "g2"; Page.Click "g4"; Page.Click "d8"; Page.Click "h4"] in
  let p := Page.run mated
      [Page.Settles 0 (ok "A weakening move.") 0; Page.TimerFires 3;
       Page.Settles 3 (ok "e6") 0] in
  App.game (App.state (Page.session mated)) = Repertoire.fenFoolsMate
  /\ App.history (App.state (Page.session mated))
     = [Some "f3"; Some "e5"; Some "g4"; Some "Qh4#"]
  /\ Chess.isGameOver E (App.game (App.state (Page.session mated))) = true
  /\ Chess.isCheckmate E (App.game (App.state (Page.session mated))) = true
  /\ App.game (App.state (Page.session p))
     = "rnbqkbnr/pppp1ppp/4p3/8/8/5P2/PPPPP1PP/RNBQKBNR w KQkq - 0 2"
  /\ App.history (App.state (Page.session p))
     = [Some "f3"; Some "e5"; Some "g4"; Some "Qh4#"; Some "e6"]
  /\ Chess.isGameOver E (App.game (App.state (Page.session p))) = false.
Proof. by_evaluation. Qed.

(** What does hold once the game is over: the board ignores clicks and
    drag starts (no [onMove] call, no change of session or board);
    [makeAiMove] called on the position returns at once; [onMove]
    changes nothing for a request the rules engine does not play (every
    request, at a checkmate or a stalemate); and a chat message is
    still accepted - the user's message is appended to the chat log
    and, when the chat call settles, the reply or the fallback text is
    appended too, position and history being untouched. *)
Lemma game_over_blocks_board_not_chat (E : Chess.Engine) (p : Page.Page E)
  (square : Square) (r : MoveRequest) (mk : App.AiClosure)
  (o : GeminiChessService.ApiOutcome) :
  let x := Page.session p in
  let s := App.state x in
  Chess.isGameOver E (App.game s) = true ->
  (forall g san,
     Chess.moveFromTo E (Chess.load E (Chess.fen E (App.game s))) (App.moveObject r)
     <> Moved g san) ->
  Js.truthy (Js.trim (App.inputMessage s)) = true ->
  let y := App.handleSendMessage x in
  let z := App.handleSendMessageResume y (App.inputMessage s)
             (Chess.fen E (App.game s)) (App.elo s) o in
  Page.step p (Page.Click square) = p
  /\ Page.session (Page.step p (Page.DragStart square)) = x
  /\ Page.board (Page.step p (Page.DragStart square)) = Page.board p
  /\ Page.drag (Page.step p (Page.DragStart square)) = None
  /\ App.makeAiMove x (App.game s) mk = x
  /\ App.onMove x r = x
  /\ Page.session (Page.step p Page.SubmitMessage)
     = (if App.isAiThinking s || App.isAiPlaying s then x else y)
  /\ App.chatMessages (App.state y)
     = App.chatMessages s ++ [{| role := User; content := App.inputMessage s |}]
  /\ App.game (App.state y) = App.game s
  /\ App.history (App.state y) = App.history s
  /\ App.suspended y
     = App.suspended x
       ++ [App.ChatAwaitsResponse (App.inputMessage s) (Chess.fen E (App.game s)) (App.elo s)]
  /\ exists aiResponse,
       GeminiChessService.getChatResponse (App.inputMessage s)
         (Chess.fen E (App.game s)) (App.elo s) o = Returns aiResponse
       /\ App.chatMessages (App.state z)
          = App.chatMessages s
            ++ [{| role := User; content := App.inputMessage s |};
                {| role := Assistant; content := aiResponse |}]
       /\ App.game (App.state z) = App.game s
       /\ App.history (App.state z) = App.history s.
Proof.
  cbv zeta. intros Hover Hreject Hinput.
  pose proof (boardProps_game_over E (Page.session p) (or_introl Hover)) as Hprops.
  split; [|split; [|split; [|split]]].
  - unfold Page.step. rewrite (handleSquareClick_disabled E _ _ _ Hprops).
    now destruct p.
  - unfold Page.step. now rewrite (handleDragStart_disabled E _ _ _ Hprops).
  - unfold Page.step. now rewrite (handleDragStart_disabled E _ _ _ Hprops).
  - unfold Page.step. now rewrite (handleDragStart_disabled E _ _ _ Hprops).
  - split; [now apply makeAiMove_game_over|].
    split; [now apply onMove_rejected|].
    split; [unfold Page.step;
            now destruct (App.isAiThinking _ || App.isAiPlaying _)|].
    destruct (handleSendMessage_appends E (Page.session p) Hinput)
      as [Hchat [Hgame [Hhist Hsusp]]].
    split; [exact Hchat|]. split; [exact Hgame|]. split; [exact Hhist|].
    split; [exact Hsusp|].
    destruct (handleSendMessageResume_appends E (App.handleSendMessage (Page.session p))
                (App.inputMessage (App.state (Page.session p)))
                (Chess.fen E (App.game (App.state (Page.session p))))
                (App.elo (App.state (Page.session p))) o)
      as [aiResponse [Hr [_ [Hc [Hg Hh]]]]].
    exists aiResponse. split; [exact Hr|].
    rewrite Hc, Hg, Hh, Hchat, Hgame, Hhist, <- app_assoc. repeat split.
Qed.

Lemma pageMated_rejects (r : MoveRequest) (g san : string) :
  Chess.moveFromTo (Repertoire.engine true)
    (Chess.load (Repertoire.engine true)
       (Chess.fen (Repertoire.engine true) (App.game (App.state (Page.session pageMated)))))
    (App.moveObject r) <> Moved g san.
Proof.
  change (Repertoire.moveFromTo true Repertoire.fenFoolsMate (App.moveObject r)
          <> Moved g san).
  unfold Repertoire.moveFromTo. cbn. discriminate.
Qed.

Example game_over_blocks_board_not_chat_at_mate :
  Chess.isGameOver (Repertoire.engine true)
    (App.game (App.state (Page.session pageMated))) = true
  /\ Js.truthy (Js.trim (App.inputMessage (App.state (Page.session pageMated)))) = true
  /\ App.onMove (Page.session pageMated)
       {| req_from := "e2"; req_to := "e4"; req_promotion := Some "q" |}
     = Page.session pageMated
  /\ App.chatMessages (App.state (App.handleSendMessage (Page.session pageMated)))
     = [{| role := User; content := "What went wrong?" |}].
Proof.
  split; [exact eq_refl | split; [exact eq_refl|]].
  pose proof (game_over_blocks_board_not_chat (Repertoire.engine true) pageMated
                "e2" {| req_from := "e2"; req_to := "e4"; req_promotion := Some "q" |}
                {| App.cl_elo := 1500; App.cl_history := [] |}
                GeminiChessService.ApiRejects
                eq_refl (pageMated_rejects _) eq_refl) as H.
  split; [exact (proj1 (proj2 (proj2 (proj2 (proj2 (proj2 H))))))|].
  exact (eq_trans
           (proj1 (proj2 (proj2 (proj2 (proj2 (proj2 (proj2 (proj2 H))))))))
           eq_refl).
Qed.

(* ================================================================== *)
(** * Part III - further properties of the code                        *)
(* ================================================================== *)

(** ** Windows on the history *)

Lemma sliceLast_app {A} (n : nat) (older recent : list A) :
  n <= length recent ->
  Js.sliceLast n (older ++ recent) = Js.sliceLast n recent.
Proof.
  intros H. unfold Js.sliceLast.
  rewrite length_app, skipn_app.
  rewrite skipn_all2 by lia. cbn [app]. f_equal. lia.
Qed.

Lemma sliceLast_suffix {A} (n : nat) (xs : list A) :
  xs = firstn (length xs - n) xs ++ Js.sliceLast n xs
  /\ length (Js.sliceLast n xs) = Nat.min n (length xs).
Proof.
  unfold Js.sliceLast. split.
  - symmetry. apply firstn_skipn.
  - rewrite length_skipn. lia.
Qed.

(** X1. The analysis request reads the last five moves of the history
    only: moves older than those do not change the request. *)
Theorem X1_analysis_request_window (fen : string) (older recent : list SanValue)
  (elo : Z) :
  5 <= length recent ->
  GeminiChessService.analysisRequest fen (older ++ recent) elo
  = GeminiChessService.analysisRequest fen recent elo.
Proof.
  intros H. unfold GeminiChessService.analysisRequest.
  pose proof (sliceLast_app 5 older recent H) as Hs.
  unfold SanValue in *. now rewrite Hs.
Qed.

Lemma X1_analysis_request_window_witness :
  5 <= length [Some "e4"; Some "e5"; Some "Nf3"; Some "Nc6"; Some "Bb5"]
  /\ GeminiChessService.analysisRequest Repertoire.startFen
       ([Some "d4"; Some "d5"]
        ++ [Some "e4"; Some "e5"; Some "Nf3"; Some "Nc6"; Some "Bb5"]) 1500
     = GeminiChessService.analysisRequest Repertoire.startFen
         [Some "e4"; Some "e5"; Some "Nf3"; Some "Nc6"; Some "Bb5"] 1500.
Proof.
  split; [cbn; lia|].
  apply (X1_analysis_request_window Repertoire.startFen [Some "d4"; Some "d5"]).
  cbn; lia.
Defined.

(** X19. The "Move History" strip: nothing for an empty history;
    otherwise the last eight moves at most, in order, the ellipsis
    being shown exactly when older moves are left out. *)
Theorem X19_history_preview (history : list SanValue) :
  match App.historyPreview history with
  | None => history = []
  | Some (shown, more) =>
      history <> []
      /\ length shown = Nat.min 8 (length history)
      /\ exists older, history = older ++ shown
                       /\ (more = true <-> older <> [])
  end.
Proof.
  unfold App.historyPreview.
  destruct (Nat.ltb_spec 0 (length history)) as [Hpos|Hzero].
  - destruct (sliceLast_suffix 8 history) as [Hsplit Hlen].
    split; [now destruct history|]. split; [exact Hlen|].
    exists (firstn (length history - 8) history). split; [exact Hsplit|].
    destruct (Nat.ltb_spec 8 (length history)) as [Hmore|Hfew]; split; try easy.
    + intros _ Hnil. apply (f_equal (@length _)) in Hnil.
      rewrite length_firstn in Hnil. cbn in Hnil. lia.
    + intros Hne. exfalso. apply Hne.
      replace (length history - 8) with 0 by lia. reflexivity.
  - destruct history; [reflexivity | cbn in Hzero; lia].
Qed.

(** ** The move token *)

Lemma ascii_eqb_sym (a b : ascii) : Ascii.eqb a b = Ascii.eqb b a.
Proof.
  destruct (Ascii.eqb_spec a b) as [->|Hne].
  - now rewrite Ascii.eqb_refl.
  - symmetry. apply Ascii.eqb_neq. congruence.
Qed.

Lemma removeDots_no_dot (s : string) : Js.includes (Js.removeDots s) "." = false.
Proof.
  induction s as [|c r IH]; [reflexivity|]. cbn [Js.removeDots].
  destruct (Ascii.eqb c ".") eqn:Hc; [exact IH|].
  cbn [Js.includes Js.startsWith]. rewrite IH, ascii_eqb_sym, Hc. reflexivity.
Qed.

Lemma removeDots_without_dot (s : string) :
  Js.includes s "." = false -> Js.removeDots s = s.
Proof.
  induction s as [|c r IH]; [reflexivity|].
  cbn [Js.includes Js.startsWith Js.removeDots].
  rewrite ascii_eqb_sym, andb_true_r, orb_false_iff. intros [-> Hr].
  now rewrite IH.
Qed.

(** A dot before the token leaves the white space behind it in place. *)
Example getBestMove_keeps_inner_space :
  GeminiChessService.getBestMove Repertoire.startFen 1500
    (GeminiChessService.ApiResponds (Some "1. e4")) = Returns (Some "1 e4")
  /\ GeminiChessService.getBestMove Repertoire.startFen 1500
       (GeminiChessService.ApiResponds (Some "... e5 ")) = Returns (Some " e5").
Proof. split; reflexivity. Qed.

Lemma isWhiteSpace_spec (c : Js.Char) :
  Js.isWhiteSpace c = true
  <-> exists cp, Js.codePoint c = Some cp
                 /\ In cp [9; 10; 11; 12; 13; 32; 160; 5760;
                           8192; 8193; 8194; 8195; 8196; 8197; 8198; 8199;
                           8200; 8201; 8202; 8232; 8233; 8239; 8287; 12288;
                           65279]%N.
Proof.
  unfold Js.isWhiteSpace. destruct (Js.codePoint c) as [cp|].
  - rewrite existsb_exists. split.
    + intros [w [Hin Hw]]. apply N.eqb_eq in Hw as ->. now exists w.
    + intros [w [[= ->] Hin]]. exists w. split; [exact Hin | apply N.eqb_refl].
  - split; [discriminate|]. now intros [w [H _]].
Qed.

(** X2. A token returned by [getBestMove] is never empty and never
    holds a dot. It is made from the response text by taking away the
    white space characters at both ends - the text between them begins
    and ends with a character that is not white space - and then every
    dot; so a text without a dot is handed on trimmed. White space is
    what ECMAScript's [trim] removes: the listed code points. *)
Theorem X2_move_token_shape (fen : string) (elo : Z)
  (o : GeminiChessService.ApiOutcome) (m : string) :
  GeminiChessService.getBestMove fen elo o = Returns (Some m) ->
  m <> EmptyString
  /\ Js.includes m "." = false
  /\ (exists (t : string) (a core b : list Js.Char),
        o = GeminiChessService.ApiResponds (Some t)
        /\ Js.decode t = a ++ core ++ b
        /\ t = Js.text (a ++ core ++ b)
        /\ forallb Js.isWhiteSpace a = true
        /\ forallb Js.isWhiteSpace b = true
        /\ (forall c, hd_error core = Some c -> Js.isWhiteSpace c = false)
        /\ (forall c, hd_error (rev core) = Some c -> Js.isWhiteSpace c = false)
        /\ m = Js.removeDots (Js.text core)
        /\ (Js.includes (Js.text core) "." = false -> m = Js.text core))
  /\ (forall c : Js.Char,
        Js.isWhiteSpace c = true
        <-> exists cp, Js.codePoint c = Some cp
                       /\ In cp [9; 10; 11; 12; 13; 32; 160; 5760;
                                 8192; 8193; 8194; 8195; 8196; 8197; 8198; 8199;
                                 8200; 8201; 8202; 8232; 8233; 8239; 8287; 12288;
                                 65279]%N).
Proof.
  unfold GeminiChessService.getBestMove.
  destruct o as [|[t|]]; cbn; try discriminate.
  destruct (Js.truthy (Js.removeDots (Js.trim t))) eqn:Ht; [|discriminate].
  intros H. injection H as <-. split; [|split; [|split]].
  - intros Hempty. now rewrite Hempty in Ht.
  - apply removeDots_no_dot.
  - destruct (trim_spec t) as [a [core [b [Hd [Ha [Hb [Hh [Hl Htrim]]]]]]]].
    exists t, a, core, b. rewrite Htrim.
    repeat (split; [first [reflexivity | assumption]|]).
    split; [now rewrite <- Hd, text_decode|].
    repeat (split; [first [reflexivity | assumption]|]).
    apply removeDots_without_dot.
  - apply isWhiteSpace_spec.
Qed.

Lemma X2_move_token_shape_witness :
  GeminiChessService.getBestMove Repertoire.startFen 1500
    (GeminiChessService.ApiResponds (Some " Nf3. ")) = Returns (Some "Nf3")
  /\ Js.includes "Nf3" "." = false.
Proof.
  split; [exact eq_refl|].
  exact (proj1 (proj2
    (X2_move_token_shape Repertoire.startFen 1500
       (GeminiChessService.ApiResponds (Some " Nf3. ")) "Nf3" eq_refl))).
Defined.

(** ** The chat request *)

Lemma occursIn_here (w rest : string) : occursIn w (w ++ rest).
Proof. now exists EmptyString, rest. Qed.

Lemma occursIn_later (w a rest : string) : occursIn w rest -> occursIn w (a ++ rest).
Proof.
  intros [pre [post ->]]. exists (a ++ pre)%string, post.
  now rewrite string_app_assoc.
Qed.

(** X4. A chat request always carries the user's message as its
    contents. For a flagged message the request is the same whatever
    the position (the system prompt holds neither the FEN nor the
    message) and asks for a thinking budget of 1000; for any other
    message the system prompt quotes both the FEN and the message and
    the budget is 500. *)
Theorem X4_chat_request_contents (message fen : string) (elo : Z) :
  GeminiChessService.contents (GeminiChessService.chatRequest message fen elo) = message
  /\ if GeminiChessService.hasCurse message
     then (forall fen', GeminiChessService.chatRequest message fen' elo
                        = GeminiChessService.chatRequest message fen elo)
          /\ GeminiChessService.thinkingBudget
               (GeminiChessService.chatRequest message fen elo) = 1000%Z
     else (exists prompt,
             GeminiChessService.systemInstruction
               (GeminiChessService.chatRequest message fen elo) = Some prompt
             /\ occursIn fen prompt /\ occursIn message prompt)
          /\ GeminiChessService.thinkingBudget
               (GeminiChessService.chatRequest message fen elo) = 500%Z.
Proof.
  split; [reflexivity|].
  destruct (GeminiChessService.hasCurse message) eqn:H.
  - split.
    + intros fen'. unfold GeminiChessService.chatRequest. now rewrite H.
    + unfold GeminiChessService.chatRequest. now rewrite H.
  - split.
    + exists (GeminiChessService.coachPrompt message fen elo). split.
      * unfold GeminiChessService.chatRequest. now rewrite H.
      * unfold GeminiChessService.coachPrompt. cbn [String.concat].
        split; repeat first [apply occursIn_here | apply occursIn_later].
    + unfold GeminiChessService.chatRequest. now rewrite H.
Qed.

(** ** Rating bands *)

(** X5. The label shown beside the rating ([getEloLabel]) and the
    description of the rating sent to the model ([getEloDescription])
    are the same word exactly for ratings from 1600 up to 2999 (Expert,
    Master, Grandmaster); below and above, the page and the prompts
    name the strength differently. *)
Theorem X5_rating_label_and_description (elo : Z) :
  App.getEloLabel elo = GeminiChessService.getEloDescription elo
  <-> (1600 <= elo < 3000)%Z.
Proof.
  unfold App.getEloLabel, GeminiChessService.getEloDescription.
  repeat match goal with
         | |- context [(?a <? ?b)%Z] => destruct (Z.ltb_spec a b)
         end;
    split; intros H'; try lia; try discriminate H'; try reflexivity.
Qed.

(** ** Chat input *)

(** X6. [handleSendMessage] drops a chat message - the session stays
    as it is, nothing is sent - exactly when every character of the
    message is white space (the empty message included). White space
    is what ECMAScript's [trim] removes: the listed code points, among
    them the no-break space and the byte order mark. *)
Theorem X6_blank_message_is_dropped (E : Chess.Engine) (x : App.Session E) :
  (App.handleSendMessage x = x
   <-> Forall (fun c => exists cp,
                 Js.codePoint c = Some cp
                 /\ In cp [9; 10; 11; 12; 13; 32; 160; 5760;
                           8192; 8193; 8194; 8195; 8196; 8197; 8198; 8199;
                           8200; 8201; 8202; 8232; 8233; 8239; 8287; 12288;
                           65279]%N)
         (Js.decode (App.inputMessage (App.state x))))
  /\ Js.text (Js.decode (App.inputMessage (App.state x)))
     = App.inputMessage (App.state x).
Proof.
  split; [|apply text_decode].
  rewrite Forall_forall.
  assert (forallb Js.isWhiteSpace (Js.decode (App.inputMessage (App.state x))) = true
          <-> forall c, In c (Js.decode (App.inputMessage (App.state x))) ->
                exists cp, Js.codePoint c = Some cp
                  /\ In cp [9; 10; 11; 12; 13; 32; 160; 5760;
                            8192; 8193; 8194; 8195; 8196; 8197; 8198; 8199;
                            8200; 8201; 8202; 8232; 8233; 8239; 8287; 12288;
                            65279]%N) as <-.
  { rewrite forallb_forall. split; intros H c Hc; apply isWhiteSpace_spec, H, Hc. }
  rewrite <- trim_blank. unfold App.handleSendMessage.
  destruct (Js.truthy _); cbn [negb]; split; try easy.
  intros H. apply (f_equal (fun y => length (App.suspended y))) in H.
  cbn in H. rewrite length_app in H. cbn in H. lia.
Qed.

Example blank_message_examples :
  Js.truthy (Js.trim (Js.fromCodePoint 160 ++ " " ++ Js.fromCodePoint 65279)) = false
  /\ Js.truthy (Js.trim (Js.fromCodePoint 8203)) = true.
Proof. split; vm_compute; reflexivity. Qed.

(** ** What the handlers leave alone *)

Section Frames.

Variable E : Chess.Engine.

Implicit Types (x : App.Session E) (p : Page.Page E) (mk : App.AiClosure).

Lemma makeAiMove_frame x (g : Chess.Game E) mk :
  keepsRecords x (App.makeAiMove x g mk) /\ keepsChat x (App.makeAiMove x g mk).
Proof. unfold App.makeAiMove. now destruct (Chess.isGameOver E g). Qed.

Lemma makeAiMoveResume_chat x (g : Chess.Game E) mk
  (o : GeminiChessService.ApiOutcome) (draw : nat) :
  keepsChat x (App.makeAiMoveResume x g mk o draw).
Proof.
  unfold App.makeAiMoveResume, keepsChat.
  destruct (GeminiChessService.getBestMove _ _ _) as [[m|]|]; try reflexivity.
  destruct (Js.truthy m); [|reflexivity].
  destruct (Chess.move E _ (Some m)); try reflexivity.
  now destruct (Chess.move E _ (nth_error _ _)).
Qed.

Lemma makeAiMoveAnalysed_frame x (g : Chess.Game E) (hist : list SanValue) mk
  (o : GeminiChessService.ApiOutcome) :
  keepsRecords x (App.makeAiMoveAnalysed x g hist mk o)
  /\ keepsChat x (App.makeAiMoveAnalysed x g hist mk o).
Proof.
  unfold App.makeAiMoveAnalysed.
  now destruct (GeminiChessService.getMoveAnalysis _ _ _ _).
Qed.

Lemma onMoveResume_records x (g : Chess.Game E) (hist : list SanValue) (elo0 : Z) mk
  (o : GeminiChessService.ApiOutcome) :
  keepsRecords x (App.onMoveResume x g hist elo0 mk o).
Proof.
  unfold App.onMoveResume.
  destruct (GeminiChessService.getMoveAnalysis _ _ _ _); [|easy].
  now destruct (Chess.isGameOver E g).
Qed.

Lemma onMove_chat x (r : MoveRequest) : keepsChat x (App.onMove x r).
Proof.
  unfold App.onMove. destruct (App.isAiPlaying _); [easy|].
  now destruct (Chess.moveFromTo E _ _).
Qed.

Lemma handleSendMessage_records x : keepsRecords x (App.handleSendMessage x).
Proof. unfold App.handleSendMessage. now destruct (negb _). Qed.

Lemma handleSendMessageResume_records x (userMsg fen0 : string) (elo0 : Z)
  (o : GeminiChessService.ApiOutcome) :
  keepsRecords x (App.handleSendMessageResume x userMsg fen0 elo0 o).
Proof.
  unfold App.handleSendMessageResume.
  now destruct (GeminiChessService.getChatResponse _ _ _ _).
Qed.

(** One event appends at most one record to the history, and changes
    the position only when it does. *)
Lemma step_history p (e : Page.Event) :
  e <> Page.NewGame ->
  exists suffix,
    App.history (App.state (Page.session (Page.step p e)))
    = App.history (App.state (Page.session p)) ++ suffix
    /\ length suffix <= 1
    /\ (suffix = [] ->
        App.game (App.state (Page.session (Page.step p e)))
        = App.game (App.state (Page.session p))).
Proof.
  intros Hnew.
  assert (forall x', keepsRecords (Page.session p) x' ->
            exists suffix,
              App.history (App.state x')
              = App.history (App.state (Page.session p)) ++ suffix
              /\ length suffix <= 1
              /\ (suffix = [] ->
                  App.game (App.state x') = App.game (App.state (Page.session p))))
    as Hkeep.
  { intros x' [Hg Hh]. exists []. rewrite app_nil_r. cbn. auto. }
  assert (forall r,
            exists suffix,
              App.history (App.state (App.onMove (Page.session p) r))
              = App.history (App.state (Page.session p)) ++ suffix
              /\ length suffix <= 1
              /\ (suffix = [] ->
                  App.game (App.state (App.onMove (Page.session p) r))
                  = App.game (App.state (Page.session p)))) as Hmove.
  { intros r.
    destruct (onMove_position_and_history E (Page.session p) r)
      as [-> | [g [san [_ [_ Hh]]]]].
    - now apply Hkeep.
    - exists [Some san]. cbn. split; [exact Hh|]. split; [lia | discriminate]. }
  destruct e as [sq|sq|sq| |text| |value| |k o draw|k]; try congruence.
  - rewrite step_click. destruct (submitted p (Page.Click sq)); cbn [Page.callOnMove];
      [apply Hmove | now apply Hkeep].
  - apply Hkeep. unfold Page.step. now destruct (ChessBoard.handleDragStart E _ _ _).
  - rewrite step_drop. destruct (submitted p (Page.Drop sq)); cbn [Page.callOnMove];
      [apply Hmove | now apply Hkeep].
  - now apply Hkeep.
  - now apply Hkeep.
  - apply Hkeep. unfold Page.step. destruct (_ || _); [easy|].
    apply handleSendMessage_records.
  - apply Hkeep. unfold Page.step. now destruct (App.isAiPlaying _).
  - unfold Page.step.
    destruct (nth_error _ k) as [[g hist elo0 mk|g mk|g mk|g hist mk|userMsg fen0 elo0]|];
      cbn [Page.session Page.withSession]; try (now apply Hkeep).
    + apply Hkeep. apply (onMoveResume_records (Page.dequeue k (Page.session p))).
    + destruct (makeAiMoveResume_position_and_history E
                  (Page.dequeue k (Page.session p)) g mk o draw)
        as [[Hg Hh] | [token [san [Hh _]]]].
      * now apply Hkeep.
      * exists [san]. cbn. split; [exact Hh|]. split; [lia | discriminate].
    + apply Hkeep. apply (makeAiMoveAnalysed_frame (Page.dequeue k (Page.session p))).
    + apply Hkeep.
      apply (handleSendMessageResume_records (Page.dequeue k (Page.session p))).
  - unfold Page.step.
    destruct (nth_error _ k) as [[g hist elo0 mk|g mk|g mk|g hist mk|userMsg fen0 elo0]|];
      cbn [Page.session Page.withSession]; try (now apply Hkeep).
    apply Hkeep. apply (makeAiMove_frame (Page.dequeue k (Page.session p))).
Qed.

End Frames.

(** X9. Apart from "New Game", the history only grows, by at most one
    record per event, and the position changes only when a record is
    appended: over any run of such events the old history is a prefix
    of the new one, and if nothing was appended the position is the
    same. *)
Theorem X9_history_is_append_only (E : Chess.Engine) (p : Page.Page E)
  (es : list Page.Event) :
  ~ In Page.NewGame es ->
  exists suffix,
    App.history (App.state (Page.session (Page.run p es)))
    = App.history (App.state (Page.session p)) ++ suffix
    /\ length suffix <= length es
    /\ (suffix = [] ->
        App.game (App.state (Page.session (Page.run p es)))
        = App.game (App.state (Page.session p))).
Proof.
  revert p; induction es as [|e es IH]; intros p Hnew.
  - exists []. rewrite app_nil_r. cbn. auto.
  - destruct (step_history E p e) as [s1 [H1 [L1 G1]]];
      [intros ->; apply Hnew; now left|].
    destruct (IH (Page.step p e)) as [s2 [H2 [L2 G2]]];
      [intros Hin; apply Hnew; now right|].
    exists (s1 ++ s2). change (Page.run p (e :: es)) with (Page.run (Page.step p e) es).
    rewrite H2, H1, <- app_assoc, length_app. split; [reflexivity|].
    split; [cbn; lia|].
    intros Hnil. apply app_eq_nil in Hnil as [-> ->].
    rewrite (G2 eq_refl). now apply G1.
Qed.

Lemma X9_history_is_append_only_witness :
  ~ In Page.NewGame
      [Page.Settles 0 (GeminiChessService.ApiResponds (Some "e5")) 0;
       Page.Click "g1"]
  /\ exists suffix,
       App.history (App.state (Page.session
         (Page.run pageAiThinking
            [Page.Settles 0 (GeminiChessService.ApiResponds (Some "e5")) 0;
             Page.Click "g1"])))
       = App.history (App.state (Page.session pageAiThinking)) ++ suffix
       /\ length suffix <= 2.
Proof.
  assert (~ In Page.NewGame
            [Page.Settles 0 (GeminiChessService.ApiResponds (Some "e5")) 0;
             Page.Click "g1"]) as Hnew
    by (intros [H|[H|[]]]; discriminate H).
  split; [exact Hnew|].
  destruct (X9_history_is_append_only _ pageAiThinking _ Hnew) as [suffix [H [L _]]].
  exists suffix. split; [exact H | exact L].
Defined.

(** ** The chat log *)

Section ChatLog.

Variable E : Chess.Engine.

Implicit Types (x : App.Session E) (p : Page.Page E) (mk : App.AiClosure).

Lemma onMoveResume_chat x (g : Chess.Game E) (hist : list SanValue) (elo0 : Z) mk
  (o : GeminiChessService.ApiOutcome) :
  App.chatMessages (App.state (App.onMoveResume x g hist elo0 mk o))
  = App.chatMessages (App.state x)
    ++ (if Chess.isGameOver E g then [App.gameOverMessage g] else []).
Proof.
  unfold App.onMoveResume.
  destruct (getMoveAnalysis_returns (Chess.fen E g) hist elo0 o) as [t [-> _]].
  destruct (Chess.isGameOver E g); cbn; [reflexivity | now rewrite app_nil_r].
Qed.

Lemma step_chat p (e : Page.Event) :
  e <> Page.NewGame ->
  exists suffix,
    App.chatMessages (App.state (Page.session (Page.step p e)))
    = App.chatMessages (App.state (Page.session p)) ++ suffix
    /\ length suffix <= 1.
Proof.
  intros Hnew.
  assert (forall x', keepsChat (Page.session p) x' ->
            exists suffix,
              App.chatMessages (App.state x')
              = App.chatMessages (App.state (Page.session p)) ++ suffix
              /\ length suffix <= 1) as Hkeep.
  { intros x' Hc. exists []. rewrite app_nil_r. cbn. auto. }
  destruct e as [sq|sq|sq| |text| |value| |k o draw|k]; try congruence.
  - apply Hkeep. rewrite step_click.
    destruct (submitted p (Page.Click sq)); cbn [Page.callOnMove];
      [apply onMove_chat | easy].
  - apply Hkeep. unfold Page.step. now destruct (ChessBoard.handleDragStart E _ _ _).
  - apply Hkeep. rewrite step_drop.
    destruct (submitted p (Page.Drop sq)); cbn [Page.callOnMove];
      [apply onMove_chat | easy].
  - now apply Hkeep.
  - now apply Hkeep.
  - unfold Page.step. destruct (_ || _); [now apply Hkeep|].
    cbn [Page.session Page.withSession]. unfold App.handleSendMessage.
    destruct (negb _); [now apply Hkeep|].
    eexists [_]. cbn. split; [reflexivity | lia].
  - apply Hkeep. unfold Page.step. now destruct (App.isAiPlaying _).
  - unfold Page.step.
    destruct (nth_error _ k) as [[g hist elo0 mk|g mk|g mk|g hist mk|userMsg fen0 elo0]|];
      cbn [Page.session Page.withSession]; try (now apply Hkeep).
    + rewrite onMoveResume_chat. eexists. split; [reflexivity|].
      destruct (Chess.isGameOver E g); cbn; lia.
    + apply Hkeep. apply (makeAiMoveResume_chat E (Page.dequeue k (Page.session p))).
    + apply Hkeep. apply (makeAiMoveAnalysed_frame E (Page.dequeue k (Page.session p))).
    + unfold App.handleSendMessageResume.
      destruct (GeminiChessService.getChatResponse _ _ _ _);
        [|now apply Hkeep].
      eexists [_]. cbn. split; [reflexivity | lia].
  - unfold Page.step.
    destruct (nth_error _ k) as [[g hist elo0 mk|g mk|g mk|g hist mk|userMsg fen0 elo0]|];
      cbn [Page.session Page.withSession]; try (now apply Hkeep).
    apply Hkeep. apply (makeAiMove_frame E (Page.dequeue k (Page.session p))).
Qed.

End ChatLog.

(** X10. Apart from "New Game", the chat log only grows, by at most
    one message per event: over any run of such events the old log is a
    prefix of the new one. *)
Theorem X10_chat_log_is_append_only (E : Chess.Engine) (p : Page.Page E)
  (es : list Page.Event) :
  ~ In Page.NewGame es ->
  exists suffix,
    App.chatMessages (App.state (Page.session (Page.run p es)))
    = App.chatMessages (App.state (Page.session p)) ++ suffix
    /\ length suffix <= length es.
Proof.
  revert p; induction es as [|e es IH]; intros p Hnew.
  - exists []. rewrite app_nil_r. cbn. auto.
  - destruct (step_chat E p e) as [s1 [H1 L1]];
      [intros ->; apply Hnew; now left|].
    destruct (IH (Page.step p e)) as [s2 [H2 L2]];
      [intros Hin; apply Hnew; now right|].
    exists (s1 ++ s2). change (Page.run p (e :: es)) with (Page.run (Page.step p e) es).
    rewrite H2, H1, <- app_assoc, length_app. split; [reflexivity | cbn; lia].
Qed.

Lemma X10_chat_log_is_append_only_witness :
  ~ In Page.NewGame [Page.SubmitMessage; Page.Settles 0 GeminiChessService.ApiRejects 0]
  /\ exists suffix,
       App.chatMessages (App.state (Page.session
         (Page.run pageMated
            [Page.SubmitMessage; Page.Settles 0 GeminiChessService.ApiRejects 0])))
       = App.chatMessages (App.state (Page.session pageMated)) ++ suffix
       /\ length suffix <= 2.
Proof.
  assert (~ In Page.NewGame
            [Page.SubmitMessage; Page.Settles 0 GeminiChessService.ApiRejects 0])
    as Hnew by (intros [H|[H|[]]]; discriminate H).
  split; [exact Hnew|].
  exact (X10_chat_log_is_append_only _ pageMated _ Hnew).
Defined.

(** X7. No segment of an AI turn writes to the chat log: not the timer
    calling [makeAiMove], not the arrival of the move, not the arrival
    of its analysis. In particular a game that the AI's move ends is
    not announced there. *)
Theorem X7_ai_turn_never_writes_chat (E : Chess.Engine) (p : Page.Page E)
  (k draw : nat) (o : GeminiChessService.ApiOutcome) (t : App.Suspended E) :
  nth_error (App.suspended (Page.session p)) k = Some t ->
  isAiTurn t = true ->
  App.chatMessages (App.state (Page.session (Page.step p (Page.Settles k o draw))))
  = App.chatMessages (App.state (Page.session p))
  /\ App.chatMessages (App.state (Page.session (Page.step p (Page.TimerFires k))))
     = App.chatMessages (App.state (Page.session p)).
Proof.
  intros Hk Ht. unfold Page.step. rewrite Hk.
  destruct t as [g hist elo0 mk|g mk|g mk|g hist mk|userMsg fen0 elo0];
    try discriminate Ht; cbn [Page.session Page.withSession]; split;
    try reflexivity.
  - apply (makeAiMove_frame E (Page.dequeue k (Page.session p))).
  - apply (makeAiMoveResume_chat E (Page.dequeue k (Page.session p))).
  - apply (makeAiMoveAnalysed_frame E (Page.dequeue k (Page.session p))).
Qed.

(** The fool's mate played turn by turn: the AI has mated, the chat
    log is empty. *)
Example ai_mate_is_not_announced :
  Chess.isCheckmate (Repertoire.engine true)
    (App.game (App.state (Page.session pageMated))) = true
  /\ App.chatMessages (App.state (Page.session pageMated)) = [].
Proof. by_evaluation. Qed.

Lemma X7_ai_turn_never_writes_chat_witness :
  nth_error (App.suspended (Page.session pageAiThinking)) 0
  = Some (App.AiAwaitsBestMove (E := Repertoire.engine true) Repertoire.fenE4
            {| App.cl_elo := 1500; App.cl_history := [] |})
  /\ App.chatMessages (App.state (Page.session
       (Page.step pageAiThinking
          (Page.Settles 0 (GeminiChessService.ApiResponds (Some "e5")) 0))))
     = App.chatMessages (App.state (Page.session pageAiThinking)).
Proof.
  split; [exact eq_refl|].
  exact (proj1 (X7_ai_turn_never_writes_chat _ pageAiThinking 0 0
                  (GeminiChessService.ApiResponds (Some "e5")) _ eq_refl eq_refl)).
Defined.

(** X8. When [onMove] resumes from its analysis call, the chat log
    gains exactly one message if the human's move ended the game - an
    assistant message naming as winner the side that is not to move, or
    a draw - and nothing otherwise; a timer for the AI turn is set
    exactly in the other case. *)
Theorem X8_game_over_announcement (E : Chess.Engine) (x : App.Session E)
  (g : Chess.Game E) (hist : list SanValue) (elo0 : Z) (mk : App.AiClosure)
  (o : GeminiChessService.ApiOutcome) :
  let x' := App.onMoveResume x g hist elo0 mk o in
  if Chess.isGameOver E g
  then App.chatMessages (App.state x')
       = App.chatMessages (App.state x)
         ++ [{| role := Assistant;
                content :=
                  if Chess.isCheckmate E g
                  then match Chess.turn E g with
                       | White => "Game Over. Checkmate! Black wins."
                       | Black => "Game Over. Checkmate! White wins."
                       end
                  else "Game Over. Draw!" |}]
       /\ App.suspended x' = App.suspended x
  else App.chatMessages (App.state x') = App.chatMessages (App.state x)
       /\ App.suspended x' = App.suspended x ++ [App.AiTimer g mk].
Proof.
  cbv zeta. rewrite onMoveResume_chat. unfold App.onMoveResume.
  destruct (getMoveAnalysis_returns (Chess.fen E g) hist elo0 o) as [t [-> _]].
  destruct (Chess.isGameOver E g).
  - split; [|reflexivity]. unfold App.gameOverMessage.
    destruct (Chess.isCheckmate E g); [|reflexivity].
    now destruct (Chess.turn E g).
  - split; [apply app_nil_r | reflexivity].
Qed.

(** ** Invariants of every run *)

Section Invariants.

Variable E : Chess.Engine.

Implicit Types (x : App.Session E) (p : Page.Page E) (mk : App.AiClosure)
  (t : App.Suspended E).

Lemma existsb_removeNth_other {A} (f : A -> bool) (k : nat) (l : list A) (a : A) :
  nth_error l k = Some a -> f a = false ->
  existsb f (Page.removeNth k l) = existsb f l.
Proof.
  revert k; induction l as [|b l IH]; intros [|k]; cbn; try easy.
  - intros H Ha. injection H as ->. now rewrite Ha.
  - intros H Ha. now rewrite (IH k H Ha).
Qed.

Lemma forallb_removeNth {A} (f : A -> bool) (k : nat) (l : list A) :
  forallb f l = true -> forallb f (Page.removeNth k l) = true.
Proof.
  revert k; induction l as [|b l IH]; intros [|k]; cbn; try easy.
  - rewrite andb_true_iff. tauto.
  - rewrite !andb_true_iff. intros [Hb Hl]. split; [exact Hb | now apply IH].
Qed.

(** Adding a suspended call, with the flags it sets. *)
Lemma latchesBacked_suspend x t (f : App.State E -> App.State E) :
  latchesBacked x ->
  (App.isAiPlaying (f (App.state x)) = true ->
   App.isAiPlaying (App.state x) = true \/ isAiCall t = true) ->
  (App.isAiThinking (f (App.state x)) = true ->
   App.isAiThinking (App.state x) = true \/ isUserCall t = true) ->
  latchesBacked (App.suspend t (App.update f x)).
Proof.
  intros [Hai Huser] Hp Ht. unfold latchesBacked. cbn.
  rewrite !existsb_app. cbn. rewrite !orb_false_r, !orb_true_iff. split.
  - intros H. destruct (Hp H); auto.
  - intros H. destruct (Ht H); auto.
Qed.

(** Changing the state cells without setting a flag. *)
Lemma latchesBacked_update x (f : App.State E -> App.State E) :
  latchesBacked x ->
  (App.isAiPlaying (f (App.state x)) = true -> App.isAiPlaying (App.state x) = true) ->
  (App.isAiThinking (f (App.state x)) = true -> App.isAiThinking (App.state x) = true) ->
  latchesBacked (App.update f x).
Proof. intros [Hai Huser] Hp Ht. unfold latchesBacked. cbn. auto. Qed.

(** Taking a settled call off the list: the flag it backed may be left
    without backing until the resumed segment clears or backs it. *)
Lemma dequeue_ai_call x (k : nat) t :
  latchesBacked x -> nth_error (App.suspended x) k = Some t -> isUserCall t = false ->
  App.isAiThinking (App.state x) = true ->
  existsb isUserCall (App.suspended (Page.dequeue k x)) = true.
Proof.
  intros [_ Huser] Hk Ht H. cbn. rewrite (existsb_removeNth_other _ _ _ _ Hk Ht). auto.
Qed.

Lemma dequeue_user_call x (k : nat) t :
  latchesBacked x -> nth_error (App.suspended x) k = Some t -> isAiCall t = false ->
  App.isAiPlaying (App.state x) = true ->
  existsb isAiCall (App.suspended (Page.dequeue k x)) = true.
Proof.
  intros [Hai _] Hk Ht H. cbn. rewrite (existsb_removeNth_other _ _ _ _ Hk Ht). auto.
Qed.

Lemma latchesBacked_onMove x (r : MoveRequest) :
  latchesBacked x -> latchesBacked (App.onMove x r).
Proof.
  intros H. unfold App.onMove. destruct (App.isAiPlaying _) eqn:Hp; [exact H|].
  destruct (Chess.moveFromTo E _ _); try exact H.
  apply latchesBacked_suspend; cbn; auto.
Qed.

Lemma latchesBacked_handleSendMessage x :
  latchesBacked x -> latchesBacked (App.handleSendMessage x).
Proof.
  intros H. unfold App.handleSendMessage. destruct (negb _); [exact H|].
  apply latchesBacked_suspend; cbn; auto.
Qed.

Lemma latchesBacked_step p (e : Page.Event) :
  latchesBacked (Page.session p) -> latchesBacked (Page.session (Page.step p e)).
Proof.
  intros H. destruct e as [sq|sq|sq| |text| |value| |k o draw|k].
  - rewrite step_click. destruct (submitted p (Page.Click sq)); cbn [Page.callOnMove];
      [now apply latchesBacked_onMove | exact H].
  - unfold Page.step. now destruct (ChessBoard.handleDragStart E _ _ _).
  - rewrite step_drop. destruct (submitted p (Page.Drop sq)); cbn [Page.callOnMove];
      [now apply latchesBacked_onMove | exact H].
  - exact H.
  - cbn [Page.step Page.session Page.withSession]. now apply latchesBacked_update.
  - unfold Page.step. destruct (_ || _); [exact H|].
    now apply latchesBacked_handleSendMessage.
  - unfold Page.step. destruct (App.isAiPlaying _); [exact H|].
    cbn [Page.session Page.withSession]. now apply latchesBacked_update.
  - cbn [Page.step Page.session Page.withSession]. now apply latchesBacked_update.
  - unfold Page.step.
    destruct (nth_error _ k) as [t|] eqn:Hk; [|exact H].
    pose proof (dequeue_ai_call _ k t H Hk) as Hthinking.
    pose proof (dequeue_user_call _ k t H Hk) as Hplaying.
    destruct t as [g hist elo0 mk|g mk|g mk|g hist mk|userMsg fen0 elo0];
      cbn [Page.session Page.withSession]; try exact H.
    + specialize (Hplaying eq_refl). clear Hthinking.
      unfold App.onMoveResume.
      destruct (getMoveAnalysis_returns (Chess.fen E g) hist elo0 o) as [a [-> _]].
      destruct (Chess.isGameOver E g); unfold latchesBacked; cbn;
        rewrite ?existsb_app; cbn; rewrite ?orb_false_r;
        (split; [exact Hplaying | discriminate]).
    + specialize (Hthinking eq_refl). clear Hplaying.
      unfold App.makeAiMoveResume.
      destruct (getBestMove_returns (Chess.fen E g) (App.cl_elo mk) o) as [m ->].
      assert (latchesBacked
                (App.update (App.setIsAiPlaying false) (Page.dequeue k (Page.session p))))
        as Hclear by (split; [discriminate | exact Hthinking]).
      destruct m as [m|]; [|exact Hclear].
      destruct (Js.truthy m); [|exact Hclear].
      destruct (Chess.move E _ (Some m)); [| |exact Hclear].
      * unfold latchesBacked. cbn. rewrite !existsb_app. cbn.
        rewrite orb_true_r, orb_false_r. split; [reflexivity | exact Hthinking].
      * destruct (Chess.move E _ (nth_error _ _)); try exact Hclear;
          (split; [discriminate | exact Hthinking]).
    + specialize (Hthinking eq_refl). clear Hplaying.
      unfold App.makeAiMoveAnalysed.
      destruct (GeminiChessService.getMoveAnalysis _ _ _ _);
        (split; [discriminate | exact Hthinking]).
    + specialize (Hplaying eq_refl). clear Hthinking.
      unfold App.handleSendMessageResume.
      destruct (getChatResponse_returns userMsg fen0 elo0 o) as [a [-> _]].
      split; [exact Hplaying | discriminate].
  - unfold Page.step.
    destruct (nth_error _ k) as [t|] eqn:Hk; [|exact H].
    pose proof (dequeue_ai_call _ k t H Hk) as Hthinking.
    pose proof (dequeue_user_call _ k t H Hk) as Hplaying.
    destruct t as [g hist elo0 mk|g mk|g mk|g hist mk|userMsg fen0 elo0];
      try exact H.
    cbn [Page.session Page.withSession]. unfold App.makeAiMove.
    destruct (Chess.isGameOver E g).
    + split; [exact (Hplaying eq_refl) | exact (Hthinking eq_refl)].
    + unfold latchesBacked. cbn. rewrite !existsb_app. cbn.
      rewrite orb_true_r, orb_false_r. split; [reflexivity | exact (Hthinking eq_refl)].
Qed.

Lemma aiTurnsLive_step p (e : Page.Event) :
  aiTurnsLive (Page.session p) -> aiTurnsLive (Page.session (Page.step p e)).
Proof.
  unfold aiTurnsLive. intros H.
  assert (forall r, forallb movesInLiveGame (App.suspended (App.onMove (Page.session p) r))
                    = true) as Hmove.
  { intros r. unfold App.onMove. destruct (App.isAiPlaying _); [exact H|].
    destruct (Chess.moveFromTo E _ _); try exact H.
    cbn. rewrite forallb_app, H. reflexivity. }
  destruct e as [sq|sq|sq| |text| |value| |k o draw|k].
  - rewrite step_click. destruct (submitted p (Page.Click sq)); cbn [Page.callOnMove];
      [apply Hmove | exact H].
  - unfold Page.step. now destruct (ChessBoard.handleDragStart E _ _ _).
  - rewrite step_drop. destruct (submitted p (Page.Drop sq)); cbn [Page.callOnMove];
      [apply Hmove | exact H].
  - exact H.
  - exact H.
  - unfold Page.step. destruct (_ || _); [exact H|].
    cbn [Page.session Page.withSession]. unfold App.handleSendMessage.
    destruct (negb _); [exact H|]. cbn. rewrite forallb_app, H. reflexivity.
  - unfold Page.step. now destruct (App.isAiPlaying _).
  - exact H.
  - unfold Page.step.
    pose proof (forallb_removeNth movesInLiveGame k _ H) as Hk.
    destruct (nth_error _ k) as [[g hist elo0 mk|g mk|g mk|g hist mk|userMsg fen0 elo0]|];
      cbn [Page.session Page.withSession]; try exact H.
    + unfold App.onMoveResume.
      destruct (GeminiChessService.getMoveAnalysis _ _ _ _); [|exact Hk].
      destruct (Chess.isGameOver E g) eqn:Hg; cbn; [exact Hk|].
      rewrite forallb_app, Hk. cbn. now rewrite Hg.
    + unfold App.makeAiMoveResume.
      destruct (GeminiChessService.getBestMove _ _ _) as [[m|]|]; try exact Hk.
      destruct (Js.truthy m); [|exact Hk].
      destruct (Chess.move E _ (Some m)); try exact Hk.
      * cbn. rewrite forallb_app, Hk. reflexivity.
      * destruct (Chess.move E _ (nth_error _ _)); exact Hk.
    + unfold App.makeAiMoveAnalysed.
      destruct (GeminiChessService.getMoveAnalysis _ _ _ _); exact Hk.
    + unfold App.handleSendMessageResume.
      destruct (GeminiChessService.getChatResponse _ _ _ _); exact Hk.
  - unfold Page.step.
    pose proof (forallb_removeNth movesInLiveGame k _ H) as Hk.
    destruct (nth_error _ k) as [[g hist elo0 mk|g mk|g mk|g hist mk|userMsg fen0 elo0]|];
      try exact H.
    cbn [Page.session Page.withSession]. unfold App.makeAiMove.
    destruct (Chess.isGameOver E g) eqn:Hg; [exact Hk|].
    cbn. rewrite forallb_app, Hk. cbn. now rewrite Hg.
Qed.

Lemma run_invariant (P : App.Session E -> Prop) :
  (forall p e, P (Page.session p) -> P (Page.session (Page.step p e))) ->
  forall es p, P (Page.session p) -> P (Page.session (Page.run p es)).
Proof.
  intros Hstep es. induction es as [|e es IH]; intros p Hp; [exact Hp|].
  change (Page.run p (e :: es)) with (Page.run (Page.step p e) es).
  apply IH. now apply Hstep.
Qed.

End Invariants.

(** X11. In every page reached from the initial one, whatever the
    events and the outcomes of the network calls, the busy flags are
    backed: while [isAiPlaying] is set (board and slider disabled) a
    move or analysis request of an AI turn is outstanding, and while
    [isAiThinking] is set (send button disabled) an analysis request of
    [onMove] or a chat request is. No flag is left set with nothing
    left to clear it. *)
Theorem X11_busy_flags_are_backed (E : Chess.Engine) (es : list Page.Event) :
  latchesBacked (Page.session (Page.run (Page.initialPage E) es)).
Proof.
  apply (run_invariant E latchesBacked (latchesBacked_step E)).
  split; discriminate.
Qed.

(** X12. In every page reached from the initial one, each AI turn that
    has still to move - timer pending or move request outstanding - is
    for a position that is not game over. So the game-over check that
    opens [makeAiMove] never stops a timer: when the timer of an AI
    turn fires, the turn starts and [isAiPlaying] is set. *)
Theorem X12_ai_turns_are_for_live_positions (E : Chess.Engine) (es : list Page.Event) :
  let p := Page.run (Page.initialPage E) es in
  aiTurnsLive (Page.session p)
  /\ forall k g mk,
       nth_error (App.suspended (Page.session p)) k = Some (App.AiTimer g mk) ->
       Chess.isGameOver E g = false
       /\ App.isAiPlaying (App.state (Page.session (Page.step p (Page.TimerFires k))))
          = true.
Proof.
  cbv zeta.
  assert (aiTurnsLive (Page.session (Page.run (Page.initialPage E) es))) as Hlive
    by (apply (run_invariant E aiTurnsLive (aiTurnsLive_step E)); reflexivity).
  split; [exact Hlive|]. intros k g mk Hk.
  assert (Chess.isGameOver E g = false) as Hg.
  { unfold aiTurnsLive in Hlive. rewrite forallb_forall in Hlive.
    specialize (Hlive _ (nth_error_In _ _ Hk)). cbn in Hlive.
    now destruct (Chess.isGameOver E g). }
  split; [exact Hg|]. unfold Page.step. rewrite Hk.
  cbn [Page.session Page.withSession]. unfold App.makeAiMove. now rewrite Hg.
Qed.

(** ** What an AI turn remembers *)

(** X13. An AI turn works with what the render in which the human
    moved had: its move request is for the position after the human's
    move at the rating of that moment, and the analysis request after
    its own move lists the history of that moment followed by the AI's
    move - whatever the rating and the history have become in the
    sessions [x1], [x2], [x3] in which its segments run. The move
    itself is appended to the history of the session it lands in. *)
Theorem X13_ai_turn_uses_captured_rating_and_history (E : Chess.Engine)
  (x x1 x2 x3 : App.Session E) (r : MoveRequest) (g g2 : Chess.Game E)
  (san token san2 : string) (o o' : GeminiChessService.ApiOutcome) (draw : nat) :
  App.isAiPlaying (App.state x) = false ->
  Chess.moveFromTo E (Chess.load E (Chess.fen E (App.game (App.state x))))
    (App.moveObject r) = Moved g san ->
  Chess.isGameOver E g = false ->
  GeminiChessService.getBestMove (Chess.fen E g) (App.elo (App.state x)) o'
  = Returns (Some token) ->
  Chess.move E (Chess.load E (Chess.fen E g)) (Some token) = Moved g2 san2 ->
  let mk := {| App.cl_elo := App.elo (App.state x);
               App.cl_history := App.history (App.state x) |} in
  let hist := App.history (App.state x) ++ [Some san] in
  App.suspended (App.onMove x r)
  = App.suspended x ++ [App.OnMoveAwaitsAnalysis g hist (App.elo (App.state x)) mk]
  /\ App.suspended (App.onMoveResume x1 g hist (App.elo (App.state x)) mk o)
     = App.suspended x1 ++ [App.AiTimer g mk]
  /\ App.suspended (App.makeAiMove x2 g mk)
     = App.suspended x2 ++ [App.AiAwaitsBestMove g mk]
  /\ App.requestOf (App.AiAwaitsBestMove g mk)
     = Some (GeminiChessService.bestMoveRequest (Chess.fen E g) (App.elo (App.state x)))
  /\ App.suspended (App.makeAiMoveResume x3 g mk o' draw)
     = App.suspended x3
       ++ [App.AiAwaitsAnalysis g2 (App.history (App.state x) ++ [Some san2]) mk]
  /\ App.requestOf
       (App.AiAwaitsAnalysis g2 (App.history (App.state x) ++ [Some san2]) mk)
     = Some (GeminiChessService.analysisRequest (Chess.fen E g2)
               (App.history (App.state x) ++ [Some san2]) (App.elo (App.state x)))
  /\ App.history (App.state (App.makeAiMoveResume x3 g mk o' draw))
     = App.history (App.state x3) ++ [Some san2]
  /\ App.game (App.state (App.makeAiMoveResume x3 g mk o' draw)) = g2.
Proof.
  intros Hai Hmove Hover Htoken Hplayed. cbv zeta.
  assert (Js.truthy token = true) as Htruthy.
  { pose proof Htoken as Hshape. unfold GeminiChessService.getBestMove in Hshape.
    destruct o' as [|[t|]]; cbn in Hshape; try discriminate.
    destruct (Js.truthy (Js.removeDots (Js.trim t))) eqn:Ht; [|discriminate].
    injection Hshape as <-. exact Ht. }
  split; [unfold App.onMove; now rewrite Hai, Hmove|].
  split.
  { unfold App.onMoveResume.
    destruct (getMoveAnalysis_returns (Chess.fen E g)
                (App.history (App.state x) ++ [Some san]) (App.elo (App.state x)) o)
      as [a [-> _]].
    now rewrite Hover. }
  split; [unfold App.makeAiMove; now rewrite Hover|].
  split; [reflexivity|].
  unfold App.makeAiMoveResume. cbn [App.cl_elo App.cl_history].
  rewrite Htoken, Htruthy, Hplayed. repeat split.
Qed.

(** The rating is raised while the analysis of 1. e4 is awaited: the
    AI turn still asks for a move at 1500, and its analysis request
    lists the history without the human's move. *)
Example ai_turn_rating_and_history_example :
  let E := Repertoire.engine true in
  let ok t := GeminiChessService.ApiResponds (Some t) in
  let p1 := Page.run (Page.initialPage E)
              [Page.Click "e2"; Page.Click "e4"; Page.ChangeElo 3000;
               Page.Settles 0 (ok "A classical opening.") 0; Page.TimerFires 0] in
  let p2 := Page.step p1 (Page.Settles 0 (ok "e5") 0) in
  App.elo (App.state (Page.session p1)) = 3000%Z
  /\ map App.requestOf (App.suspended (Page.session p1))
     = [Some (GeminiChessService.bestMoveRequest Repertoire.fenE4 1500)]
  /\ App.history (App.state (Page.session p2)) = [Some "e4"; Some "e5"]
  /\ map App.requestOf (App.suspended (Page.session p2))
     = [Some (GeminiChessService.analysisRequest Repertoire.fenE4E5 [Some "e5"] 1500)].
Proof. by_evaluation. Qed.

Lemma X13_ai_turn_uses_captured_rating_and_history_witness :
  let E := Repertoire.engine true in
  let x := App.initialSession E in
  let r := {| req_from := "e2"; req_to := "e4"; req_promotion := Some "q" |} in
  let o' := GeminiChessService.ApiResponds (Some "e5") in
  App.isAiPlaying (App.state x) = false
  /\ Chess.moveFromTo E (Chess.load E (Chess.fen E (App.game (App.state x))))
       (App.moveObject r) = Moved Repertoire.fenE4 "e4"
  /\ Chess.isGameOver E Repertoire.fenE4 = false
  /\ GeminiChessService.getBestMove (Chess.fen E Repertoire.fenE4)
       (App.elo (App.state x)) o' = Returns (Some "e5")
  /\ Chess.move E (Chess.load E (Chess.fen E Repertoire.fenE4)) (Some "e5")
     = Moved Repertoire.fenE4E5 "e5"
  /\ App.history (App.state
       (App.makeAiMoveResume (App.onMove x r) Repertoire.fenE4
          {| App.cl_elo := App.elo (App.state x);
             App.cl_history := App.history (App.state x) |} o' 0))
     = App.history (App.state (App.onMove x r)) ++ [Some "e5"].
Proof.
  cbv zeta.
  split; [exact eq_refl|]. split; [exact eq_refl|]. split; [exact eq_refl|].
  split; [exact eq_refl|]. split; [exact eq_refl|].
  exact (proj1 (proj2 (proj2 (proj2 (proj2 (proj2 (proj2
    (X13_ai_turn_uses_captured_rating_and_history (Repertoire.engine true)
       (App.initialSession _) (App.initialSession _) (App.initialSession _)
       (App.onMove (App.initialSession _)
          {| req_from := "e2"; req_to := "e4"; req_promotion := Some "q" |})
       {| req_from := "e2"; req_to := "e4"; req_promotion := Some "q" |}
       Repertoire.fenE4 Repertoire.fenE4E5 "e4" "e5" "e5"
       GeminiChessService.ApiRejects (GeminiChessService.ApiResponds (Some "e5")) 0
       eq_refl eq_refl eq_refl eq_refl eq_refl)))))))).
Defined.

(** ** New game *)

(** X14. "New Game" resets position, history, analysis text and chat
    log, and nothing else: the rating, the input, both busy flags and
    every suspended call stay. An AI turn in flight is therefore not
    cancelled: when its move arrives it is played on the position the
    turn had captured and becomes the only record of the new game. *)
Theorem X14_new_game_keeps_suspended_calls (E : Chess.Engine) (x : App.Session E)
  (g g2 : Chess.Game E) (mk : App.AiClosure) (o : GeminiChessService.ApiOutcome)
  (draw : nat) (token san2 : string) :
  GeminiChessService.getBestMove (Chess.fen E g) (App.cl_elo mk) o
  = Returns (Some token) ->
  Chess.move E (Chess.load E (Chess.fen E g)) (Some token) = Moved g2 san2 ->
  let y := App.resetGame x in
  let z := App.makeAiMoveResume y g mk o draw in
  App.game (App.state y) = Chess.new E
  /\ App.history (App.state y) = []
  /\ App.chatMessages (App.state y) = []
  /\ App.aiAnalysis (App.state y) = "New game started. You are White."
  /\ App.suspended y = App.suspended x
  /\ App.isAiPlaying (App.state y) = App.isAiPlaying (App.state x)
  /\ App.isAiThinking (App.state y) = App.isAiThinking (App.state x)
  /\ App.elo (App.state y) = App.elo (App.state x)
  /\ App.inputMessage (App.state y) = App.inputMessage (App.state x)
  /\ App.history (App.state z) = [Some san2]
  /\ App.game (App.state z) = g2.
Proof.
  intros Htoken Hplayed. cbv zeta.
  assert (Js.truthy token = true) as Htruthy.
  { pose proof Htoken as Hshape. unfold GeminiChessService.getBestMove in Hshape.
    destruct o as [|[t|]]; cbn in Hshape; try discriminate.
    destruct (Js.truthy (Js.removeDots (Js.trim t))) eqn:Ht; [|discriminate].
    injection Hshape as <-. exact Ht. }
  do 9 (split; [reflexivity|]).
  unfold App.makeAiMoveResume. rewrite Htoken, Htruthy, Hplayed. split; reflexivity.
Qed.

Lemma X14_new_game_keeps_suspended_calls_witness :
  let E := Repertoire.engine true in
  let o := GeminiChessService.ApiResponds (Some "e5") in
  let mk := {| App.cl_elo := 1500; App.cl_history := [] |} in
  GeminiChessService.getBestMove (Chess.fen E Repertoire.fenE4) (App.cl_elo mk) o
  = Returns (Some "e5")
  /\ Chess.move E (Chess.load E (Chess.fen E Repertoire.fenE4)) (Some "e5")
     = Moved Repertoire.fenE4E5 "e5"
  /\ App.history (App.state
       (App.makeAiMoveResume (App.resetGame (Page.session pageAiThinking))
          Repertoire.fenE4 mk o 0))
     = [Some "e5"].
Proof.
  cbv zeta. split; [exact eq_refl|]. split; [exact eq_refl|].
  exact (proj1 (proj2 (proj2 (proj2 (proj2 (proj2 (proj2 (proj2 (proj2 (proj2
    (X14_new_game_keeps_suspended_calls (Repertoire.engine true)
       (Page.session pageAiThinking) Repertoire.fenE4 Repertoire.fenE4E5
       {| App.cl_elo := 1500; App.cl_history := [] |}
       (GeminiChessService.ApiResponds (Some "e5")) 0 "e5" "e5"
       eq_refl eq_refl))))))))))).
Defined.

(** ** The board *)

Section Board.

Variable E : Chess.Engine.

Implicit Types (p : Page.Page E) (props : ChessBoard.Props) (b : ChessBoard.State).

Lemma includesSquare_In (l : list Square) (square : Square) :
  ChessBoard.includesSquare l square = true <-> In square l.
Proof.
  unfold ChessBoard.includesSquare. rewrite existsb_exists. split.
  - intros [y [Hin Hy]]. apply String.eqb_eq in Hy. now subst.
  - intros H. exists square. split; [exact H | apply String.eqb_refl].
Qed.

Lemma handleSquareClick_submits props b (square : Square) (r : MoveRequest) :
  snd (ChessBoard.handleSquareClick E props b square) = Some r ->
  ChessBoard.isGameOver props = false
  /\ ChessBoard.selectedSquare b = Some (req_from r)
  /\ req_from r <> square
  /\ req_to r = square
  /\ In square (ChessBoard.validMoves b)
  /\ ChessBoard.ownPiece E (Chess.load E (ChessBoard.fen props)) square = false
  /\ fst (ChessBoard.handleSquareClick E props b square) = ChessBoard.deselect b.
Proof.
  unfold ChessBoard.handleSquareClick.
  destruct (ChessBoard.isGameOver props); [discriminate|].
  destruct (ChessBoard.selectedSquare b) as [sel|]; cbn [snd fst].
  - destruct (String.eqb_spec sel square) as [->|Hne]; [discriminate|].
    destruct (ChessBoard.ownPiece E _ square); [discriminate|].
    destruct (Js.truthy sel); cbn [andb]; [|discriminate].
    destruct (ChessBoard.includesSquare _ square) eqn:Hin; [|discriminate].
    intros H. injection H as <-. cbn. repeat split; try easy.
    now apply includesSquare_In.
  - destruct (ChessBoard.ownPiece E _ square); discriminate.
Qed.

End Board.

(** X15. The board calls [onMove] only for a destination that is among
    the highlighted squares: on a click, with the board enabled, from
    the selected square to the clicked one, which holds no piece of the
    side to move; on a drop, from the square carried by the drag. In
    both cases the highlights are cleared. *)
Theorem X15_board_submits_highlighted_moves (E : Chess.Engine) (p : Page.Page E)
  (e : Page.Event) (r : MoveRequest) :
  submitted p e = Some r ->
  In (req_to r) (ChessBoard.validMoves (Page.board p))
  /\ ChessBoard.validMoves (Page.board (Page.step p e)) = []
  /\ ((e = Page.Click (req_to r)
       /\ ChessBoard.selectedSquare (Page.board p) = Some (req_from r)
       /\ ChessBoard.isGameOver (Page.boardProps (Page.session p)) = false
       /\ ChessBoard.ownPiece E
            (Chess.load E (ChessBoard.fen (Page.boardProps (Page.session p))))
            (req_to r) = false)
      \/ (e = Page.Drop (req_to r) /\ Page.drag p = Some (req_from r))).
Proof.
  destruct e as [sq|sq|sq| |text| |value| |k o draw|k]; cbn [submitted];
    try discriminate.
  - intros H.
    destruct (handleSquareClick_submits E _ _ _ _ H)
      as [Hover [Hsel [_ [Hto [Hin [Hown Hfst]]]]]].
    subst sq. split; [exact Hin|]. split.
    + unfold Page.step.
      destruct (ChessBoard.handleSquareClick E _ _ _) as [b' call] eqn:Hc.
      cbn [fst] in Hfst. cbn [Page.board]. now rewrite Hfst.
    + left. auto.
  - destruct (Page.drag p) as [data|] eqn:Hdrag; [|discriminate].
    unfold ChessBoard.handleDrop. cbn [snd].
    destruct (ChessBoard.includesSquare _ sq) eqn:Hin; [|discriminate].
    intros H. injection H as <-. cbn [req_to req_from].
    split; [now apply includesSquare_In|]. split.
    + unfold Page.step. rewrite Hdrag. reflexivity.
    + right. auto.
Qed.

Lemma X15_board_submits_highlighted_moves_witness :
  submitted pagePromotion (Page.Click "a8")
  = Some {| req_from := "a7"; req_to := "a8"; req_promotion := Some "q" |}
  /\ In "a8" (ChessBoard.validMoves (Page.board pagePromotion)).
Proof.
  split; [exact eq_refl|].
  exact (proj1 (X15_board_submits_highlighted_moves _ pagePromotion (Page.Click "a8")
                  {| req_from := "a7"; req_to := "a8"; req_promotion := Some "q" |}
                  eq_refl)).
Defined.

(** ** Rendering the board *)

Section Rendering.

Variable E : Chess.Engine.

Implicit Types (props : ChessBoard.Props) (b : ChessBoard.State) (cell : ChessBoard.Cell).

Lemma in_renderBoard props b cell :
  In cell (ChessBoard.renderBoard E props b) ->
  exists row col, In row ChessBoard.rows /\ In col ChessBoard.cols
                  /\ cell = ChessBoard.renderCell E props b row col.
Proof.
  unfold ChessBoard.renderBoard. rewrite in_flat_map.
  intros [row [Hrow Hcell]]. apply in_map_iff in Hcell as [col [<- Hcol]].
  now exists row, col.
Qed.

Lemma boardSquares_NoDup : NoDup boardSquares.
Proof.
  replace boardSquares with (nodup string_dec boardSquares) by exact eq_refl.
  apply NoDup_nodup.
Qed.

Lemma pieceImage_total_injective (piece : Piece) :
  exists url,
    ChessBoard.pieceImage
      (ChessBoard.colorLetter (color piece)
       ++ Js.toUpperCase (ChessBoard.typeLetter (type piece)))%string = Some url
    /\ forall piece',
         ChessBoard.pieceImage
           (ChessBoard.colorLetter (color piece')
            ++ Js.toUpperCase (ChessBoard.typeLetter (type piece')))%string = Some url ->
         piece' = piece.
Proof.
  destruct piece as [[] []]; eexists; (split; [reflexivity|]);
    intros [[] []] H; vm_compute in H; first [reflexivity | discriminate H].
Qed.

End Rendering.

(** X16. Whatever the position and the selection, [renderBoard] lays
    out the 64 squares once each, from a8 along the ranks to h1, in
    alternating colours with a1 dark and h1 light. *)
Theorem X16_board_layout (E : Chess.Engine) (props : ChessBoard.Props)
  (b : ChessBoard.State) :
  map ChessBoard.key (ChessBoard.renderBoard E props b) = boardSquares
  /\ length boardSquares = 64
  /\ NoDup boardSquares
  /\ map ChessBoard.dark (ChessBoard.renderBoard E props b)
     = map (fun i => Nat.odd (i / 8 + i mod 8)) (seq 0 64)
  /\ nth_error (map (fun c => (ChessBoard.key c, ChessBoard.dark c))
                  (ChessBoard.renderBoard E props b)) 0 = Some ("a8", false)
  /\ nth_error (map (fun c => (ChessBoard.key c, ChessBoard.dark c))
                  (ChessBoard.renderBoard E props b)) 56 = Some ("a1", true)
  /\ nth_error (map (fun c => (ChessBoard.key c, ChessBoard.dark c))
                  (ChessBoard.renderBoard E props b)) 63 = Some ("h1", false).
Proof.
  split; [exact eq_refl|]. split; [exact eq_refl|].
  split; [exact boardSquares_NoDup|].
  split; [exact eq_refl|]. split; [exact eq_refl|]. split; exact eq_refl.
Qed.

(** X17. Every piece has its image: the key built from a piece's
    colour and type is in [PIECE_IMAGES], and no two pieces share an
    image. So each rendered square with a piece shows an image with a
    source, and a square without an image is an empty square. *)
Theorem X17_every_piece_has_its_image (E : Chess.Engine) (props : ChessBoard.Props)
  (b : ChessBoard.State) (row col : string) (piece : Piece) :
  (exists url,
     ChessBoard.pieceImage
       (ChessBoard.colorLetter (color piece)
        ++ Js.toUpperCase (ChessBoard.typeLetter (type piece)))%string = Some url
     /\ forall piece',
          ChessBoard.pieceImage
            (ChessBoard.colorLetter (color piece')
             ++ Js.toUpperCase (ChessBoard.typeLetter (type piece')))%string
          = Some url ->
          piece' = piece)
  /\ match ChessBoard.img (ChessBoard.renderCell E props b row col) with
     | Some im => exists url, ChessBoard.src im = Some url
     | None =>
         Chess.get E (Chess.load E (ChessBoard.fen props)) (col ++ row)%string = None
     end.
Proof.
  split; [apply pieceImage_total_injective|].
  unfold ChessBoard.renderCell. cbn [ChessBoard.img].
  destruct (Chess.get E _ _) as [pc|]; [|reflexivity]. cbn [ChessBoard.src].
  destruct (pieceImage_total_injective pc) as [url [Hurl _]]. now exists url.
Qed.

(** X18. The pieces rendered as draggable are exactly those whose drag
    the handler lets start: for every rendered square, its image is
    marked draggable if and only if [handleDragStart] on that square
    puts the square in the drag data (instead of preventing the drag). *)
Theorem X18_draggable_matches_drag_start (E : Chess.Engine) (props : ChessBoard.Props)
  (b : ChessBoard.State) (cell : ChessBoard.Cell) :
  In cell (ChessBoard.renderBoard E props b) ->
  (exists im, ChessBoard.img cell = Some im /\ ChessBoard.draggable im = true)
  <-> snd (ChessBoard.handleDragStart E props b (ChessBoard.key cell))
      = Some (ChessBoard.key cell).
Proof.
  intros Hin. apply in_renderBoard in Hin as [row [col [_ [_ ->]]]].
  unfold ChessBoard.renderCell, ChessBoard.handleDragStart, ChessBoard.ownPiece.
  cbn [ChessBoard.img ChessBoard.key].
  destruct (ChessBoard.isGameOver props);
    destruct (Chess.get E _ _) as [pc|]; cbn;
    try destruct (Color_eqb _ _); cbn; split;
    try (intros [im [H1 H2]]); try discriminate; try reflexivity;
    try (injection H1 as <-; discriminate H2).
  intros _. eexists. split; reflexivity.
Qed.

Lemma X18_draggable_matches_drag_start_witness :
  let E := Repertoire.engine true in
  let props := Page.boardProps (App.initialSession E) in
  let cell := ChessBoard.renderCell E props ChessBoard.initialState "2" "e" in
  In cell (ChessBoard.renderBoard E props ChessBoard.initialState)
  /\ snd (ChessBoard.handleDragStart E props ChessBoard.initialState "e2") = Some "e2".
Proof.
  cbv zeta.
  assert (In (ChessBoard.renderCell (Repertoire.engine true)
                (Page.boardProps (App.initialSession (Repertoire.engine true)))
                ChessBoard.initialState "2" "e")
             (ChessBoard.renderBoard (Repertoire.engine true)
                (Page.boardProps (App.initialSession (Repertoire.engine true)))
                ChessBoard.initialState)) as Hin.
  { unfold ChessBoard.renderBoard. apply in_flat_map. exists "2". split.
    - cbn. tauto.
    - apply in_map. cbn. tauto. }
  split; [exact Hin|].
  apply (proj1 (X18_draggable_matches_drag_start _ _ _ _ Hin)).
  eexists. split; exact eq_refl.
Defined.

(** ** Selecting a piece *)

(** X20. On the enabled board, a click on a piece of the side to move
    never calls [onMove]: it selects the piece and highlights the
    engine's destinations for it, and a second click on it clears
    selection and highlights again. *)
Theorem X20_click_selects_then_deselects (E : Chess.Engine) (props : ChessBoard.Props)
  (b : ChessBoard.State) (square : Square) :
  ChessBoard.isGameOver props = false ->
  ChessBoard.ownPiece E (Chess.load E (ChessBoard.fen props)) square = true ->
  ChessBoard.selectedSquare b <> Some square ->
  let b1 := fst (ChessBoard.handleSquareClick E props b square) in
  snd (ChessBoard.handleSquareClick E props b square) = None
  /\ ChessBoard.selectedSquare b1 = Some square
  /\ ChessBoard.validMoves b1
     = Chess.movesFrom E (Chess.load E (ChessBoard.fen props)) square
  /\ ChessBoard.handleSquareClick E props b1 square
     = ({| ChessBoard.selectedSquare := None;
           ChessBoard.validMoves := [];
           ChessBoard.draggedSquare := ChessBoard.draggedSquare b |}, None).
Proof.
  intros Hover Hown Hsel. cbv zeta.
  assert (ChessBoard.handleSquareClick E props b square
          = ({| ChessBoard.selectedSquare := Some square;
                ChessBoard.validMoves :=
                  Chess.movesFrom E (Chess.load E (ChessBoard.fen props)) square;
                ChessBoard.draggedSquare := ChessBoard.draggedSquare b |}, None)) as H1.
  { unfold ChessBoard.handleSquareClick. rewrite Hover, Hown.
    destruct (ChessBoard.selectedSquare b) as [sel|]; [|reflexivity].
    destruct (String.eqb_spec sel square) as [->|Hne]; [now elim Hsel | reflexivity]. }
  rewrite H1. cbn [fst snd]. repeat split.
  unfold ChessBoard.handleSquareClick. rewrite Hover.
  cbn [ChessBoard.selectedSquare]. now rewrite String.eqb_refl.
Qed.

Lemma X20_click_selects_then_deselects_witness :
  let E := Repertoire.engine true in
  let props := Page.boardProps (App.initialSession E) in
  ChessBoard.isGameOver props = false
  /\ ChessBoard.ownPiece E (Chess.load E (ChessBoard.fen props)) "e2" = true
  /\ ChessBoard.selectedSquare ChessBoard.initialState <> Some "e2"
  /\ ChessBoard.validMoves
       (fst (ChessBoard.handleSquareClick E props ChessBoard.initialState "e2"))
     = Chess.movesFrom E (Chess.load E (ChessBoard.fen props)) "e2".
Proof.
  cbv zeta.
  assert (ChessBoard.selectedSquare ChessBoard.initialState <> Some "e2") as Hsel
    by discriminate.
  split; [exact eq_refl|]. split; [exact eq_refl|]. split; [exact Hsel|].
  exact (proj1 (proj2 (proj2
    (X20_click_selects_then_deselects (Repertoire.engine true)
       (Page.boardProps (App.initialSession (Repertoire.engine true)))
       ChessBoard.initialState "e2" eq_refl eq_refl Hsel)))).
Defined.

(** ** The rating *)

Section Rating.

Variable E : Chess.Engine.

Implicit Types (x : App.Session E) (p : Page.Page E) (mk : App.AiClosure).

Lemma step_elo p (e : Page.Event) :
  (forall value, e <> Page.ChangeElo value) ->
  App.elo (App.state (Page.session (Page.step p e)))
  = App.elo (App.state (Page.session p)).
Proof.
  intros Hslider.
  assert (forall r, App.elo (App.state (App.onMove (Page.session p) r))
                    = App.elo (App.state (Page.session p))) as Hmove.
  { intros r. unfold App.onMove. destruct (App.isAiPlaying _); [reflexivity|].
    now destruct (Chess.moveFromTo E _ _). }
  destruct e as [sq|sq|sq| |text| |value| |k o draw|k].
  - rewrite step_click. destruct (submitted p (Page.Click sq)); cbn [Page.callOnMove];
      [apply Hmove | reflexivity].
  - unfold Page.step. now destruct (ChessBoard.handleDragStart E _ _ _).
  - rewrite step_drop. destruct (submitted p (Page.Drop sq)); cbn [Page.callOnMove];
      [apply Hmove | reflexivity].
  - reflexivity.
  - reflexivity.
  - unfold Page.step. destruct (_ || _); [reflexivity|].
    cbn [Page.session Page.withSession]. unfold App.handleSendMessage.
    now destruct (negb _).
  - now elim (Hslider value).
  - reflexivity.
  - unfold Page.step.
    destruct (nth_error _ k) as [[g hist elo0 mk|g mk|g mk|g hist mk|userMsg fen0 elo0]|];
      cbn [Page.session Page.withSession]; try reflexivity.
    + unfold App.onMoveResume.
      destruct (GeminiChessService.getMoveAnalysis _ _ _ _); [|reflexivity].
      now destruct (Chess.isGameOver E g).
    + unfold App.makeAiMoveResume.
      destruct (GeminiChessService.getBestMove _ _ _) as [[m|]|]; try reflexivity.
      destruct (Js.truthy m); [|reflexivity].
      destruct (Chess.move E _ (Some m)); try reflexivity.
      now destruct (Chess.move E _ (nth_error _ _)).
    + unfold App.makeAiMoveAnalysed.
      now destruct (GeminiChessService.getMoveAnalysis _ _ _ _).
    + unfold App.handleSendMessageResume.
      now destruct (GeminiChessService.getChatResponse _ _ _ _).
  - unfold Page.step.
    destruct (nth_error _ k) as [[g hist elo0 mk|g mk|g mk|g hist mk|userMsg fen0 elo0]|];
      cbn [Page.session Page.withSession]; try reflexivity.
    unfold App.makeAiMove. now destruct (Chess.isGameOver E g).
Qed.

End Rating.

(** X21. Nothing but the slider touches the rating: over any run of
    events without a slider change - moves, AI turns, chat, new game -
    the rating stays what it was. *)
Theorem X21_only_the_slider_changes_the_rating (E : Chess.Engine) (p : Page.Page E)
  (es : list Page.Event) :
  (forall value, ~ In (Page.ChangeElo value) es) ->
  App.elo (App.state (Page.session (Page.run p es)))
  = App.elo (App.state (Page.session p)).
Proof.
  revert p; induction es as [|e es IH]; intros p Hslider; [reflexivity|].
  change (Page.run p (e :: es)) with (Page.run (Page.step p e) es).
  rewrite IH.
  - apply step_elo. intros value ->. apply (Hslider value). now left.
  - intros value Hin. apply (Hslider value). now right.
Qed.

Lemma X21_only_the_slider_changes_the_rating_witness :
  (forall value, ~ In (Page.ChangeElo value)
                   [Page.NewGame; Page.Settles 0 GeminiChessService.ApiRejects 0])
  /\ App.elo (App.state (Page.session
       (Page.run pageAiThinking
          [Page.NewGame; Page.Settles 0 GeminiChessService.ApiRejects 0])))
     = App.elo (App.state (Page.session pageAiThinking)).
Proof.
  assert (forall value, ~ In (Page.ChangeElo value)
                          [Page.NewGame; Page.Settles 0 GeminiChessService.ApiRejects 0])
    as Hslider by (intros value [H|[H|[]]]; discriminate H).
  split; [exact Hslider|].
  exact (X21_only_the_slider_changes_the_rating _ pageAiThinking _ Hslider).
Defined.
